(** * FlatBuffers language-server extension: acquisition and lifecycle of the server binary

    A shallow embedding of [src/extension.ts].  The extension's asynchronous
    functions are written in a state-and-exception monad over a [World]
    (file system, persisted state, settings, and the observable traces:
    network requests, messages, console lines, notifications).  Whatever the
    outside decides (the release index, the transfer, the archive decoders,
    the user's choices, permission failures) is read from an [Env].

    How the code is read:
    - An exception is its message ([error?.message || error]).
    - The file system is a finite map from path strings to files and
      directories.  [path.join] is taken on normalised operands, where it is
      concatenation with the separator; a release tag or asset name is
      expected to be a single path segment.  [fs.ensureDir] records the
      directory itself; [fs.readdir] lists in the order in which the map
      enumerates its keys.
    - New files get mode [0o644] (420); [0o755] is 493.
    - An archive that does not unpack writes nothing; a removal that is
      refused removes nothing.
    - [context.globalState.update] takes effect and does not fail;
      [config.update] may fail.
    - An async function called without [await] runs up to its first [await]
      at the call; what is left of it becomes a pending [Task] and runs
      ([run_task]) after its caller has gone on.
    - [fs.chmod] may be refused, like the creation of a directory or a
      removal.
    - [process.platform], [process.arch], [path.extname], [which],
      [workspace.findFiles], [Uri.file] and the URI encoding come from the
      environment. *)

From Stdlib Require Import ZArith Ascii String.
From stdpp Require Import gmap strings list fin_maps.

Local Open Scope string_scope.
Local Open Scope list_scope.

(** ** Constants of the extension *)

Definition GITHUB_REPO : string := "smpanaro/flatbuffers-language-server".
Definition BINARY_NAME : string := "flatbuffers-language-server".
Definition VERSION_PREFIX : string := "flatbuffers-language-server-".

Definition LATEST_VERSION_KEY : string := "latestKnownVersion".
Definition LATEST_SKIPPED_VERSION_KEY : string := "latestSkippedVersion".

Definition CONFIG_NAME : string := "flatbuffers".
Definition AUTO_DOWNLOAD_CONFIG : string := "languageServer.autoDownload".
Definition PATH_CONFIG : string := "languageServer.path".

(** ** JavaScript string helpers *)

(** [strip_prefix p s] is the rest of [s] after its prefix [p], if [s] starts
    with [p]. *)
Fixpoint strip_prefix (p s : string) : option string :=
  match p with
  | EmptyString => Some s
  | String a p' =>
      match s with
      | EmptyString => None
      | String b s' => if Ascii.eqb a b then strip_prefix p' s' else None
      end
  end.

(** [String.prototype.startsWith]. *)
Definition startsWith (s p : string) : bool :=
  match strip_prefix p s with Some _ => true | None => false end.

(** [String.prototype.endsWith]. *)
Definition endsWith (s suffix : string) : bool :=
  startsWith (String.rev s) (String.rev suffix).

(** [String.prototype.split] with a one-character separator. *)
Fixpoint split (c : ascii) (s : string) : list string :=
  match s with
  | EmptyString => [EmptyString]
  | String a s' =>
      if Ascii.eqb a c then EmptyString :: split c s'
      else match split c s' with
           | x :: xs => String a x :: xs
           | [] => [String a EmptyString]
           end
  end.

(** Does the character occur in the string? *)
Fixpoint has_char (c : ascii) (s : string) : bool :=
  match s with
  | EmptyString => false
  | String a s' => Ascii.eqb a c || has_char c s'
  end.

(** JavaScript truthiness of a [string | null] value. *)
Definition truthy (v : option string) : bool :=
  match v with
  | Some s => negb (String.eqb s "")
  | None => false
  end.

(** ** Data model *)

Record Asset := { name : string; browser_download_url : string }.

Record Release := { tag_name : string; assets : list Asset }.

(** A file-system entry: a regular file with its content and permission
    bits, or a directory. *)
Inductive Node :=
| File (content : string) (mode : Z)
| Dir.

(** A value of the workspace configuration. *)
Inductive Setting :=
| SString (s : string)
| SBool (b : bool).

(** What the user gets to see. *)
Inductive UiEvent :=
| ErrorMessage (text : string)
| InformationMessage (text : string) (items : list string)
| ProgressReport (title message : string).

Inductive LogLine :=
| ConsoleLog (text : string)
| ConsoleError (text err : string).

(** Calls of async functions that are not awaited.  Such a call runs the
    function up to its first [await] at once; what is left of it waits and
    runs after the caller has gone on.  The update check waits for the answer
    of the release index, [response], having asked for it; the reaper waits
    for the listing of the storage root, which is taken when it goes on. *)
Inductive Task :=
| CheckForUpdates (cachedVersion : string) (shouldAutoDownload : bool)
    (response : string + Release)
| CleanupOldVersions (storagePath currentVersionDir : string).

Inductive FileChangeType := Created | Changed | Deleted.

Record Uri := { fsPath : string; toString : string }.

Record FileEvent := { uri : string; type : FileChangeType }.

(** The outcome of streaming an asset: the request itself may fail, the
    stream may break after some bytes, or the whole body arrives. *)
Inductive Transfer :=
| RequestFailed (err : string)
| Interrupted (received err : string)
| Completed (body : string).

(** The mutable state the extension works on, with the traces of what it
    did. *)
Record World := {
  fs : gmap string Node;
  globalState : gmap string string;
  settings : gmap string Setting;
  requests : list string;
  ui : list UiEvent;
  console : list LogLine;
  pending : list Task;
  commandsRun : list string;
  sent : list (list FileEvent)
}.

(** What the outside world decides. *)
Record Env := {
  platform : string;
  arch : string;
  globalStoragePath : string;
  which : string -> option string;
  releases : nat -> string + Release;
  transfer : string -> Transfer;
  unzip : string -> string + list (string * Node);
  untar : string -> string + list (string * Node);
  mkdir_denied : string -> bool;
  remove_denied : string -> bool;
  chmod_denied : string -> bool;
  settings_update_error : option string;
  choice : string -> option string;
  revealUri : string -> string;
  extname : string -> string;
  findFiles : string -> list Uri;
  send_error : option string
}.

(** ** Field updates *)

Definition with_fs (f : gmap string Node -> gmap string Node) (w : World) : World :=
  {| fs := f (fs w); globalState := globalState w; settings := settings w;
     requests := requests w; ui := ui w; console := console w;
     pending := pending w; commandsRun := commandsRun w; sent := sent w |}.

Definition with_globalState (f : gmap string string -> gmap string string) (w : World) : World :=
  {| fs := fs w; globalState := f (globalState w); settings := settings w;
     requests := requests w; ui := ui w; console := console w;
     pending := pending w; commandsRun := commandsRun w; sent := sent w |}.

Definition with_settings (f : gmap string Setting -> gmap string Setting) (w : World) : World :=
  {| fs := fs w; globalState := globalState w; settings := f (settings w);
     requests := requests w; ui := ui w; console := console w;
     pending := pending w; commandsRun := commandsRun w; sent := sent w |}.

Definition add_request (url : string) (w : World) : World :=
  {| fs := fs w; globalState := globalState w; settings := settings w;
     requests := requests w ++ [url]; ui := ui w; console := console w;
     pending := pending w; commandsRun := commandsRun w; sent := sent w |}.

Definition add_ui (e : UiEvent) (w : World) : World :=
  {| fs := fs w; globalState := globalState w; settings := settings w;
     requests := requests w; ui := ui w ++ [e]; console := console w;
     pending := pending w; commandsRun := commandsRun w; sent := sent w |}.

Definition add_console (l : LogLine) (w : World) : World :=
  {| fs := fs w; globalState := globalState w; settings := settings w;
     requests := requests w; ui := ui w; console := console w ++ [l];
     pending := pending w; commandsRun := commandsRun w; sent := sent w |}.

Definition add_pending (t : Task) (w : World) : World :=
  {| fs := fs w; globalState := globalState w; settings := settings w;
     requests := requests w; ui := ui w; console := console w;
     pending := pending w ++ [t]; commandsRun := commandsRun w; sent := sent w |}.

Definition add_command (c : string) (w : World) : World :=
  {| fs := fs w; globalState := globalState w; settings := settings w;
     requests := requests w; ui := ui w; console := console w;
     pending := pending w; commandsRun := commandsRun w ++ [c]; sent := sent w |}.

Definition add_sent (n : list FileEvent) (w : World) : World :=
  {| fs := fs w; globalState := globalState w; settings := settings w;
     requests := requests w; ui := ui w; console := console w;
     pending := pending w; commandsRun := commandsRun w; sent := sent w ++ [n] |}.

(** ** The monad: state with exceptions *)

Inductive Outcome (A : Type) :=
| Returned (a : A)
| Thrown (err : string).

Arguments Returned {A} a.
Arguments Thrown {A} err.

Definition M (A : Type) : Type := World -> Outcome A * World.

Definition ret {A} (a : A) : M A := fun w => (Returned a, w).

Definition bind {A B} (m : M A) (k : A -> M B) : M B :=
  fun w =>
    match m w with
    | (Returned a, w') => k a w'
    | (Thrown e, w') => (Thrown e, w')
    end.

Definition throw {A} (err : string) : M A := fun w => (Thrown err, w).

(** [try { m } catch (e) { h e }] *)
Definition try_catch {A} (m : M A) (h : string -> M A) : M A :=
  fun w =>
    match m w with
    | (Returned a, w') => (Returned a, w')
    | (Thrown e, w') => h e w'
    end.

Definition modify (f : World -> World) : M unit := fun w => (Returned tt, f w).

Declare Scope ext_scope.
Delimit Scope ext_scope with ext.
Notation "x <- m ;; k" := (bind m (fun x => k))
  (at level 100, m at next level, right associativity) : ext_scope.
Notation "m ;; k" := (bind m (fun _ => k))
  (at level 100, right associativity) : ext_scope.
Local Open Scope ext_scope.

(** ** The extension's functions *)

Section Extension.

Context (env : Env).

(** *** Trace primitives *)

Definition console_log (text : string) : M unit :=
  modify (add_console (ConsoleLog text)).

Definition console_error (text err : string) : M unit :=
  modify (add_console (ConsoleError text err)).

(** [window.showErrorMessage(text)], result not used. *)
Definition showErrorMessage (text : string) : M unit :=
  modify (add_ui (ErrorMessage text)).

(** [window.showInformationMessage(text, ...items)]: the message is shown
    and the user's pick comes back ([None] when the message is dismissed). *)
Definition showInformationMessage (text : string) (items : list string) : M (option string) :=
  fun w => (Returned (choice env text), add_ui (InformationMessage text items) w).

Definition progress_report (title message : string) : M unit :=
  modify (add_ui (ProgressReport title message)).

Definition executeCommand (c : string) : M unit :=
  modify (add_command c).

(** An async function called without [await] has reached its first
    [await]: what is left of it is parked. *)
Definition spawn (t : Task) : M unit :=
  modify (add_pending t).

(** *** Paths: [path.sep] and [path.join] on normalised operands *)

Definition win32 : bool := String.eqb (platform env) "win32".

Definition sep_char : ascii := if win32 then "\"%char else "/"%char.

Definition path_sep : string := String sep_char EmptyString.

Definition path_join (a b : string) : string := a +:+ path_sep +:+ b.

(** [q] is [p] or lies below it. *)
Definition under (p q : string) : bool :=
  String.eqb q p || startsWith q (p +:+ path_sep).

(** The names directly inside directory [d]. *)
Definition children (d : string) (m : gmap string Node) : list string :=
  omap (fun kv : string * Node =>
          match strip_prefix (d +:+ path_sep) kv.1 with
          | Some n => if String.eqb n "" || has_char sep_char n then None else Some n
          | None => None
          end) (map_to_list m).

(** *** File system ([fs-extra]) *)

Definition pathExists (p : string) : M bool :=
  fun w => (Returned (bool_decide (is_Some (fs w !! p))), w).

(** [fs.ensureDir]: nothing to do for a directory; a file in the way or a
    refused creation raises. *)
Definition ensureDir (p : string) : M unit :=
  fun w =>
    match fs w !! p with
    | Some Dir => (Returned tt, w)
    | Some (File _ _) => (Thrown ("EEXIST: file already exists, mkdir " +:+ p), w)
    | None =>
        if mkdir_denied env p
        then (Thrown ("EACCES: permission denied, mkdir " +:+ p), w)
        else (Returned tt, with_fs (insert p Dir) w)
    end.

(** [fs.chmod]: the permission bits of a file are replaced; a missing path
    raises, and so does a change that is refused, which changes nothing. *)
Definition chmod (p : string) (mode : Z) : M unit :=
  fun w =>
    match fs w !! p with
    | Some node =>
        if chmod_denied env p
        then (Thrown ("EPERM: operation not permitted, chmod " +:+ p), w)
        else match node with
             | File c _ => (Returned tt, with_fs (insert p (File c mode)) w)
             | Dir => (Returned tt, w)
             end
    | None => (Thrown ("ENOENT: no such file or directory, chmod " +:+ p), w)
    end.

(** [fs.remove]: the path and everything below it go; a missing path is
    fine; a refused removal raises and removes nothing. *)
Definition remove (p : string) : M unit :=
  fun w =>
    if remove_denied env p
    then (Thrown ("EBUSY: resource busy or locked, rm " +:+ p), w)
    else (Returned tt, with_fs (filter (fun kv : string * Node => under p kv.1 = false)) w).

Definition readdir (d : string) : M (list string) :=
  fun w =>
    match fs w !! d with
    | Some Dir => (Returned (children d (fs w)), w)
    | Some (File _ _) => (Thrown ("ENOTDIR: not a directory, scandir " +:+ d), w)
    | None => (Thrown ("ENOENT: no such file or directory, scandir " +:+ d), w)
    end.

(** [fs.stat(p).then(s => s.isDirectory()).catch(() => false)] *)
Definition isDirectory (p : string) : M bool :=
  fun w => (Returned (match fs w !! p with Some Dir => true | _ => false end), w).

(** *** Network ([axios]) and archives *)

(** [axios({url, method: 'GET', responseType: 'stream'})]: the request is
    made; what comes back is the stream, still to be read. *)
Definition axios_stream (url : string) : M Transfer :=
  fun w =>
    match transfer env url with
    | RequestFailed err => (Thrown err, add_request url w)
    | t => (Returned t, add_request url w)
    end.

(** [pipeline(stream, fs.createWriteStream(p))]: the file is created with
    what arrives; a broken stream raises after its bytes are on disk. *)
Definition pipeline (t : Transfer) (p : string) : M unit :=
  fun w =>
    match fs w !! p with
    | Some Dir => (Thrown ("EISDIR: illegal operation on a directory, open " +:+ p), w)
    | _ =>
        match t with
        | RequestFailed err => (Thrown err, w)
        | Interrupted received err => (Thrown err, with_fs (insert p (File received 420)) w)
        | Completed body => (Returned tt, with_fs (insert p (File body 420)) w)
        end
    end.

Definition write_members (dir : string) (members : list (string * Node))
    (m : gmap string Node) : gmap string Node :=
  foldl (fun acc (e : string * Node) => <[path_join dir e.1 := e.2]> acc) m members.

(** [extract(archive, {dir})] and [tar.x({file: archive, cwd: dir})]: the
    archive is read from disk and decoded; its members are written below
    [dir].  An archive that does not decode raises and writes nothing. *)
Definition unpack (decode : string -> string + list (string * Node))
    (archive dir : string) : M unit :=
  fun w =>
    match fs w !! archive with
    | Some (File body _) =>
        match decode body with
        | inl err => (Thrown err, w)
        | inr members => (Returned tt, with_fs (write_members dir members) w)
        end
    | _ => (Thrown ("ENOENT: no such file, open " +:+ archive), w)
    end.

(** *** Persisted state and settings *)

(** [context.globalState.get(key)] *)
Definition globalState_get (key : string) : M (option string) :=
  fun w => (Returned (globalState w !! key), w).

(** [context.globalState.update(key, value)] *)
Definition globalState_update (key value : string) : M unit :=
  modify (with_globalState (insert key value)).

(** [config.get<string | null>(key, null)] *)
Definition setting_string (key : string) (w : World) : option string :=
  match settings w !! key with
  | Some (SString s) => Some s
  | _ => None
  end.

Definition config_get_string (key : string) : M (option string) :=
  fun w => (Returned (setting_string key w), w).

(** [config.get<boolean>(key, dflt)] *)
Definition setting_bool (key : string) (dflt : bool) (w : World) : bool :=
  match settings w !! key with
  | Some (SBool b) => b
  | _ => dflt
  end.

Definition config_get_bool (key : string) (dflt : bool) : M bool :=
  fun w => (Returned (setting_bool key dflt w), w).

(** [config.update(key, value, ConfigurationTarget.Global)] *)
Definition config_update (key : string) (value : Setting) : M unit :=
  fun w =>
    match settings_update_error env with
    | Some err => (Thrown err, w)
    | None => (Returned tt, with_settings (insert key value) w)
    end.

(** *** [enableAutoUpdates] *)

Definition enableAutoUpdates : M unit :=
  config_update AUTO_DOWNLOAD_CONFIG (SBool true) ;;
  _ <- showInformationMessage "FlatBuffers auto-update enabled." [] ;;
  ret tt.

(** *** [getAssetName]

    The source reads [process.platform] and [process.arch]; here they are
    arguments. *)

Definition getAssetName (platform arch version : string) : option string :=
  match
    (if String.eqb platform "darwin" then Some "apple-darwin"
     else if String.eqb platform "linux" then Some "unknown-linux-gnu"
     else if String.eqb platform "win32" then Some "pc-windows-msvc"
     else None)
  with
  | None => None
  | Some os =>
      match
        (if String.eqb arch "x64" then Some "x86_64"
         else if String.eqb arch "arm64" then Some "aarch64"
         else None)
      with
      | None => None
      | Some arch' =>
          let extension := if String.eqb platform "win32" then "zip" else "tar.gz" in
          Some (BINARY_NAME +:+ "-" +:+ version +:+ "-" +:+ arch' +:+ "-" +:+ os
                +:+ "." +:+ extension)
      end
  end.

(** *** [getLatestRelease] *)

Definition releaseUrl : string :=
  "https://api.github.com/repos/" +:+ GITHUB_REPO +:+ "/releases/latest".

Definition getLatestRelease : M Release :=
  fun w =>
    match releases env (length (requests w)) with
    | inl err => (Thrown err, add_request releaseUrl w)
    | inr r => (Returned r, add_request releaseUrl w)
    end.

(** *** [cleanupOldVersions] *)

Fixpoint cleanup_entries (storagePath currentVersionDir : string)
    (entries : list string) : M unit :=
  match entries with
  | [] => ret tt
  | entry :: rest =>
      (if startsWith entry VERSION_PREFIX && negb (String.eqb entry currentVersionDir)
       then console_log ("Removing old version: " +:+ entry) ;;
            remove (path_join storagePath entry)
       else ret tt) ;;
      cleanup_entries storagePath currentVersionDir rest
  end.

Definition cleanupOldVersions (storagePath currentVersionDir : string) : M unit :=
  try_catch
    (entries <- readdir storagePath ;;
     cleanup_entries storagePath currentVersionDir entries)
    (fun error => console_error "Error cleaning up old versions:" error).

(** *** [downloadLanguageServer] *)

Definition versionDirName (version : string) : string := VERSION_PREFIX +:+ version.

Definition binaryName : string := BINARY_NAME +:+ (if win32 then ".exe" else "").

Definition binaryPathOf (version : string) : string :=
  path_join (path_join (globalStoragePath env) (versionDirName version)) binaryName.

Definition unsupportedMessage : string :=
  "Unsupported platform: " +:+ platform env +:+ "-" +:+ arch env.

Definition failureMessage (isUpdate : bool) (msg : string) : string :=
  "Failed to " +:+ (if isUpdate then "update" else "download")
  +:+ " language server: " +:+ msg.

Definition progressTitle (isUpdate : bool) : string :=
  (if isUpdate then "Updating" else "Downloading") +:+ " FlatBuffers Language Server".

(** The callback given to [window.withProgress]. *)
Definition fetchAndExtract (isUpdate : bool) (latestVersion assetName : string)
    (matchingAsset : Asset) : M string :=
  let storagePath := globalStoragePath env in
  let versionDir := path_join storagePath (versionDirName latestVersion) in
  progress_report (progressTitle isUpdate) ("Fetching v" +:+ latestVersion +:+ "…") ;;
  let downloadUrl := browser_download_url matchingAsset in
  let tempArchivePath := path_join storagePath assetName in
  downloadStream <- axios_stream downloadUrl ;;
  pipeline downloadStream tempArchivePath ;;
  progress_report (progressTitle isUpdate) "Extracting…" ;;
  ensureDir versionDir ;;
  (if endsWith assetName ".zip"
   then unpack (unzip env) tempArchivePath versionDir
   else unpack (untar env) tempArchivePath versionDir) ;;
  remove tempArchivePath ;;
  ret (binaryPathOf latestVersion).

Definition downloadLanguageServer (isUpdate : bool) : M (option string) :=
  let storagePath := globalStoragePath env in
  ensureDir storagePath ;;
  try_catch
    (release <- getLatestRelease ;;
     let latestVersion := tag_name release in
     let binaryPath := binaryPathOf latestVersion in
     present <- pathExists binaryPath ;;
     if present then
       console_log ("Binary for version " +:+ latestVersion +:+ " already exists at "
                    +:+ binaryPath) ;;
       (if negb win32 then chmod binaryPath 493 else ret tt) ;;
       spawn (CleanupOldVersions storagePath (versionDirName latestVersion)) ;;
       ret (Some binaryPath)
     else
       match getAssetName (platform env) (arch env) latestVersion with
       | None => showErrorMessage unsupportedMessage ;; ret None
       | Some assetName =>
           match find (fun asset => String.eqb (name asset) assetName) (assets release) with
           | None =>
               throw ("Could not find a release asset for your platform: " +:+ assetName)
           | Some matchingAsset =>
               downloadedPath <- fetchAndExtract isUpdate latestVersion assetName matchingAsset ;;
               (if negb win32 then chmod downloadedPath 493 else ret tt) ;;
               globalState_update LATEST_VERSION_KEY latestVersion ;;
               (if isUpdate then
                  result <- showInformationMessage
                    ("Updated FlatBuffers Language Server. Reload to use the latest version (v"
                     +:+ latestVersion +:+ ").") ["Reload Now"] ;;
                  if bool_decide (result = Some "Reload Now")
                  then executeCommand "workbench.action.reloadWindow"
                  else ret tt
                else
                  _ <- showInformationMessage
                    ("Successfully downloaded FlatBuffers Language Server v" +:+ latestVersion
                     +:+ " to the [extension's directory]("
                     +:+ revealUri env (path_join storagePath (versionDirName latestVersion))
                     +:+ ").") [] ;;
                  ret tt) ;;
               cleanupOldVersions storagePath (versionDirName latestVersion) ;;
               ret (Some downloadedPath)
           end
       end)
    (fun msg => showErrorMessage (failureMessage isUpdate msg) ;; ret None).

(** *** [checkForUpdatesInBackground] *)

Definition updateAvailableMessage : string :=
  "A new version of the FlatBuffers language server is available. [Release Notes](https://github.com/smpanaro/flatbuffers-language-server/releases)".

Definition updateOption : string := "Download".
Definition enableUpdatesOption : string := "Download & Auto-Update".
Definition skipThisVersionOption : string := "Skip This Version".

Definition checkForUpdatesInBackground (cachedVersion : string)
    (shouldAutoDownload : bool) : M unit :=
  console_log ("Checking for updates. Current version: " +:+ cachedVersion) ;;
  try_catch
    (release <- getLatestRelease ;;
     let latestVersion := tag_name release in
     stored <- globalState_get LATEST_SKIPPED_VERSION_KEY ;;
     let skippedVersion := default "" stored in
     if negb (String.eqb latestVersion cachedVersion) then
       console_log ("New version found: " +:+ latestVersion) ;;
       if shouldAutoDownload then
         _ <- downloadLanguageServer true ;; ret tt
       else if String.eqb latestVersion skippedVersion then
         console_log ("Latest version was skipped (" +:+ latestVersion +:+ ").")
       else
         result <- showInformationMessage updateAvailableMessage
                     [updateOption; enableUpdatesOption; skipThisVersionOption] ;;
         if bool_decide (result = Some enableUpdatesOption) then
           enableAutoUpdates ;;
           _ <- downloadLanguageServer true ;; ret tt
         else if bool_decide (result = Some updateOption) then
           _ <- downloadLanguageServer true ;; ret tt
         else if bool_decide (result = Some skipThisVersionOption) then
           globalState_update LATEST_SKIPPED_VERSION_KEY latestVersion ;;
           console_log ("Setting skipped version to " +:+ latestVersion +:+ ".")
         else ret tt
     else
       console_log "Language server is up to date.")
    (fun error => console_error "Failed to check for updates in the background:" error).

(** *** [checkForUpdatesInBackground], called without [await]

    The call runs the function up to the [await] in [getLatestRelease]: the
    console line is written and [axios.get] is called.  The rest waits for
    the answer. *)

(** [axios.get(releaseUrl, ...)]: the request is made; what it settles to
    comes later. *)
Definition request_latestRelease : M (string + Release) :=
  fun w => (Returned (releases env (length (requests w))), add_request releaseUrl w).

(** [await] on a promise, once it has settled. *)
Definition await {A} (settled : string + A) : M A :=
  match settled with
  | inl err => throw err
  | inr a => ret a
  end.

(** The check up to its first [await]. *)
Definition checkForUpdatesInBackground_called (cachedVersion : string)
    (shouldAutoDownload : bool) : M unit :=
  console_log ("Checking for updates. Current version: " +:+ cachedVersion) ;;
  response <- request_latestRelease ;;
  spawn (CheckForUpdates cachedVersion shouldAutoDownload response).

(** The check from its first [await] on. *)
Definition checkForUpdatesInBackground_resumed (cachedVersion : string)
    (shouldAutoDownload : bool) (response : string + Release) : M unit :=
  try_catch
    (release <- await response ;;
     let latestVersion := tag_name release in
     stored <- globalState_get LATEST_SKIPPED_VERSION_KEY ;;
     let skippedVersion := default "" stored in
     if negb (String.eqb latestVersion cachedVersion) then
       console_log ("New version found: " +:+ latestVersion) ;;
       if shouldAutoDownload then
         _ <- downloadLanguageServer true ;; ret tt
       else if String.eqb latestVersion skippedVersion then
         console_log ("Latest version was skipped (" +:+ latestVersion +:+ ").")
       else
         result <- showInformationMessage updateAvailableMessage
                     [updateOption; enableUpdatesOption; skipThisVersionOption] ;;
         if bool_decide (result = Some enableUpdatesOption) then
           enableAutoUpdates ;;
           _ <- downloadLanguageServer true ;; ret tt
         else if bool_decide (result = Some updateOption) then
           _ <- downloadLanguageServer true ;; ret tt
         else if bool_decide (result = Some skipThisVersionOption) then
           globalState_update LATEST_SKIPPED_VERSION_KEY latestVersion ;;
           console_log ("Setting skipped version to " +:+ latestVersion +:+ ".")
         else ret tt
     else
       console_log "Language server is up to date.")
    (fun error => console_error "Failed to check for updates in the background:" error).

(** *** [getLanguageServerPath] *)

Definition downloadPromptMessage : string :=
  "FlatBuffers language server was not found. Download it?".

Definition downloadAndEnableOption : string := "Download & Auto-Update".
Definition downloadOnceOption : string := "Download Once".

Definition getLanguageServerPath : M (option string) :=
  userDefinedPath <- config_get_string PATH_CONFIG ;;
  if truthy userDefinedPath then
    console_log ("Using user-defined path: " +:+ default "" userDefinedPath) ;;
    ret userDefinedPath
  else
    pathFromWhich <-
      try_catch
        (match which env BINARY_NAME with
         | Some p => console_log ("Found binary in PATH: " +:+ p) ;; ret (Some p)
         | None => throw ("not found: " +:+ BINARY_NAME)
         end)
        (fun _ => ret None) ;;
    match pathFromWhich with
    | Some p => ret (Some p)
    | None =>
        shouldAutoDownload <- config_get_bool AUTO_DOWNLOAD_CONFIG false ;;
        cachedVersion <- globalState_get LATEST_VERSION_KEY ;;
        cached <-
          (if truthy cachedVersion then
             let version := default "" cachedVersion in
             let binaryPath := binaryPathOf version in
             present <- pathExists binaryPath ;;
             if present then
               console_log ("Using cached language server version " +:+ version
                            +:+ " from " +:+ binaryPath) ;;
               checkForUpdatesInBackground_called version shouldAutoDownload ;;
               ret (Some binaryPath)
             else ret None
           else ret None) ;;
        match cached with
        | Some binaryPath => ret (Some binaryPath)
        | None =>
            if shouldAutoDownload then
              console_log "Binary not found. Auto-downloading from GitHub based on user setting." ;;
              downloadLanguageServer false
            else
              result <- showInformationMessage downloadPromptMessage
                          [downloadAndEnableOption; downloadOnceOption] ;;
              if bool_decide (result = Some downloadAndEnableOption) then
                enableAutoUpdates ;;
                downloadLanguageServer false
              else if bool_decide (result = Some downloadOnceOption) then
                downloadLanguageServer false
              else ret None
        end
    end.

(** *** Tasks started without [await] *)

Definition run_task (t : Task) : M unit :=
  match t with
  | CheckForUpdates cachedVersion shouldAutoDownload response =>
      checkForUpdatesInBackground_resumed cachedVersion shouldAutoDownload response
  | CleanupOldVersions storagePath currentVersionDir =>
      cleanupOldVersions storagePath currentVersionDir
  end.

(** *** File-watcher forwarding *)

Definition IGNORED_PATH_SEGMENTS : gset string :=
  list_to_set
    [".git"; ".svn"; ".hg"; ".bzr"; "node_modules"; "bower_components"; ".idea";
     ".vscode"; "venv"; ".venv"; "dist"; "build"; ".cache"; "__pycache__";
     ".pytest_cache"].

(** [client.sendNotification('workspace/didChangeWatchedFiles', {changes})
      .catch(err => console.error(text, err))] *)
Definition sendNotification (changes : list FileEvent) (text : string) : M unit :=
  modify (add_sent changes) ;;
  match send_error env with
  | Some err => console_error text err
  | None => ret tt
  end.

Definition getAllUrisInDir (dir : Uri) : M (list Uri) :=
  ret (findFiles env (fsPath dir)).

Definition onFileEvent (u : Uri) (t : FileChangeType) : M unit :=
  let isIgnored :=
    existsb (fun part => bool_decide (part ∈ IGNORED_PATH_SEGMENTS))
            (rev (split sep_char (fsPath u))) in
  if isIgnored then ret tt
  else
    match t with
    | Deleted =>
        if String.eqb (extname env (fsPath u)) "" then
          sendNotification [{| uri := toString u; type := t |}]
            "Error sending didChangeWatchedFiles for delete"
        else ret tt
    | _ =>
        isDir <- isDirectory (fsPath u) ;;
        if negb isDir then ret tt
        else
          files <- getAllUrisInDir u ;;
          match files with
          | [] => ret tt
          | _ =>
              sendNotification
                (map (fun f => {| uri := toString f; type := t |}) files)
                "Error sending didChangeWatchedFiles for dir"
          end
    end.

End Extension.

(** ** The activation layer

    [activate] and [deactivate] work on the module's three variables,
    [client], [fileSystemWatcher] and [settingsWatcher], which hold
    references to objects of the editor.  The objects are kept by identity,
    in the order of their creation; a variable holds an index or is
    undefined. *)

Inductive ClientCall := Start | Stop.

(** [new LanguageClient(id, name, {command, args}, {documentSelector})] and
    the calls made on it. *)
Record LanguageClient := {
  clientId : string;
  clientName : string;
  command : string;
  args : list string;
  documentSelector : list (string * string);
  calls : list ClientCall
}.

(** A watcher made by [workspace.createFileSystemWatcher].  A listener
    [(u) => onFileEvent(u, T)] is kept as its [T]. *)
Record FileSystemWatcher := {
  globPattern : string;
  onDidChange : list FileChangeType;
  onDidCreate : list FileChangeType;
  onDidDelete : list FileChangeType;
  watcherDisposed : bool
}.

(** The registration that [workspace.onDidChangeConfiguration] returns. *)
Record ConfigurationListener := { listenerDisposed : bool }.

Record Session := {
  world : World;
  clients : list LanguageClient;
  fileWatchers : list FileSystemWatcher;
  configListeners : list ConfigurationListener;
  client : option nat;
  fileSystemWatcher : option nat;
  settingsWatcher : option nat;
  subscriptions : list nat;
  commandArguments : list (string * list string)
}.

Definition with_world (w : World) (s : Session) : Session :=
  {| world := w; clients := clients s; fileWatchers := fileWatchers s;
     configListeners := configListeners s; client := client s;
     fileSystemWatcher := fileSystemWatcher s; settingsWatcher := settingsWatcher s;
     subscriptions := subscriptions s; commandArguments := commandArguments s |}.

Definition with_clients (f : list LanguageClient -> list LanguageClient) (s : Session)
    : Session :=
  {| world := world s; clients := f (clients s); fileWatchers := fileWatchers s;
     configListeners := configListeners s; client := client s;
     fileSystemWatcher := fileSystemWatcher s; settingsWatcher := settingsWatcher s;
     subscriptions := subscriptions s; commandArguments := commandArguments s |}.

Definition with_fileWatchers (f : list FileSystemWatcher -> list FileSystemWatcher)
    (s : Session) : Session :=
  {| world := world s; clients := clients s; fileWatchers := f (fileWatchers s);
     configListeners := configListeners s; client := client s;
     fileSystemWatcher := fileSystemWatcher s; settingsWatcher := settingsWatcher s;
     subscriptions := subscriptions s; commandArguments := commandArguments s |}.

Definition with_configListeners
    (f : list ConfigurationListener -> list ConfigurationListener) (s : Session) : Session :=
  {| world := world s; clients := clients s; fileWatchers := fileWatchers s;
     configListeners := f (configListeners s); client := client s;
     fileSystemWatcher := fileSystemWatcher s; settingsWatcher := settingsWatcher s;
     subscriptions := subscriptions s; commandArguments := commandArguments s |}.

Definition set_client (c : option nat) (s : Session) : Session :=
  {| world := world s; clients := clients s; fileWatchers := fileWatchers s;
     configListeners := configListeners s; client := c;
     fileSystemWatcher := fileSystemWatcher s; settingsWatcher := settingsWatcher s;
     subscriptions := subscriptions s; commandArguments := commandArguments s |}.

Definition set_fileSystemWatcher (i : option nat) (s : Session) : Session :=
  {| world := world s; clients := clients s; fileWatchers := fileWatchers s;
     configListeners := configListeners s; client := client s;
     fileSystemWatcher := i; settingsWatcher := settingsWatcher s;
     subscriptions := subscriptions s; commandArguments := commandArguments s |}.

Definition set_settingsWatcher (i : option nat) (s : Session) : Session :=
  {| world := world s; clients := clients s; fileWatchers := fileWatchers s;
     configListeners := configListeners s; client := client s;
     fileSystemWatcher := fileSystemWatcher s; settingsWatcher := i;
     subscriptions := subscriptions s; commandArguments := commandArguments s |}.

Definition push_subscription (i : nat) (s : Session) : Session :=
  {| world := world s; clients := clients s; fileWatchers := fileWatchers s;
     configListeners := configListeners s; client := client s;
     fileSystemWatcher := fileSystemWatcher s; settingsWatcher := settingsWatcher s;
     subscriptions := subscriptions s ++ [i]; commandArguments := commandArguments s |}.

Definition add_commandArguments (c : string) (arguments : list string) (s : Session)
    : Session :=
  {| world := world s; clients := clients s; fileWatchers := fileWatchers s;
     configListeners := configListeners s; client := client s;
     fileSystemWatcher := fileSystemWatcher s; settingsWatcher := settingsWatcher s;
     subscriptions := subscriptions s;
     commandArguments := commandArguments s ++ [(c, arguments)] |}.

(** The monad of the activation layer: the same, over sessions. *)
Definition SM (A : Type) : Type := Session -> Outcome A * Session.

Definition sret {A} (a : A) : SM A := fun s => (Returned a, s).

Definition sbind {A B} (m : SM A) (k : A -> SM B) : SM B :=
  fun s =>
    match m s with
    | (Returned a, s') => k a s'
    | (Thrown err, s') => (Thrown err, s')
    end.

(** A computation on the world, run in the session. *)
Definition lift {A} (m : M A) : SM A :=
  fun s => ((m (world s)).1, with_world (m (world s)).2 s).

Definition supdate (f : Session -> Session) : SM unit := fun s => (Returned tt, f s).

Definition sget {A} (proj : Session -> A) : SM A := fun s => (Returned (proj s), s).

Declare Scope session_scope.
Delimit Scope session_scope with session.
Notation "x <- m ;; k" := (sbind m (fun x => k))
  (at level 100, m at next level, right associativity) : session_scope.
Notation "m ;; k" := (sbind m (fun _ => k))
  (at level 100, right associativity) : session_scope.

Section Activation.

Context (env : Env).

Local Open Scope session_scope.

(** *** The editor's objects *)

Definition newLanguageClient (id name serverCommand : string) (serverArgs : list string)
    (selector : list (string * string)) : SM nat :=
  fun s =>
    (Returned (length (clients s)),
     with_clients (fun l => l ++ [{| clientId := id; clientName := name;
                                     command := serverCommand; args := serverArgs;
                                     documentSelector := selector; calls := [] |}]) s).

Definition call (c : ClientCall) (lc : LanguageClient) : LanguageClient :=
  {| clientId := clientId lc; clientName := clientName lc; command := command lc;
     args := args lc; documentSelector := documentSelector lc;
     calls := calls lc ++ [c] |}.

(** [client.start()] and [client.stop()]: the call is made; what becomes of
    the server process is not the extension's doing. *)
Definition client_start (i : nat) : SM unit :=
  supdate (with_clients (alter (call Start) i)).

Definition client_stop (i : nat) : SM unit :=
  supdate (with_clients (alter (call Stop) i)).

Definition createFileSystemWatcher (glob : string) : SM nat :=
  fun s =>
    (Returned (length (fileWatchers s)),
     with_fileWatchers (fun l => l ++ [{| globPattern := glob; onDidChange := [];
                                          onDidCreate := []; onDidDelete := [];
                                          watcherDisposed := false |}]) s).

Definition listen (kind t : FileChangeType) (wt : FileSystemWatcher) : FileSystemWatcher :=
  {| globPattern := globPattern wt;
     onDidChange := onDidChange wt ++ match kind with Changed => [t] | _ => [] end;
     onDidCreate := onDidCreate wt ++ match kind with Created => [t] | _ => [] end;
     onDidDelete := onDidDelete wt ++ match kind with Deleted => [t] | _ => [] end;
     watcherDisposed := watcherDisposed wt |}.

(** [watcher.onDidChange(u => onFileEvent(u, t))], and the like for the
    other two events. *)
Definition watcher_on (kind : FileChangeType) (i : nat) (t : FileChangeType) : SM unit :=
  supdate (with_fileWatchers (alter (listen kind t) i)).

Definition dispose_watcher (wt : FileSystemWatcher) : FileSystemWatcher :=
  {| globPattern := globPattern wt; onDidChange := onDidChange wt;
     onDidCreate := onDidCreate wt; onDidDelete := onDidDelete wt;
     watcherDisposed := true |}.

Definition watcher_dispose (i : nat) : SM unit :=
  supdate (with_fileWatchers (alter dispose_watcher i)).

(** [workspace.onDidChangeConfiguration(handler)]; the extension has one
    handler, [onConfigurationChanged] below. *)
Definition onDidChangeConfiguration : SM nat :=
  fun s =>
    (Returned (length (configListeners s)),
     with_configListeners (fun l => l ++ [{| listenerDisposed := false |}]) s).

Definition listener_dispose (i : nat) : SM unit :=
  supdate (with_configListeners (alter (fun _ => {| listenerDisposed := true |}) i)).

(** [window.showErrorMessage(text, ...items)] with its result awaited. *)
Definition showErrorMessageItems (text : string) (items : list string) : M (option string) :=
  fun w => (Returned (choice env text), add_ui (ErrorMessage text) w).

(** [commands.executeCommand(c, ...arguments)] *)
Definition executeCommandWith (c : string) (arguments : list string) : SM unit :=
  lift (executeCommand c) ;;
  supdate (add_commandArguments c arguments).

(** *** [registerSettingsWatcher] *)

Definition configurationChangedMessage : string :=
  "FlatBuffers configuration has changed. Please reload for the changes to take effect.".

(** The handler given to [onDidChangeConfiguration]; [affects] is the
    event's [affectsConfiguration].  The continuation passed to [then] runs
    once the user has answered. *)
Definition onConfigurationChanged (affects : string -> bool) : M unit :=
  let affectsPath := affects (CONFIG_NAME +:+ "." +:+ PATH_CONFIG) in
  let affectsAutoDownload := affects (CONFIG_NAME +:+ "." +:+ AUTO_DOWNLOAD_CONFIG) in
  if affectsPath || affectsAutoDownload then
    bind (showInformationMessage env configurationChangedMessage ["Reload Window"])
      (fun selection =>
         if bool_decide (selection = Some "Reload Window")
         then executeCommand "workbench.action.reloadWindow"
         else ret tt)
  else ret tt.

Definition registerSettingsWatcher : SM unit :=
  registered <- onDidChangeConfiguration ;;
  supdate (set_settingsWatcher (Some registered)) ;;
  supdate (push_subscription registered).

(** *** [supplementFileNotifications] *)

Definition watchAll : string := "**/*".

(** The parameter is not used: the handlers send through the module's
    [client]. *)
Definition supplementFileNotifications (languageClient : nat) : SM unit :=
  created <- createFileSystemWatcher watchAll ;;
  supdate (set_fileSystemWatcher (Some created)) ;;
  watcher_on Changed created Changed ;;
  watcher_on Created created Created ;;
  watcher_on Deleted created Deleted.

(** *** [activate] *)

Definition couldNotFindMessage : string :=
  "Could not find or download the FlatBuffers language server. Please configure a binary in settings.".

Definition activate : SM unit :=
  serverPath <- lift (getLanguageServerPath env) ;;
  registerSettingsWatcher ;;
  if negb (truthy serverPath) then
    let openSettings := "Configure" in
    result <- lift (showErrorMessageItems couldNotFindMessage [openSettings]) ;;
    if bool_decide (result = Some openSettings)
    then executeCommandWith "workbench.action.openSettings" [CONFIG_NAME]
    else sret tt
  else
    let serverArgs := [] in
    created <- newLanguageClient "flatbuffers-language-server" "FlatBuffers Language Server"
                 (default "" serverPath) serverArgs [("file", "flatbuffers")] ;;
    supdate (set_client (Some created)) ;;
    supplementFileNotifications created ;;
    client_start created.

(** *** [deactivate]: [None] is [undefined], [Some tt] the promise of
    [client.stop()] *)

Definition deactivate : SM (option unit) :=
  watcher <- sget fileSystemWatcher ;;
  match watcher with
  | Some i => watcher_dispose i
  | None => sret tt
  end ;;
  registered <- sget settingsWatcher ;;
  match registered with
  | Some i => listener_dispose i
  | None => sret tt
  end ;;
  languageClient <- sget client ;;
  match languageClient with
  | None => sret None
  | Some i => client_stop i ;; sret (Some tt)
  end.

(** *** Events of the editor

    A file event goes to the listeners that the watchers which are not
    disposed hold for its kind; a configuration change goes to the handler
    once for each registration that is not disposed.  [config_update] writes
    the setting and delivers nothing: the event that the editor raises for
    such a write is a [fire_configuration_change] of its own. *)

Definition listenersFor (kind : FileChangeType) (wt : FileSystemWatcher)
    : list FileChangeType :=
  if watcherDisposed wt then []
  else match kind with
       | Changed => onDidChange wt
       | Created => onDidCreate wt
       | Deleted => onDidDelete wt
       end.

Fixpoint run_handlers (handlers : list (M unit)) : SM unit :=
  match handlers with
  | [] => sret tt
  | h :: rest => lift h ;; run_handlers rest
  end.

Definition fire_file_event (kind : FileChangeType) (u : Uri) : SM unit :=
  fun s =>
    run_handlers (map (onFileEvent env u) (flat_map (listenersFor kind) (fileWatchers s))) s.

Definition fire_configuration_change (affects : string -> bool) : SM unit :=
  fun s =>
    run_handlers
      (map (fun _ => onConfigurationChanged affects)
           (filter (fun l => listenerDisposed l = false) (configListeners s))) s.

End Activation.

(** * Vocabulary of the statements *)

(** The operating-system and architecture pairs the selector knows. *)
Definition supported_pairs : list (string * string) :=
  [("darwin", "x64"); ("darwin", "arm64");
   ("linux", "x64"); ("linux", "arm64");
   ("win32", "x64"); ("win32", "arm64")].

(** The documented shape of an asset name. *)
Definition documented_name (version n : string) : Prop :=
  exists arch' os ext,
    n = BINARY_NAME +:+ "-" +:+ version +:+ "-" +:+ arch' +:+ "-" +:+ os +:+ "." +:+ ext
    /\ arch' ∈ ["x86_64"; "aarch64"]
    /\ os ∈ ["apple-darwin"; "unknown-linux-gnu"; "pc-windows-msvc"]
    /\ (ext = "zip" <-> os = "pc-windows-msvc")
    /\ (ext = "zip" \/ ext = "tar.gz").

(** The prompt shown on a cache miss when auto-download is off. *)
Definition downloadPrompt : UiEvent :=
  InformationMessage downloadPromptMessage [downloadAndEnableOption; downloadOnceOption].

(** No cached version with its binary on disk. *)
Definition cache_miss (env : Env) (w : World) : Prop :=
  forall v, globalState w !! LATEST_VERSION_KEY = Some v -> v <> "" ->
            fs w !! binaryPathOf env v = None.

(** ** Scenarios

    Concrete environments and worlds on which the statements are
    exercised: a Linux x64 host, storage root [/storage], and a release
    [v1.3.0] that carries the Linux x64 tarball. *)

Definition demo_asset : Asset :=
  {| name := "flatbuffers-language-server-v1.3.0-x86_64-unknown-linux-gnu.tar.gz";
     browser_download_url := "https://example.org/v1.3.0/linux-x64.tar.gz" |}.

Definition demo_release : Release :=
  {| tag_name := "v1.3.0"; assets := [demo_asset] |}.

(** The tarball [TARBALL] holds the server binary; nothing else decodes. *)
Definition demo_untar (body : string) : string + list (string * Node) :=
  if String.eqb body "TARBALL"
  then inr [("flatbuffers-language-server", File "ELF" 420)]
  else inl "TAR_BAD_ARCHIVE: Unrecognized archive format".

Definition demo_extname (p : string) : string :=
  if endsWith p ".fbs" then ".fbs" else "".

Definition demo_env (host : string) (onPath : option string)
    (index : nat -> string + Release) (stream : string -> Transfer)
    (locked : string -> bool) (pick : string -> option string) : Env :=
  {| platform := host; arch := "x64"; globalStoragePath := "/storage";
     which := fun _ => onPath;
     releases := index;
     transfer := stream;
     unzip := fun _ => inl "end of central directory record signature not found";
     untar := demo_untar;
     mkdir_denied := fun _ => false;
     remove_denied := locked;
     chmod_denied := fun _ => false;
     settings_update_error := None;
     choice := pick;
     revealUri := fun p => "command:revealFileInOS?" +:+ p;
     extname := demo_extname;
     findFiles := fun _ => [];
     send_error := None |}.

(** The usual host: nothing on the search path, the index answers with
    [demo_release], the transfer completes, nothing is locked. *)
Definition linux_env (pick : string -> option string) : Env :=
  demo_env "linux" None (fun _ => inr demo_release) (fun _ => Completed "TARBALL")
           (fun _ => false) pick.

Definition world_of (files : gmap string Node) (state : gmap string string)
    (conf : gmap string Setting) : World :=
  {| fs := files; globalState := state; settings := conf;
     requests := []; ui := []; console := []; pending := [];
     commandsRun := []; sent := [] |}.

Definition v120_binary : string :=
  "/storage/flatbuffers-language-server-v1.2.0/flatbuffers-language-server".

Definition v130_binary : string :=
  "/storage/flatbuffers-language-server-v1.3.0/flatbuffers-language-server".

(** A storage root that holds version [v1.2.0]. *)
Definition files_v120 : gmap string Node :=
  <[v120_binary := File "ELF-1.2.0" 493]>
    (<["/storage/flatbuffers-language-server-v1.2.0" := Dir]>
      (<["/storage" := Dir]> ∅)).

(** A storage root that holds version [v1.3.0], with a binary that has lost
    its executable bit. *)
Definition files_v130 : gmap string Node :=
  <[v130_binary := File "ELF-1.3.0" 420]>
    (<["/storage/flatbuffers-language-server-v1.3.0" := Dir]>
      (<["/storage" := Dir]> ∅)).

(** A binary is on the search path. *)
Definition on_path_env : Env :=
  demo_env "linux" (Some "/usr/local/bin/flatbuffers-language-server")
           (fun _ => inr demo_release) (fun _ => Completed "TARBALL")
           (fun _ => false) (fun _ => None).

(** The user has configured a path. *)
Definition configured_world : World :=
  world_of ∅ ∅ (<[PATH_CONFIG := SString "/opt/fbs/flatbuffers-language-server"]> ∅).

(** Version [v1.2.0] is recorded and on disk. *)
Definition cached_v120_world : World :=
  world_of files_v120 (<[LATEST_VERSION_KEY := "v1.2.0"]> ∅) ∅.

(** Nothing installed, auto-download switched on. *)
Definition auto_world : World :=
  world_of ∅ ∅ (<[AUTO_DOWNLOAD_CONFIG := SBool true]> ∅).

(** ** File events *)

(** Some segment of the path is in the ignore list. *)
Definition has_ignored_segment (env : Env) (u : Uri) : Prop :=
  exists part, part ∈ split (sep_char env) (fsPath u) /\ part ∈ IGNORED_PATH_SEGMENTS.

(** A schema directory is deleted; a schema file is deleted; something
    changes inside [node_modules]. *)
Definition schemas_dir : Uri :=
  {| fsPath := "/ws/schemas"; toString := "file:///ws/schemas" |}.

Definition monster_file : Uri :=
  {| fsPath := "/ws/schemas/monster.fbs"; toString := "file:///ws/schemas/monster.fbs" |}.

Definition vendored_dir : Uri :=
  {| fsPath := "/ws/node_modules/pkg"; toString := "file:///ws/node_modules/pkg" |}.

(** ** The installer *)

(** The effect of a successful [chmod] on the file system. *)
Definition set_mode (p : string) (mode : Z) (m : gmap string Node) : gmap string Node :=
  match m !! p with
  | Some (File c _) => <[p := File c mode]> m
  | _ => m
  end.

(** The world in which the installer returns when the binary of the latest
    version is already there: the release query is on record, the console
    line is written, the mode is set unless on Windows, and the reaper is
    pending. *)
Definition after_present (env : Env) (version : string) (w : World) : World :=
  let logged :=
    add_console (ConsoleLog ("Binary for version " +:+ version +:+ " already exists at "
                             +:+ binaryPathOf env version))
                (add_request releaseUrl w) in
  add_pending (CleanupOldVersions (globalStoragePath env) (versionDirName version))
    (if win32 env then logged
     else with_fs (set_mode (binaryPathOf env version) 493) logged).

(** The message of a refused [chmod]. *)
Definition refused (p : string) : string :=
  "EPERM: operation not permitted, chmod " +:+ p.

(** The world in which the installer returns when the binary of the latest
    version is there and its mode may not be set: the release query is on
    record, the console line is written, and the failure is shown. *)
Definition refused_present (env : Env) (isUpdate : bool) (version : string) (w : World)
    : World :=
  add_ui (ErrorMessage (failureMessage isUpdate (refused (binaryPathOf env version))))
    (add_console (ConsoleLog ("Binary for version " +:+ version +:+ " already exists at "
                              +:+ binaryPathOf env version))
                 (add_request releaseUrl w)).

(** The same environment on a file system that refuses every change of
    mode. *)
Definition no_chmod (e : Env) : Env :=
  {| platform := platform e; arch := arch e; globalStoragePath := globalStoragePath e;
     which := which e; releases := releases e; transfer := transfer e;
     unzip := unzip e; untar := untar e;
     mkdir_denied := mkdir_denied e;
     remove_denied := remove_denied e;
     chmod_denied := fun _ => true;
     settings_update_error := settings_update_error e;
     choice := choice e; revealUri := revealUri e; extname := extname e;
     findFiles := findFiles e; send_error := send_error e |}.

(** A host the selector does not know, with version [v1.3.0] installed. *)
Definition freebsd_env : Env :=
  demo_env "freebsd" None (fun _ => inr demo_release) (fun _ => Completed "TARBALL")
           (fun _ => false) (fun _ => None).

Definition installed_v130_world : World := world_of files_v130 ∅ ∅.

(** ** What a computation shows, and whether it can raise *)

(** From [w] to [w'] the list of shown events only grew, and each new event
    satisfies [P]. *)
Definition extends_ui (P : UiEvent -> Prop) (w w' : World) : Prop :=
  exists shown, ui w' = ui w ++ shown /\ Forall P shown.

(** Whatever [m] shows satisfies [P]. *)
Definition shows (P : UiEvent -> Prop) {A} (m : M A) : Prop :=
  forall w, extends_ui P w (m w).2.

(** [m] returns normally from every world. *)
Definition never_throws {A} (m : M A) : Prop :=
  forall w, exists a, (m w).1 = Returned a.

(** The events the installer may show: progress, information, and of the
    error messages only its own two. *)
Definition installer_event (env : Env) (isUpdate : bool) (e : UiEvent) : Prop :=
  match e with
  | ErrorMessage text =>
      text = unsupportedMessage env \/ exists msg, text = failureMessage isUpdate msg
  | _ => True
  end.

(** ** The background update check *)

(** The prompt that offers a new version. *)
Definition updatePrompt : UiEvent :=
  InformationMessage updateAvailableMessage
    [updateOption; enableUpdatesOption; skipThisVersionOption].

(** The world of the check once the release query has come back with a
    version other than the cached one. *)
Definition found_new (cachedVersion latestVersion : string) (w : World) : World :=
  add_console (ConsoleLog ("New version found: " +:+ latestVersion))
    (add_request releaseUrl
       (add_console (ConsoleLog ("Checking for updates. Current version: "
                                 +:+ cachedVersion)) w)).

(** The console line of the check's catch-all. *)
Definition checkFailed (err : string) : LogLine :=
  ConsoleError "Failed to check for updates in the background:" err.

(** The user skips whatever is offered. *)
Definition skip_env : Env := linux_env (fun _ => Some skipThisVersionOption).

(** The release index does not answer. *)
Definition offline_env : Env :=
  demo_env "linux" None (fun _ => inl "timeout of 15000ms exceeded")
           (fun _ => Completed "TARBALL") (fun _ => false) (fun _ => None).

(** The download breaks after four bytes. *)
Definition broken_stream_env : Env :=
  demo_env "linux" None (fun _ => inr demo_release)
           (fun _ => Interrupted "TARB" "socket hang up") (fun _ => false) (fun _ => None).

(** The download completes with bytes that are no tarball. *)
Definition corrupt_archive_env : Env :=
  demo_env "linux" None (fun _ => inr demo_release)
           (fun _ => Completed "<html>502 Bad Gateway</html>") (fun _ => false)
           (fun _ => None).

(** Version [v1.2.0] recorded and on disk, auto-download switched on. *)
Definition cached_v120_auto_world : World :=
  world_of files_v120 (<[LATEST_VERSION_KEY := "v1.2.0"]> ∅)
           (<[AUTO_DOWNLOAD_CONFIG := SBool true]> ∅).

(** Where the archive of [demo_release] is put while it is unpacked. *)
Definition demo_archive_path : string :=
  "/storage/flatbuffers-language-server-v1.3.0-x86_64-unknown-linux-gnu.tar.gz".

(** The same environment on a storage that refuses new directories. *)
Definition read_only (e : Env) : Env :=
  {| platform := platform e; arch := arch e; globalStoragePath := globalStoragePath e;
     which := which e; releases := releases e; transfer := transfer e;
     unzip := unzip e; untar := untar e;
     mkdir_denied := fun _ => true;
     remove_denied := remove_denied e;
     chmod_denied := chmod_denied e;
     settings_update_error := settings_update_error e;
     choice := choice e; revealUri := revealUri e; extname := extname e;
     findFiles := findFiles e; send_error := send_error e |}.

(** The same environment with settings that cannot be written. *)
Definition locked_settings (e : Env) : Env :=
  {| platform := platform e; arch := arch e; globalStoragePath := globalStoragePath e;
     which := which e; releases := releases e; transfer := transfer e;
     unzip := unzip e; untar := untar e;
     mkdir_denied := mkdir_denied e;
     remove_denied := remove_denied e;
     chmod_denied := chmod_denied e;
     settings_update_error := Some "Unable to write to User Settings";
     choice := choice e; revealUri := revealUri e; extname := extname e;
     findFiles := findFiles e; send_error := send_error e |}.

(** A recorded version whose storage root is gone. *)
Definition lost_storage_world : World :=
  world_of ∅ (<[LATEST_VERSION_KEY := "v1.2.0"]> ∅) ∅.

(** ** The reaper *)

(** The entries the reaper removes: version-prefixed and not the one to
    keep. *)
Definition stale (currentVersionDir entry : string) : bool :=
  startsWith entry VERSION_PREFIX && negb (String.eqb entry currentVersionDir).

(** The message of a refused removal. *)
Definition busy (p : string) : string := "EBUSY: resource busy or locked, rm " +:+ p.

Definition v110_dir : string := "/storage/flatbuffers-language-server-v1.1.0".
Definition v120_dir : string := "/storage/flatbuffers-language-server-v1.2.0".
Definition v130_dir : string := "/storage/flatbuffers-language-server-v1.3.0".

(** A storage root with two old versions next to the installed [v1.3.0]. *)
Definition files_three_versions : gmap string Node :=
  <[v110_dir := Dir]>
    (<[v110_dir +:+ "/flatbuffers-language-server" := File "ELF-1.1.0" 493]>
      (<[v120_dir := Dir]>
        (<[v120_dir +:+ "/flatbuffers-language-server" := File "ELF-1.2.0" 493]>
          files_v130))).

(** Version [v1.1.0] is held open by a running server. *)
Definition v110_locked_env : Env :=
  demo_env "linux" None (fun _ => inr demo_release) (fun _ => Completed "TARBALL")
           (fun p => String.eqb p v110_dir) (fun _ => None).

(** Two old versions on disk, [v1.3.0] still to be installed. *)
Definition files_two_old_versions : gmap string Node :=
  <[v110_dir := Dir]>
    (<[v110_dir +:+ "/flatbuffers-language-server" := File "ELF-1.1.0" 493]>
      (<[v120_dir := Dir]>
        (<[v120_dir +:+ "/flatbuffers-language-server" := File "ELF-1.2.0" 493]>
          (<["/storage" := Dir]> ∅)))).

(** Is [q] inside one of the stale entries of [l]? *)
Definition reaped (env : Env) (storagePath currentVersionDir : string)
    (l : list string) (q : string) : bool :=
  existsb (fun e => stale currentVersionDir e && under env (path_join env storagePath e) q) l.

(** The release index answers the first query and drops the next ones. *)
Definition flaky_index_env : Env :=
  demo_env "linux" None
           (fun n => match n with O => inr demo_release | S _ => inl "socket hang up" end)
           (fun _ => Completed "TARBALL") (fun _ => false) (fun _ => None).

(** ** Further vocabulary: path segments and file events *)

(** [part] is a whole segment of [s]: it holds no separator and stands
    between separators or the ends of [s]. *)
Definition whole_segment (c : ascii) (part s : string) : Prop :=
  exists pre rest,
    s = pre +:+ part +:+ rest /\ has_char c part = false
    /\ (pre = "" \/ exists p, pre = p +:+ String c "")
    /\ (rest = "" \/ exists r, rest = String c r).

(** What a file event may do to the world: return normally, send at most one
    notification, whose changes are not empty and all carry the event's
    type, and leave the rest alone (a failed send writes a console line). *)
Definition only_notified (t : FileChangeType) (w : World) (r : Outcome unit * World) : Prop :=
  exists notifications,
    r.1 = Returned tt
    /\ sent r.2 = sent w ++ notifications
    /\ length notifications <= 1
    /\ Forall (fun changes => changes <> [] /\ Forall (fun c => type c = t) changes)
              notifications
    /\ fs r.2 = fs w
    /\ globalState r.2 = globalState w
    /\ settings r.2 = settings w
    /\ requests r.2 = requests w
    /\ ui r.2 = ui w
    /\ pending r.2 = pending w
    /\ commandsRun r.2 = commandsRun w.

(** The same environment with a workspace search that finds [found] below
    [dir] and nothing elsewhere. *)
Definition with_workspace (e : Env) (dir : string) (found : list Uri) : Env :=
  {| platform := platform e; arch := arch e; globalStoragePath := globalStoragePath e;
     which := which e; releases := releases e; transfer := transfer e;
     unzip := unzip e; untar := untar e;
     mkdir_denied := mkdir_denied e;
     remove_denied := remove_denied e;
     chmod_denied := chmod_denied e;
     settings_update_error := settings_update_error e;
     choice := choice e; revealUri := revealUri e; extname := extname e;
     findFiles := fun d => if String.eqb d dir then found else [];
     send_error := send_error e |}.

(** A workspace whose schema directory holds one schema. *)
Definition schemas_env : Env :=
  with_workspace (linux_env (fun _ => None)) "/ws/schemas" [monster_file].

Definition schemas_world : World :=
  world_of (<["/ws/schemas/monster.fbs" := File "table Monster {}" 420]>
              (<["/ws/schemas" := Dir]> ∅)) ∅ ∅.

(** ** Further vocabulary: what a computation leaves alone *)

(** [m] takes every world to one related to it by [R]. *)
Definition keeps (R : World -> World -> Prop) {A} (m : M A) : Prop :=
  forall w, R w (m w).2.

(** The two worlds agree on a component. *)
Definition same {X} (proj : World -> X) (w w' : World) : Prop := proj w' = proj w.

(** A storage root with the archive a failed install of [v1.3.0] left
    behind, next to the installed [v1.3.0]. *)
Definition files_with_leftover : gmap string Node :=
  <[demo_archive_path := File "TARB" 420]> files_v130.

(** ** Further vocabulary: the runs of the installer *)

Definition updatedMessage (version : string) : string :=
  "Updated FlatBuffers Language Server. Reload to use the latest version (v"
  +:+ version +:+ ").".

Definition downloadedMessage (env : Env) (version : string) : string :=
  "Successfully downloaded FlatBuffers Language Server v" +:+ version
  +:+ " to the [extension's directory]("
  +:+ revealUri env (path_join env (globalStoragePath env) (versionDirName version))
  +:+ ").".

Definition missingAssetMessage (assetName : string) : string :=
  "Could not find a release asset for your platform: " +:+ assetName.

(** The world after the installer has told the user of its success. *)
Definition announced (env : Env) (isUpdate : bool) (version : string) (w : World) : World :=
  if isUpdate then
    if bool_decide (choice env (updatedMessage version) = Some "Reload Now")
    then add_command "workbench.action.reloadWindow"
           (add_ui (InformationMessage (updatedMessage version) ["Reload Now"]) w)
    else add_ui (InformationMessage (updatedMessage version) ["Reload Now"]) w
  else add_ui (InformationMessage (downloadedMessage env version) []) w.

(** The world in which a completed install returns, from the world [w] in
    which the binary was made executable: the version is recorded, the user
    is told, the old versions are reaped. *)
Definition installed (env : Env) (isUpdate : bool) (version : string) (w : World) : World :=
  (cleanupOldVersions env (globalStoragePath env) (versionDirName version)
     (announced env isUpdate version
        (with_globalState (insert LATEST_VERSION_KEY version) w))).2.

(** All the ways a run of the installer can go, from the world [w]. *)
Inductive InstallerRun (env : Env) (isUpdate : bool) (w : World) :
    Outcome (option string) * World -> Prop :=
| root_refused (e : string) :
    ensureDir env (globalStoragePath env) w = (Thrown e, w) ->
    InstallerRun env isUpdate w (Thrown e, w)
| index_failed (w1 : World) (err : string) :
    ensureDir env (globalStoragePath env) w = (Returned tt, w1) ->
    releases env (length (requests w1)) = inl err ->
    InstallerRun env isUpdate w
      (Returned None,
       add_ui (ErrorMessage (failureMessage isUpdate err)) (add_request releaseUrl w1))
| already_present (w1 : World) (release : Release) :
    ensureDir env (globalStoragePath env) w = (Returned tt, w1) ->
    releases env (length (requests w1)) = inr release ->
    is_Some (fs w1 !! binaryPathOf env (tag_name release)) ->
    win32 env = true \/ chmod_denied env (binaryPathOf env (tag_name release)) = false ->
    InstallerRun env isUpdate w
      (Returned (Some (binaryPathOf env (tag_name release))),
       after_present env (tag_name release) w1)
| present_refused (w1 : World) (release : Release) :
    ensureDir env (globalStoragePath env) w = (Returned tt, w1) ->
    releases env (length (requests w1)) = inr release ->
    is_Some (fs w1 !! binaryPathOf env (tag_name release)) ->
    win32 env = false ->
    chmod_denied env (binaryPathOf env (tag_name release)) = true ->
    InstallerRun env isUpdate w
      (Returned None, refused_present env isUpdate (tag_name release) w1)
| platform_unsupported (w1 : World) (release : Release) :
    ensureDir env (globalStoragePath env) w = (Returned tt, w1) ->
    releases env (length (requests w1)) = inr release ->
    fs w1 !! binaryPathOf env (tag_name release) = None ->
    getAssetName (platform env) (arch env) (tag_name release) = None ->
    InstallerRun env isUpdate w
      (Returned None,
       add_ui (ErrorMessage (unsupportedMessage env)) (add_request releaseUrl w1))
| asset_missing (w1 : World) (release : Release) (assetName : string) :
    ensureDir env (globalStoragePath env) w = (Returned tt, w1) ->
    releases env (length (requests w1)) = inr release ->
    fs w1 !! binaryPathOf env (tag_name release) = None ->
    getAssetName (platform env) (arch env) (tag_name release) = Some assetName ->
    find (fun a => String.eqb (name a) assetName) (assets release) = None ->
    InstallerRun env isUpdate w
      (Returned None,
       add_ui (ErrorMessage (failureMessage isUpdate (missingAssetMessage assetName)))
         (add_request releaseUrl w1))
| fetch_failed (w1 w2 : World) (release : Release) (assetName : string) (asset : Asset)
    (e : string) :
    ensureDir env (globalStoragePath env) w = (Returned tt, w1) ->
    releases env (length (requests w1)) = inr release ->
    fs w1 !! binaryPathOf env (tag_name release) = None ->
    getAssetName (platform env) (arch env) (tag_name release) = Some assetName ->
    find (fun a => String.eqb (name a) assetName) (assets release) = Some asset ->
    fetchAndExtract env isUpdate (tag_name release) assetName asset
      (add_request releaseUrl w1) = (Thrown e, w2) ->
    InstallerRun env isUpdate w
      (Returned None, add_ui (ErrorMessage (failureMessage isUpdate e)) w2)
| binary_missing (w1 w2 w3 : World) (release : Release) (assetName : string)
    (asset : Asset) (p e : string) :
    ensureDir env (globalStoragePath env) w = (Returned tt, w1) ->
    releases env (length (requests w1)) = inr release ->
    fs w1 !! binaryPathOf env (tag_name release) = None ->
    getAssetName (platform env) (arch env) (tag_name release) = Some assetName ->
    find (fun a => String.eqb (name a) assetName) (assets release) = Some asset ->
    fetchAndExtract env isUpdate (tag_name release) assetName asset
      (add_request releaseUrl w1) = (Returned p, w2) ->
    win32 env = false ->
    chmod env p 493 w2 = (Thrown e, w3) ->
    InstallerRun env isUpdate w
      (Returned None, add_ui (ErrorMessage (failureMessage isUpdate e)) w3)
| install_done (w1 w2 w3 : World) (release : Release) (assetName : string)
    (asset : Asset) (p : string) :
    ensureDir env (globalStoragePath env) w = (Returned tt, w1) ->
    releases env (length (requests w1)) = inr release ->
    fs w1 !! binaryPathOf env (tag_name release) = None ->
    getAssetName (platform env) (arch env) (tag_name release) = Some assetName ->
    find (fun a => String.eqb (name a) assetName) (assets release) = Some asset ->
    fetchAndExtract env isUpdate (tag_name release) assetName asset
      (add_request releaseUrl w1) = (Returned p, w2) ->
    (if negb (win32 env) then chmod env p 493 else ret tt) w2 = (Returned tt, w3) ->
    InstallerRun env isUpdate w
      (Returned (Some p), installed env isUpdate (tag_name release) w3).

(** A release that carries the Windows archive only. *)
Definition windows_only_release : Release :=
  {| tag_name := "v1.3.0";
     assets := [{| name := "flatbuffers-language-server-v1.3.0-x86_64-pc-windows-msvc.zip";
                   browser_download_url := "https://example.org/v1.3.0/windows-x64.zip" |}] |}.

Definition windows_only_env : Env :=
  demo_env "linux" None (fun _ => inr windows_only_release) (fun _ => Completed "TARBALL")
           (fun _ => false) (fun _ => None).

(** An empty storage root. *)
Definition empty_storage_world : World := world_of (<["/storage" := Dir]> ∅) ∅ ∅.

(** ** Further vocabulary: sessions

    The session in which the editor activates the extension: the module's
    variables are undefined and none of its objects exists yet. *)

Definition fresh (w : World) : Session :=
  {| world := w; clients := []; fileWatchers := []; configListeners := [];
     client := None; fileSystemWatcher := None; settingsWatcher := None;
     subscriptions := []; commandArguments := [] |}.

(** The client [activate] constructs for the server at [p], with the calls
    [made] on it. *)
Definition serverClient (p : string) (made : list ClientCall) : LanguageClient :=
  {| clientId := "flatbuffers-language-server"; clientName := "FlatBuffers Language Server";
     command := p; args := []; documentSelector := [("file", "flatbuffers")];
     calls := made |}.

(** The watcher of [supplementFileNotifications], with its three listeners. *)
Definition workspaceWatcher (isDisposed : bool) : FileSystemWatcher :=
  {| globPattern := watchAll; onDidChange := [Changed]; onDidCreate := [Created];
     onDidDelete := [Deleted]; watcherDisposed := isDisposed |}.

(** The session after an activation that started the server at [p]. *)
Definition activated (w : World) (p : string) : Session :=
  {| world := w; clients := [serverClient p [Start]];
     fileWatchers := [workspaceWatcher false];
     configListeners := [{| listenerDisposed := false |}];
     client := Some 0; fileSystemWatcher := Some 0; settingsWatcher := Some 0;
     subscriptions := [0]; commandArguments := [] |}.

(** The session after an activation that found no server: only the settings
    watcher is registered. *)
Definition unserved (w : World) (opened : list (string * list string)) : Session :=
  {| world := w; clients := []; fileWatchers := [];
     configListeners := [{| listenerDisposed := false |}];
     client := None; fileSystemWatcher := None; settingsWatcher := Some 0;
     subscriptions := [0]; commandArguments := opened |}.

(** ** Further vocabulary: error messages *)

(** An event that is no error message. *)
Definition no_error (e : UiEvent) : Prop := forall text, e <> ErrorMessage text.

(** * Properties *)

(** ** Strings *)

Lemma append_nil_l (t : string) : "" +:+ t = t.
Proof. reflexivity. Qed.

Lemma append_cons (a : ascii) (s t : string) :
  String a s +:+ t = String a (s +:+ t).
Proof. reflexivity. Qed.

Lemma append_assoc (a b c : string) : (a +:+ b) +:+ c = a +:+ (b +:+ c).
Proof.
  induction a as [|x a IH]; [reflexivity|].
  rewrite !append_cons. now rewrite IH.
Qed.

Lemma strip_prefix_app (p t : string) : strip_prefix p (p +:+ t) = Some t.
Proof.
  induction p as [|a p IH]; [reflexivity|].
  rewrite append_cons. simpl. now rewrite Ascii.eqb_refl.
Qed.

Lemma strip_prefix_Some (p s t : string) :
  strip_prefix p s = Some t -> s = p +:+ t.
Proof.
  revert s; induction p as [|a p IH]; intros s; simpl.
  - rewrite append_nil_l. congruence.
  - destruct s as [|b s]; [discriminate|].
    destruct (Ascii.eqb_spec a b) as [->|]; [|discriminate].
    intros H. rewrite append_cons. f_equal. now apply IH.
Qed.

Lemma startsWith_app (p t : string) : startsWith (p +:+ t) p = true.
Proof. unfold startsWith. now rewrite strip_prefix_app. Qed.

Lemma startsWith_inv (s p : string) :
  startsWith s p = true -> exists t, s = p +:+ t.
Proof.
  unfold startsWith. destruct (strip_prefix p s) as [t|] eqn:E; [|discriminate].
  intros _. exists t. now apply strip_prefix_Some.
Qed.

Lemma has_char_app (c : ascii) (s t : string) :
  has_char c (s +:+ t) = has_char c s || has_char c t.
Proof.
  induction s as [|a s IH]; [reflexivity|].
  rewrite append_cons. simpl. rewrite IH. now rewrite orb_assoc.
Qed.

(** ** The platform asset selector *)

Local Ltac documented arch' os ext :=
  eexists; split; [reflexivity|];
  exists arch', os, ext; rewrite !elem_of_cons;
  repeat split; auto; try discriminate; try (intros; discriminate).

Lemma getAssetName_supported (platform arch version : string) :
  (platform, arch) ∈ supported_pairs ->
  exists n, getAssetName platform arch version = Some n /\ documented_name version n.
Proof.
  unfold supported_pairs. rewrite !elem_of_cons, elem_of_nil.
  intros [H|[H|[H|[H|[H|[H|[]]]]]]]; inversion H; subst; clear H.
  - documented "x86_64" "apple-darwin" "tar.gz".
  - documented "aarch64" "apple-darwin" "tar.gz".
  - documented "x86_64" "unknown-linux-gnu" "tar.gz".
  - documented "aarch64" "unknown-linux-gnu" "tar.gz".
  - documented "x86_64" "pc-windows-msvc" "zip".
  - documented "aarch64" "pc-windows-msvc" "zip".
Qed.

Lemma getAssetName_unsupported (platform arch version : string) :
  (platform, arch) ∉ supported_pairs ->
  getAssetName platform arch version = None.
Proof.
  unfold supported_pairs. rewrite !elem_of_cons, elem_of_nil. intros H.
  unfold getAssetName.
  destruct (String.eqb_spec platform "darwin") as [->|];
    [|destruct (String.eqb_spec platform "linux") as [->|];
      [|destruct (String.eqb_spec platform "win32") as [->|]; [|reflexivity]]];
    (destruct (String.eqb_spec arch "x64") as [->|];
      [|destruct (String.eqb_spec arch "arm64") as [->|]; [|reflexivity]]);
    exfalso; apply H; intuition.
Qed.

(** C5.  [getAssetName] is a function of the operating system, the
    architecture and the version alone.  On each of the six supported pairs
    it returns a name of the shape
    [<binary-name>-<version>-<arch>-<os-triple>.<ext>], with the architecture
    one of [x86_64], [aarch64], the triple one of [apple-darwin],
    [unknown-linux-gnu], [pc-windows-msvc], and the extension [zip] exactly
    for the Windows triple and [tar.gz] otherwise; the six names are the
    ones listed.  On every other pair it returns nothing. *)
Theorem getAssetName_spec (platform arch version : string) :
  ((platform, arch) ∈ supported_pairs ->
     exists n, getAssetName platform arch version = Some n /\ documented_name version n)
  /\ ((platform, arch) ∉ supported_pairs ->
     getAssetName platform arch version = None)
  /\ getAssetName "darwin" "x64" version
       = Some (BINARY_NAME +:+ "-" +:+ version +:+ "-x86_64-apple-darwin.tar.gz")
  /\ getAssetName "darwin" "arm64" version
       = Some (BINARY_NAME +:+ "-" +:+ version +:+ "-aarch64-apple-darwin.tar.gz")
  /\ getAssetName "linux" "x64" version
       = Some (BINARY_NAME +:+ "-" +:+ version +:+ "-x86_64-unknown-linux-gnu.tar.gz")
  /\ getAssetName "linux" "arm64" version
       = Some (BINARY_NAME +:+ "-" +:+ version +:+ "-aarch64-unknown-linux-gnu.tar.gz")
  /\ getAssetName "win32" "x64" version
       = Some (BINARY_NAME +:+ "-" +:+ version +:+ "-x86_64-pc-windows-msvc.zip")
  /\ getAssetName "win32" "arm64" version
       = Some (BINARY_NAME +:+ "-" +:+ version +:+ "-aarch64-pc-windows-msvc.zip").
Proof.
  split; [apply getAssetName_supported|].
  split; [apply getAssetName_unsupported|].
  repeat split.
Qed.

Lemma getAssetName_spec_witness :
  (exists n, getAssetName "linux" "arm64" "v1.3.0" = Some n /\ documented_name "v1.3.0" n)
  /\ getAssetName "freebsd" "x64" "v1.3.0" = None.
Proof.
  split.
  - apply (proj1 (getAssetName_spec "linux" "arm64" "v1.3.0")).
    unfold supported_pairs. rewrite !elem_of_cons. auto.
  - apply (proj1 (proj2 (getAssetName_spec "freebsd" "x64" "v1.3.0"))).
    unfold supported_pairs. rewrite !elem_of_cons, elem_of_nil.
    intros H. repeat (destruct H as [H|H]; [discriminate|]). exact H.
Defined.

(** ** The acquisition orchestrator *)

Lemma truthy_Some (v : option string) :
  truthy v = true -> exists p, v = Some p /\ p <> "".
Proof.
  destruct v as [p|]; simpl; [|discriminate].
  destruct (String.eqb_spec p ""); [discriminate|]. eauto.
Qed.

Lemma truthy_Some_ne (p : string) : p <> "" -> truthy (Some p) = true.
Proof. intros H. simpl. now destruct (String.eqb_spec p ""). Qed.

(** What the orchestrator does once the configured path and the search path
    have given nothing: the cache lookup. *)
Lemma cache_lookup_miss (env : Env) (w : World) :
  cache_miss env w ->
  (if truthy (globalState w !! LATEST_VERSION_KEY)
   then bool_decide (is_Some (fs w !! binaryPathOf env
                                 (default "" (globalState w !! LATEST_VERSION_KEY))))
   else false) = false.
Proof.
  intros Hmiss.
  destruct (truthy _) eqn:E; [|reflexivity].
  apply truthy_Some in E as (v & Hv & Hne).
  rewrite Hv. simpl. rewrite (Hmiss v Hv Hne).
  apply bool_decide_eq_false. intros [x Hx]. discriminate.
Qed.

Lemma getLanguageServerPath_configured (env : Env) (w : World) :
  truthy (setting_string PATH_CONFIG w) = true ->
  getLanguageServerPath env w =
    (Returned (setting_string PATH_CONFIG w),
     add_console (ConsoleLog ("Using user-defined path: "
                              +:+ default "" (setting_string PATH_CONFIG w))) w).
Proof.
  intros H. unfold getLanguageServerPath, bind, config_get_string.
  rewrite H. reflexivity.
Qed.

Lemma getLanguageServerPath_which (env : Env) (w : World) (q : string) :
  truthy (setting_string PATH_CONFIG w) = false ->
  which env BINARY_NAME = Some q ->
  getLanguageServerPath env w =
    (Returned (Some q), add_console (ConsoleLog ("Found binary in PATH: " +:+ q)) w).
Proof.
  intros H Hq. unfold getLanguageServerPath, bind, config_get_string, try_catch.
  rewrite H, Hq. reflexivity.
Qed.

Lemma getLanguageServerPath_cached (env : Env) (w : World) (v : string) :
  truthy (setting_string PATH_CONFIG w) = false ->
  which env BINARY_NAME = None ->
  globalState w !! LATEST_VERSION_KEY = Some v -> v <> "" ->
  is_Some (fs w !! binaryPathOf env v) ->
  getLanguageServerPath env w =
    (Returned (Some (binaryPathOf env v)),
     add_pending (CheckForUpdates v (setting_bool AUTO_DOWNLOAD_CONFIG false w)
                    (releases env (length (requests w))))
       (add_request releaseUrl
          (add_console (ConsoleLog ("Checking for updates. Current version: " +:+ v))
             (add_console (ConsoleLog ("Using cached language server version " +:+ v
                                       +:+ " from " +:+ binaryPathOf env v)) w)))).
Proof.
  intros H Hq Hv Hne Hbin.
  unfold getLanguageServerPath, bind, config_get_string, try_catch, throw,
    config_get_bool, globalState_get, pathExists, ret.
  rewrite H, Hq, Hv. rewrite (truthy_Some_ne v Hne). simpl default.
  rewrite (bool_decide_eq_true_2 _ Hbin). reflexivity.
Qed.

Lemma bind_ext {A B} (m : M A) (k k' : A -> M B) (w : World) :
  (forall a w', k a w' = k' a w') -> bind m k w = bind m k' w.
Proof. intros H. unfold bind. destruct (m w) as [[a|e] w']; auto. Qed.

(** [await getLatestRelease()] is the request, then the wait for its
    answer. *)
Lemma getLatestRelease_awaits {A} (env : Env) (k : Release -> M A) (h : string -> M A)
    (w : World) :
  try_catch (bind (getLatestRelease env) k) h w
  = bind (request_latestRelease env)
      (fun response => try_catch (bind (await response) k) h) w.
Proof.
  unfold try_catch, bind, getLatestRelease, request_latestRelease, await, throw, ret.
  destruct (releases env (length (requests w))); reflexivity.
Qed.

(** The update check, called and then resumed with nothing in between, is
    the update check run in one piece. *)
Lemma checkForUpdatesInBackground_resumes (env : Env) (cachedVersion : string)
    (shouldAutoDownload : bool) (w : World) :
  checkForUpdatesInBackground env cachedVersion shouldAutoDownload w
  = (console_log ("Checking for updates. Current version: " +:+ cachedVersion) ;;
     response <- request_latestRelease env ;;
     checkForUpdatesInBackground_resumed env cachedVersion shouldAutoDownload response) w.
Proof.
  unfold checkForUpdatesInBackground, checkForUpdatesInBackground_resumed.
  apply bind_ext. intros _ w'. apply getLatestRelease_awaits.
Qed.

Lemma getLanguageServerPath_miss (env : Env) (w : World) :
  truthy (setting_string PATH_CONFIG w) = false ->
  which env BINARY_NAME = None ->
  cache_miss env w ->
  getLanguageServerPath env w =
    if setting_bool AUTO_DOWNLOAD_CONFIG false w then
      downloadLanguageServer env false
        (add_console (ConsoleLog
           "Binary not found. Auto-downloading from GitHub based on user setting.") w)
    else if bool_decide (choice env downloadPromptMessage = Some downloadAndEnableOption) then
      (enableAutoUpdates env ;; downloadLanguageServer env false) (add_ui downloadPrompt w)
    else if bool_decide (choice env downloadPromptMessage = Some downloadOnceOption) then
      downloadLanguageServer env false (add_ui downloadPrompt w)
    else (Returned None, add_ui downloadPrompt w).
Proof.
  intros H Hq Hmiss. apply cache_lookup_miss in Hmiss.
  unfold getLanguageServerPath, bind, config_get_string, try_catch, throw,
    config_get_bool, globalState_get, pathExists, ret.
  rewrite H, Hq.
  destruct (truthy (globalState w !! LATEST_VERSION_KEY)).
  - rewrite Hmiss.
    destruct (setting_bool AUTO_DOWNLOAD_CONFIG false w); [reflexivity|].
    unfold showInformationMessage.
    repeat case_bool_decide; reflexivity.
  - destruct (setting_bool AUTO_DOWNLOAD_CONFIG false w); [reflexivity|].
    unfold showInformationMessage.
    repeat case_bool_decide; reflexivity.
Qed.

(** C6.  The orchestrator takes the first alternative that applies, in this
    order.  (1) A configured path that is set is returned as it is: the only
    effect is a console line, so there is no request and the file system is
    not consulted.  (2) Otherwise a binary found on the search path is
    returned.  (3) Otherwise, when a cached version is recorded and its
    binary is on disk, that binary's path is returned and an update check has
    been started without being waited for: it has written its console line
    and asked the release index, and the rest of it is pending, to go on
    from the answer; nothing is shown and nothing on disk or in the
    persisted state has changed.  (4) Otherwise, with auto-download on the
    installer runs; with auto-download off the prompt is shown, the installer
    runs on either download choice, and any other outcome of the prompt
    returns nothing, having shown the prompt and no error message. *)
Theorem getLanguageServerPath_priority (env : Env) (w : World) :
  (truthy (setting_string PATH_CONFIG w) = true ->
     getLanguageServerPath env w =
       (Returned (setting_string PATH_CONFIG w),
        add_console (ConsoleLog ("Using user-defined path: "
                                 +:+ default "" (setting_string PATH_CONFIG w))) w))
  /\ (truthy (setting_string PATH_CONFIG w) = false ->
      forall q, which env BINARY_NAME = Some q ->
      getLanguageServerPath env w =
        (Returned (Some q), add_console (ConsoleLog ("Found binary in PATH: " +:+ q)) w))
  /\ (truthy (setting_string PATH_CONFIG w) = false ->
      which env BINARY_NAME = None ->
      forall v, globalState w !! LATEST_VERSION_KEY = Some v -> v <> "" ->
      is_Some (fs w !! binaryPathOf env v) ->
      getLanguageServerPath env w =
        (Returned (Some (binaryPathOf env v)),
         add_pending (CheckForUpdates v (setting_bool AUTO_DOWNLOAD_CONFIG false w)
                        (releases env (length (requests w))))
           (add_request releaseUrl
              (add_console (ConsoleLog ("Checking for updates. Current version: " +:+ v))
                 (add_console (ConsoleLog ("Using cached language server version " +:+ v
                                           +:+ " from " +:+ binaryPathOf env v)) w)))))
  /\ (truthy (setting_string PATH_CONFIG w) = false ->
      which env BINARY_NAME = None ->
      cache_miss env w ->
      (setting_bool AUTO_DOWNLOAD_CONFIG false w = true ->
         getLanguageServerPath env w =
           downloadLanguageServer env false
             (add_console (ConsoleLog
                "Binary not found. Auto-downloading from GitHub based on user setting.") w))
      /\ (setting_bool AUTO_DOWNLOAD_CONFIG false w = false ->
          (choice env downloadPromptMessage = Some downloadAndEnableOption ->
             getLanguageServerPath env w =
               (enableAutoUpdates env ;; downloadLanguageServer env false)
                 (add_ui downloadPrompt w))
          /\ (choice env downloadPromptMessage = Some downloadOnceOption ->
              getLanguageServerPath env w =
                downloadLanguageServer env false (add_ui downloadPrompt w))
          /\ (choice env downloadPromptMessage <> Some downloadAndEnableOption ->
              choice env downloadPromptMessage <> Some downloadOnceOption ->
              getLanguageServerPath env w = (Returned None, add_ui downloadPrompt w)))).
Proof.
  split; [apply getLanguageServerPath_configured|].
  split; [intros H q Hq; now apply getLanguageServerPath_which|].
  split; [intros H Hq v Hv Hne Hbin; now apply getLanguageServerPath_cached|].
  intros H Hq Hmiss.
  pose proof (getLanguageServerPath_miss env w H Hq Hmiss) as E.
  split.
  - intros Hauto. now rewrite Hauto in E.
  - intros Hauto. rewrite Hauto in E. repeat split.
    + intros Hc. rewrite E. rewrite bool_decide_eq_true_2 by exact Hc. reflexivity.
    + intros Hc. rewrite E.
      rewrite bool_decide_eq_false_2 by (rewrite Hc; discriminate).
      rewrite bool_decide_eq_true_2 by exact Hc. reflexivity.
    + intros Hc1 Hc2. rewrite E.
      rewrite bool_decide_eq_false_2 by exact Hc1.
      rewrite bool_decide_eq_false_2 by exact Hc2. reflexivity.
Qed.

(** C8.  When the auto-download setting has never been written, the value
    the orchestrator reads is [false]; on a cache miss it then shows the
    download prompt before anything else, with no request made, and whether
    the installer runs at all is the user's pick: a dismissed prompt returns
    nothing and leaves the network untouched. *)
Theorem autoDownload_unset_prompts (env : Env) (w : World) :
  settings w !! AUTO_DOWNLOAD_CONFIG = None ->
  truthy (setting_string PATH_CONFIG w) = false ->
  which env BINARY_NAME = None ->
  cache_miss env w ->
  setting_bool AUTO_DOWNLOAD_CONFIG false w = false
  /\ getLanguageServerPath env w =
       (if bool_decide (choice env downloadPromptMessage = Some downloadAndEnableOption)
        then (enableAutoUpdates env ;; downloadLanguageServer env false)
        else if bool_decide (choice env downloadPromptMessage = Some downloadOnceOption)
        then downloadLanguageServer env false
        else ret None) (add_ui downloadPrompt w)
  /\ requests (add_ui downloadPrompt w) = requests w
  /\ (choice env downloadPromptMessage = None ->
      getLanguageServerPath env w = (Returned None, add_ui downloadPrompt w)).
Proof.
  intros Hunset H Hq Hmiss.
  assert (Hauto : setting_bool AUTO_DOWNLOAD_CONFIG false w = false).
  { unfold setting_bool. now rewrite Hunset. }
  pose proof (getLanguageServerPath_miss env w H Hq Hmiss) as E.
  rewrite Hauto in E.
  split; [exact Hauto|]. split.
  - rewrite E. repeat case_bool_decide; reflexivity.
  - split; [reflexivity|]. intros Hc. rewrite E, Hc.
    rewrite !bool_decide_eq_false_2 by discriminate. reflexivity.
Qed.

Lemma cache_miss_no_record (env : Env) (w : World) :
  globalState w !! LATEST_VERSION_KEY = None -> cache_miss env w.
Proof. intros H v Hv. congruence. Qed.

Lemma getLanguageServerPath_priority_witness :
  (getLanguageServerPath (linux_env (fun _ => None)) configured_world).1
    = Returned (Some "/opt/fbs/flatbuffers-language-server")
  /\ (getLanguageServerPath on_path_env (world_of ∅ ∅ ∅)).1
     = Returned (Some "/usr/local/bin/flatbuffers-language-server")
  /\ getLanguageServerPath (linux_env (fun _ => None)) cached_v120_world
     = (Returned (Some v120_binary),
        add_pending (CheckForUpdates "v1.2.0" false (inr demo_release))
          (add_request releaseUrl
             (add_console (ConsoleLog "Checking for updates. Current version: v1.2.0")
                (add_console
                   (ConsoleLog ("Using cached language server version v1.2.0 from "
                                +:+ v120_binary)) cached_v120_world))))
  /\ getLanguageServerPath (linux_env (fun _ => None)) auto_world
     = downloadLanguageServer (linux_env (fun _ => None)) false
         (add_console (ConsoleLog
            "Binary not found. Auto-downloading from GitHub based on user setting.")
            auto_world)
  /\ getLanguageServerPath (linux_env (fun _ => Some downloadAndEnableOption)) (world_of ∅ ∅ ∅)
     = (enableAutoUpdates (linux_env (fun _ => Some downloadAndEnableOption)) ;;
        downloadLanguageServer (linux_env (fun _ => Some downloadAndEnableOption)) false)
         (add_ui downloadPrompt (world_of ∅ ∅ ∅))
  /\ getLanguageServerPath (linux_env (fun _ => Some downloadOnceOption)) (world_of ∅ ∅ ∅)
     = downloadLanguageServer (linux_env (fun _ => Some downloadOnceOption)) false
         (add_ui downloadPrompt (world_of ∅ ∅ ∅))
  /\ getLanguageServerPath (linux_env (fun _ => None)) (world_of ∅ ∅ ∅)
     = (Returned None, add_ui downloadPrompt (world_of ∅ ∅ ∅)).
Proof.
  split; [|split; [|split; [|split; [|split; [|split]]]]].
  - rewrite (proj1 (getLanguageServerPath_priority
                      (linux_env (fun _ => None)) configured_world)) by reflexivity.
    reflexivity.
  - erewrite (proj1 (proj2 (getLanguageServerPath_priority on_path_env (world_of ∅ ∅ ∅))));
      reflexivity.
  - rewrite (proj1 (proj2 (proj2 (getLanguageServerPath_priority
                                    (linux_env (fun _ => None)) cached_v120_world)))
               ltac:(reflexivity) ltac:(reflexivity) "v1.2.0" ltac:(reflexivity)
               ltac:(discriminate) ltac:(exists (File "ELF-1.2.0" 493); reflexivity)).
    reflexivity.
  - apply (proj2 (proj2 (proj2 (getLanguageServerPath_priority
                                  (linux_env (fun _ => None)) auto_world))));
      try reflexivity.
    all: try (now apply cache_miss_no_record).
  - apply (proj2 (proj2 (proj2 (getLanguageServerPath_priority
             (linux_env (fun _ => Some downloadAndEnableOption)) (world_of ∅ ∅ ∅)))));
      try reflexivity.
    all: try (now apply cache_miss_no_record).
  - apply (proj2 (proj2 (proj2 (getLanguageServerPath_priority
             (linux_env (fun _ => Some downloadOnceOption)) (world_of ∅ ∅ ∅)))));
      try reflexivity.
    all: try (now apply cache_miss_no_record).
  - apply (proj2 (proj2 (proj2 (getLanguageServerPath_priority
             (linux_env (fun _ => None)) (world_of ∅ ∅ ∅)))));
      try reflexivity; try discriminate.
    all: try (now apply cache_miss_no_record).
Defined.

Lemma autoDownload_unset_prompts_witness :
  setting_bool AUTO_DOWNLOAD_CONFIG false (world_of ∅ ∅ ∅) = false
  /\ getLanguageServerPath (linux_env (fun _ => None)) (world_of ∅ ∅ ∅)
     = (Returned None, add_ui downloadPrompt (world_of ∅ ∅ ∅)).
Proof.
  assert (Hmiss : cache_miss (linux_env (fun _ => None)) (world_of ∅ ∅ ∅))
    by now apply cache_miss_no_record.
  destruct (autoDownload_unset_prompts (linux_env (fun _ => None)) (world_of ∅ ∅ ∅))
    as (H1 & _ & _ & H4); [reflexivity|reflexivity|reflexivity|exact Hmiss|].
  split; [exact H1|]. apply H4. reflexivity.
Defined.

(** ** File-watcher forwarding *)

Lemma isIgnored_true (env : Env) (u : Uri) :
  existsb (fun part => bool_decide (part ∈ IGNORED_PATH_SEGMENTS))
          (rev (split (sep_char env) (fsPath u))) = true
  <-> has_ignored_segment env u.
Proof.
  rewrite existsb_exists. unfold has_ignored_segment.
  split; intros (part & Hin & Hign); exists part.
  - apply in_rev in Hin. apply list_elem_of_In in Hin.
    split; [exact Hin|]. now apply bool_decide_eq_true_1 in Hign.
  - split; [apply in_rev; rewrite rev_involutive; now apply list_elem_of_In|].
    now apply bool_decide_eq_true_2.
Qed.

Lemma onFileEvent_ignored (env : Env) (w : World) (u : Uri) (t : FileChangeType) :
  has_ignored_segment env u -> onFileEvent env u t w = (Returned tt, w).
Proof.
  intros H. apply isIgnored_true in H. unfold onFileEvent. rewrite H. reflexivity.
Qed.

Lemma onFileEvent_not_ignored (env : Env) (u : Uri) :
  ~ has_ignored_segment env u ->
  existsb (fun part => bool_decide (part ∈ IGNORED_PATH_SEGMENTS))
          (rev (split (sep_char env) (fsPath u))) = false.
Proof.
  intros H. destruct (existsb _ _) eqn:E; [|reflexivity].
  exfalso. apply H. now apply isIgnored_true.
Qed.

(** C10.  A delete event reaches the session only when the deleted path has
    an empty extension, and then as that one path with type [Deleted]; a
    delete event for a path with a non-empty extension sends nothing; an
    event of any type whose path has an ignored segment ([.git] and
    [node_modules] among them) sends nothing. *)
Theorem onFileEvent_delete_forwarding (env : Env) (w : World) (u : Uri) :
  (~ has_ignored_segment env u -> extname env (fsPath u) = "" ->
     sent (onFileEvent env u Deleted w).2
       = sent w ++ [[{| uri := toString u; type := Deleted |}]])
  /\ (extname env (fsPath u) <> "" -> onFileEvent env u Deleted w = (Returned tt, w))
  /\ (has_ignored_segment env u ->
      forall t, onFileEvent env u t w = (Returned tt, w))
  /\ ".git" ∈ IGNORED_PATH_SEGMENTS
  /\ "node_modules" ∈ IGNORED_PATH_SEGMENTS.
Proof.
  split; [|split; [|split; [|split]]].
  - intros Hign Hext. apply onFileEvent_not_ignored in Hign.
    unfold onFileEvent. rewrite Hign, Hext. simpl.
    unfold sendNotification, bind, modify. simpl.
    destruct (send_error env); reflexivity.
  - intros Hext. unfold onFileEvent.
    destruct (existsb _ _); [reflexivity|].
    destruct (String.eqb_spec (extname env (fsPath u)) ""); [contradiction|reflexivity].
  - intros Hign t. now apply onFileEvent_ignored.
  - unfold IGNORED_PATH_SEGMENTS. set_solver.
  - unfold IGNORED_PATH_SEGMENTS. set_solver.
Qed.

Lemma onFileEvent_delete_forwarding_witness :
  sent (onFileEvent (linux_env (fun _ => None)) schemas_dir Deleted (world_of ∅ ∅ ∅)).2
    = [[{| uri := "file:///ws/schemas"; type := Deleted |}]]
  /\ onFileEvent (linux_env (fun _ => None)) monster_file Deleted (world_of ∅ ∅ ∅)
     = (Returned tt, world_of ∅ ∅ ∅)
  /\ onFileEvent (linux_env (fun _ => None)) vendored_dir Deleted (world_of ∅ ∅ ∅)
     = (Returned tt, world_of ∅ ∅ ∅).
Proof.
  split; [|split].
  - apply (proj1 (onFileEvent_delete_forwarding (linux_env (fun _ => None))
                    (world_of ∅ ∅ ∅) schemas_dir)); [|reflexivity].
    intros H. apply isIgnored_true in H. vm_compute in H. discriminate.
  - apply (proj1 (proj2 (onFileEvent_delete_forwarding (linux_env (fun _ => None))
                           (world_of ∅ ∅ ∅) monster_file))).
    vm_compute. discriminate.
  - apply (proj1 (proj2 (proj2 (onFileEvent_delete_forwarding (linux_env (fun _ => None))
                                   (world_of ∅ ∅ ∅) vendored_dir)))).
    exists "node_modules". split; [|unfold IGNORED_PATH_SEGMENTS; set_solver].
    apply list_elem_of_In. vm_compute. auto.
Defined.

(** ** The installer: the paths before the download *)

Lemma chmod_present (env : Env) (p : string) (mode : Z) (w : World) :
  is_Some (fs w !! p) ->
  chmod_denied env p = false ->
  chmod env p mode w = (Returned tt, with_fs (set_mode p mode) w).
Proof.
  intros [n Hn] Hfree. unfold chmod, with_fs, set_mode. rewrite Hn, Hfree.
  destruct n; [reflexivity|]. now destruct w.
Qed.

Lemma chmod_refused (env : Env) (p : string) (mode : Z) (w : World) :
  is_Some (fs w !! p) ->
  chmod_denied env p = true ->
  chmod env p mode w = (Thrown (refused p), w).
Proof. intros [n Hn] Hdenied. unfold chmod. now rewrite Hn, Hdenied. Qed.

Lemma append_nil_r (s : string) : s +:+ "" = s.
Proof. induction s as [|a s IH]; [reflexivity|]. rewrite append_cons. now rewrite IH. Qed.

Lemma binaryPathOf_ne_storage (env : Env) (v : string) :
  binaryPathOf env v <> globalStoragePath env.
Proof.
  unfold binaryPathOf, path_join. rewrite !append_assoc.
  intros H. rewrite <- (append_nil_r (globalStoragePath env)) in H at 2.
  apply String.app_inj in H. discriminate.
Qed.

(** What [ensureDir] can do to the world. *)
Lemma ensureDir_cases (env : Env) (p : string) (w : World) :
  (exists e, ensureDir env p w = (Thrown e, w))
  \/ (ensureDir env p w = (Returned tt, w) /\ fs w !! p = Some Dir)
  \/ (ensureDir env p w = (Returned tt, with_fs (insert p Dir) w) /\ fs w !! p = None).
Proof.
  unfold ensureDir. destruct (fs w !! p) as [[c m|]|] eqn:E; eauto.
  destruct (mkdir_denied env p); eauto.
Qed.

Lemma failureMessage_ne_unsupported (env : Env) (isUpdate : bool) (msg : string) :
  failureMessage isUpdate msg <> unsupportedMessage env.
Proof.
  unfold failureMessage, unsupportedMessage. intros H.
  apply (f_equal (String.get 0)) in H. vm_compute in H. discriminate.
Qed.

Section BeforeDownload.

Context (env : Env) (isUpdate : bool) (w w1 : World).
Hypothesis Hdir : ensureDir env (globalStoragePath env) w = (Returned tt, w1).

Lemma downloadLanguageServer_index_fails (err : string) :
  releases env (length (requests w1)) = inl err ->
  downloadLanguageServer env isUpdate w =
    (Returned None,
     add_ui (ErrorMessage (failureMessage isUpdate err)) (add_request releaseUrl w1)).
Proof.
  intros Hrel. unfold downloadLanguageServer, bind, try_catch, getLatestRelease.
  rewrite Hdir, Hrel. reflexivity.
Qed.

Lemma downloadLanguageServer_present (release : Release) :
  releases env (length (requests w1)) = inr release ->
  is_Some (fs w1 !! binaryPathOf env (tag_name release)) ->
  win32 env = true \/ chmod_denied env (binaryPathOf env (tag_name release)) = false ->
  downloadLanguageServer env isUpdate w =
    (Returned (Some (binaryPathOf env (tag_name release))),
     after_present env (tag_name release) w1).
Proof.
  intros Hrel Hbin Hmode.
  unfold downloadLanguageServer, bind, try_catch, getLatestRelease, pathExists.
  rewrite Hdir, Hrel. cbn [fs add_request].
  rewrite (bool_decide_eq_true_2 _ Hbin).
  unfold console_log, modify, spawn, ret, after_present.
  destruct (win32 env); cbn [negb]; [reflexivity|].
  destruct Hmode as [Hmode|Hmode]; [discriminate|].
  rewrite chmod_present by (try exact Hbin; exact Hmode). reflexivity.
Qed.

(** The binary is there and its mode may not be set: the refusal is caught
    and shown, and no path is returned. *)
Lemma downloadLanguageServer_present_refused (release : Release) :
  releases env (length (requests w1)) = inr release ->
  is_Some (fs w1 !! binaryPathOf env (tag_name release)) ->
  win32 env = false ->
  chmod_denied env (binaryPathOf env (tag_name release)) = true ->
  downloadLanguageServer env isUpdate w =
    (Returned None, refused_present env isUpdate (tag_name release) w1).
Proof.
  intros Hrel Hbin Hwin Hdenied.
  unfold downloadLanguageServer, bind, try_catch, getLatestRelease, pathExists.
  rewrite Hdir, Hrel. cbn [fs add_request].
  rewrite (bool_decide_eq_true_2 _ Hbin).
  unfold console_log, modify, spawn, ret, refused_present.
  rewrite Hwin. cbn [negb].
  rewrite chmod_refused by (try exact Hbin; exact Hdenied). reflexivity.
Qed.

(** With the binary there, the mode can be set or it cannot. *)
Lemma mode_settable_or_not (release : Release) :
  (win32 env = true \/ chmod_denied env (binaryPathOf env (tag_name release)) = false)
  \/ (win32 env = false /\ chmod_denied env (binaryPathOf env (tag_name release)) = true).
Proof.
  destruct (win32 env); [left; now left|].
  destruct (chmod_denied env _); [right|left]; auto.
Qed.

Lemma downloadLanguageServer_unsupported (release : Release) :
  releases env (length (requests w1)) = inr release ->
  fs w1 !! binaryPathOf env (tag_name release) = None ->
  getAssetName (platform env) (arch env) (tag_name release) = None ->
  downloadLanguageServer env isUpdate w =
    (Returned None,
     add_ui (ErrorMessage (unsupportedMessage env)) (add_request releaseUrl w1)).
Proof.
  intros Hrel Hbin Hname.
  unfold downloadLanguageServer, bind, try_catch, getLatestRelease, pathExists.
  rewrite Hdir, Hrel. cbn [fs add_request]. rewrite Hbin, Hname.
  rewrite bool_decide_eq_false_2 by (intros [x Hx]; discriminate).
  reflexivity.
Qed.

End BeforeDownload.

Lemma ensureDir_Returned (env : Env) (p : string) (w w1 : World) :
  ensureDir env p w = (Returned tt, w1) ->
  requests w1 = requests w /\ ui w1 = ui w
  /\ fs w1 !! p = Some Dir
  /\ (forall q, q <> p -> fs w1 !! q = fs w !! q).
Proof.
  intros H.
  destruct (ensureDir_cases env p w) as [[e He]|[[He Hp]|[He Hp]]];
    rewrite He in H; inversion H; subst; clear H.
  - auto.
  - repeat split; try reflexivity.
    + cbn. apply lookup_insert_eq.
    + intros q Hq. cbn. now apply lookup_insert_ne.
Qed.

Lemma ensureDir_is_dir (env : Env) (p : string) (w : World) :
  fs w !! p = Some Dir -> ensureDir env p w = (Returned tt, w).
Proof. intros H. unfold ensureDir. now rewrite H. Qed.

Lemma downloadLanguageServer_mkdir_fails (env : Env) (isUpdate : bool) (w w1 : World)
    (e : string) :
  ensureDir env (globalStoragePath env) w = (Thrown e, w1) ->
  downloadLanguageServer env isUpdate w = (Thrown e, w1).
Proof. intros H. unfold downloadLanguageServer, bind. now rewrite H. Qed.

Lemma ui_after_present (env : Env) (v : string) (w : World) :
  ui (after_present env v w) = ui w.
Proof. unfold after_present. now destruct (win32 env). Qed.

(** C9, as the code has it.  The installer looks for the binary before it
    asks whether the platform is supported.  Whenever the binary of the
    latest version is on disk, whatever the operating system and
    architecture are: if its mode can be set (on Windows it is not touched)
    the installer returns its path and shows nothing; if the change of mode
    is refused the installer shows its failure message, with the refusal in
    it, and returns no path.  The unsupported-platform error is newly shown
    only in runs where the release query succeeded and no binary of that
    release was on disk; and with no such binary an unsupported platform does
    get the error and no path. *)
Theorem present_binary_precedes_platform_check (env : Env) (isUpdate : bool) (w : World) :
  (forall release,
     fs w !! globalStoragePath env = Some Dir ->
     releases env (length (requests w)) = inr release ->
     is_Some (fs w !! binaryPathOf env (tag_name release)) ->
     (win32 env = true \/ chmod_denied env (binaryPathOf env (tag_name release)) = false ->
      (downloadLanguageServer env isUpdate w).1
        = Returned (Some (binaryPathOf env (tag_name release)))
      /\ ui (downloadLanguageServer env isUpdate w).2 = ui w)
     /\ (win32 env = false ->
         chmod_denied env (binaryPathOf env (tag_name release)) = true ->
         (downloadLanguageServer env isUpdate w).1 = Returned None
         /\ ui (downloadLanguageServer env isUpdate w).2
            = ui w ++ [ErrorMessage
                         (failureMessage isUpdate
                            (refused (binaryPathOf env (tag_name release))))]))
  /\ (ErrorMessage (unsupportedMessage env) ∈ ui (downloadLanguageServer env isUpdate w).2 ->
      ErrorMessage (unsupportedMessage env) ∉ ui w ->
      exists release,
        releases env (length (requests w)) = inr release
        /\ fs w !! binaryPathOf env (tag_name release) = None)
  /\ (forall release,
        fs w !! globalStoragePath env = Some Dir ->
        releases env (length (requests w)) = inr release ->
        fs w !! binaryPathOf env (tag_name release) = None ->
        getAssetName (platform env) (arch env) (tag_name release) = None ->
        downloadLanguageServer env isUpdate w =
          (Returned None,
           add_ui (ErrorMessage (unsupportedMessage env)) (add_request releaseUrl w))).
Proof.
  split; [|split].
  - intros release Hroot Hrel Hbin. split.
    + intros Hmode.
      rewrite (downloadLanguageServer_present env isUpdate w w
                 (ensureDir_is_dir env _ w Hroot) release Hrel Hbin Hmode).
      split; [reflexivity|]. apply ui_after_present.
    + intros Hwin Hdenied.
      rewrite (downloadLanguageServer_present_refused env isUpdate w w
                 (ensureDir_is_dir env _ w Hroot) release Hrel Hbin Hwin Hdenied).
      split; reflexivity.
  - intros Hshown Hnew.
    destruct (ensureDir env (globalStoragePath env) w) as [[[]|e] w1] eqn:Hdir.
    2:{ rewrite (downloadLanguageServer_mkdir_fails env isUpdate w w1 e Hdir) in Hshown.
        destruct (ensureDir_cases env (globalStoragePath env) w) as [[e' He]|[[He _]|[He _]]];
          rewrite He in Hdir; inversion Hdir; subst. contradiction. }
    destruct (ensureDir_Returned env _ w w1 Hdir) as (Hreq & Hui & _ & Hfs).
    destruct (releases env (length (requests w1))) as [err|release] eqn:Hrel.
    + rewrite (downloadLanguageServer_index_fails env isUpdate w w1 Hdir err Hrel) in Hshown.
      cbn in Hshown. rewrite Hui in Hshown.
      apply elem_of_app in Hshown as [Hshown|Hshown]; [contradiction|].
      apply list_elem_of_singleton in Hshown.
      exfalso. apply (failureMessage_ne_unsupported env isUpdate err). congruence.
    + destruct (fs w1 !! binaryPathOf env (tag_name release)) as [n|] eqn:Hbin.
      * assert (Hsome : is_Some (fs w1 !! binaryPathOf env (tag_name release)))
          by (rewrite Hbin; eauto).
        destruct (mode_settable_or_not env release) as [Hmode|[Hwin Hdenied]].
        -- rewrite (downloadLanguageServer_present env isUpdate w w1 Hdir release Hrel
                      Hsome Hmode) in Hshown.
           cbn [snd] in Hshown. rewrite ui_after_present, Hui in Hshown. contradiction.
        -- rewrite (downloadLanguageServer_present_refused env isUpdate w w1 Hdir release
                      Hrel Hsome Hwin Hdenied) in Hshown.
           cbn in Hshown. rewrite Hui in Hshown.
           apply elem_of_app in Hshown as [Hshown|Hshown]; [contradiction|].
           apply list_elem_of_singleton in Hshown.
           exfalso. apply (failureMessage_ne_unsupported env isUpdate
                             (refused (binaryPathOf env (tag_name release)))).
           congruence.
      * exists release. rewrite <- Hreq. split; [exact Hrel|].
        rewrite <- Hfs; [exact Hbin|]. apply binaryPathOf_ne_storage.
  - intros release Hroot Hrel Hbin Hname.
    exact (downloadLanguageServer_unsupported env isUpdate w w
             (ensureDir_is_dir env _ w Hroot) release Hrel Hbin Hname).
Qed.

Lemma present_binary_precedes_platform_check_witness :
  getAssetName (platform freebsd_env) (arch freebsd_env) "v1.3.0" = None
  /\ (downloadLanguageServer freebsd_env false installed_v130_world).1
     = Returned (Some v130_binary)
  /\ ui (downloadLanguageServer freebsd_env false installed_v130_world).2 = []
  /\ (exists release,
        releases freebsd_env 0 = inr release
        /\ fs (world_of ∅ ∅ ∅) !! binaryPathOf freebsd_env (tag_name release) = None)
  /\ downloadLanguageServer freebsd_env false (world_of (<["/storage" := Dir]> ∅) ∅ ∅)
     = (Returned None,
        add_ui (ErrorMessage "Unsupported platform: freebsd-x64")
          (add_request releaseUrl (world_of (<["/storage" := Dir]> ∅) ∅ ∅))).
Proof.
  split; [reflexivity|].
  destruct (present_binary_precedes_platform_check freebsd_env false installed_v130_world)
    as [Hpresent _].
  destruct (Hpresent demo_release) as [Hset _];
    [reflexivity|reflexivity|exists (File "ELF-1.3.0" 420); reflexivity|].
  destruct Hset as [Hpath Hui]; [right; reflexivity|].
  split; [exact Hpath|]. split; [exact Hui|]. split.
  - apply (proj1 (proj2 (present_binary_precedes_platform_check freebsd_env false
                           (world_of ∅ ∅ ∅)))).
    + apply list_elem_of_In. vm_compute. auto.
    + apply not_elem_of_nil.
  - apply (proj2 (proj2 (present_binary_precedes_platform_check freebsd_env false
                           (world_of (<["/storage" := Dir]> ∅) ∅ ∅))) demo_release);
      reflexivity.
Defined.

(** C9, as it is worded, fails: on a host the selector does not know, with
    the binary of the latest version on disk and a file system that refuses
    the change of mode, the installer returns no path. *)
Lemma present_binary_is_withheld_when_chmod_is_refused :
  getAssetName (platform (no_chmod freebsd_env)) (arch (no_chmod freebsd_env)) "v1.3.0" = None
  /\ releases (no_chmod freebsd_env) (length (requests installed_v130_world))
     = inr demo_release
  /\ fs installed_v130_world !! binaryPathOf (no_chmod freebsd_env) (tag_name demo_release)
     = Some (File "ELF-1.3.0" 420)
  /\ (downloadLanguageServer (no_chmod freebsd_env) false installed_v130_world).1
     = Returned None
  /\ ui (downloadLanguageServer (no_chmod freebsd_env) false installed_v130_world).2
     = [ErrorMessage ("Failed to download language server: "
                      +:+ "EPERM: operation not permitted, chmod " +:+ v130_binary)].
Proof.
  split; [reflexivity|]. split; [reflexivity|]. split; [reflexivity|].
  split; vm_compute; reflexivity.
Qed.

Lemma fs_after_present (env : Env) (v : string) (w : World) :
  fs (after_present env v w)
    = if win32 env then fs w else set_mode (binaryPathOf env v) 493 (fs w).
Proof. unfold after_present. now destruct (win32 env). Qed.

Lemma set_mode_lookup_file (p : string) (mode m0 : Z) (c : string) (m : gmap string Node) :
  m !! p = Some (File c m0) -> set_mode p mode m !! p = Some (File c mode).
Proof. intros H. unfold set_mode. rewrite H. apply lookup_insert_eq. Qed.

Lemma set_mode_lookup_ne (p q : string) (mode : Z) (m : gmap string Node) :
  q <> p -> set_mode p mode m !! q = m !! q.
Proof.
  intros H. unfold set_mode. destruct (m !! p) as [[c m0|]|]; try reflexivity.
  now apply lookup_insert_ne.
Qed.

(** ** Shown events and exceptions, compositionally *)

Section Shows.

Context (P : UiEvent -> Prop).

Lemma extends_ui_refl (w w' : World) : ui w' = ui w -> extends_ui P w w'.
Proof. intros H. exists []. rewrite H, app_nil_r. split; [reflexivity|constructor]. Qed.

Lemma extends_ui_trans (w1 w2 w3 : World) :
  extends_ui P w1 w2 -> extends_ui P w2 w3 -> extends_ui P w1 w3.
Proof.
  intros (s1 & H1 & F1) (s2 & H2 & F2). exists (s1 ++ s2).
  rewrite H2, H1, app_assoc. split; [reflexivity|]. now apply Forall_app.
Qed.

Lemma extends_ui_add (e : UiEvent) (w : World) : P e -> extends_ui P w (add_ui e w).
Proof. intros H. exists [e]. split; [reflexivity|]. now repeat constructor. Qed.

Lemma shows_ret {A} (a : A) : shows P (ret a).
Proof. intros w. now apply extends_ui_refl. Qed.

Lemma shows_throw {A} (e : string) : shows P (@throw A e).
Proof. intros w. now apply extends_ui_refl. Qed.

Lemma shows_bind {A B} (m : M A) (k : A -> M B) :
  shows P m -> (forall a, shows P (k a)) -> shows P (bind m k).
Proof.
  intros Hm Hk w. unfold bind. specialize (Hm w).
  destruct (m w) as [[a|e] w']; cbn [snd] in *; [|exact Hm].
  eapply extends_ui_trans; [exact Hm|apply Hk].
Qed.

Lemma shows_try_catch {A} (m : M A) (h : string -> M A) :
  shows P m -> (forall e, shows P (h e)) -> shows P (try_catch m h).
Proof.
  intros Hm Hh w. unfold try_catch. specialize (Hm w).
  destruct (m w) as [[a|e] w']; cbn [snd] in *; [exact Hm|].
  eapply extends_ui_trans; [exact Hm|apply Hh].
Qed.

Lemma shows_silent {A} (m : M A) : (forall w, ui (m w).2 = ui w) -> shows P m.
Proof. intros H w. apply extends_ui_refl, H. Qed.

Lemma shows_event (e : UiEvent) : P e -> shows P (modify (add_ui e)).
Proof. intros H w. now apply extends_ui_add. Qed.

End Shows.

Lemma shows_weaken (P Q : UiEvent -> Prop) {A} (m : M A) :
  (forall e, P e -> Q e) -> shows P m -> shows Q m.
Proof.
  intros HPQ Hm w. destruct (Hm w) as (s & Hs & F).
  exists s. split; [exact Hs|]. eapply Forall_impl; eauto.
Qed.

(** The primitives that show nothing. *)

Local Ltac silent :=
  intros; apply shows_silent; intros ?;
  repeat match goal with
         | |- context [match ?x with _ => _ end] => destruct x
         end;
  reflexivity.

Lemma shows_console_log P s : shows P (console_log s).
Proof. silent. Qed.

Lemma shows_console_error P s e : shows P (console_error s e).
Proof. silent. Qed.

Lemma shows_executeCommand P c : shows P (executeCommand c).
Proof. silent. Qed.

Lemma shows_spawn P t : shows P (spawn t).
Proof. silent. Qed.

Lemma shows_pathExists P p : shows P (pathExists p).
Proof. silent. Qed.

Lemma shows_ensureDir P env p : shows P (ensureDir env p).
Proof. unfold ensureDir. silent. Qed.

Lemma shows_chmod P env p mode : shows P (chmod env p mode).
Proof. unfold chmod. silent. Qed.

Lemma shows_remove P env p : shows P (remove env p).
Proof. unfold remove. silent. Qed.

Lemma shows_readdir P env d : shows P (readdir env d).
Proof. unfold readdir. silent. Qed.

Lemma shows_axios_stream P env url : shows P (axios_stream env url).
Proof. unfold axios_stream. silent. Qed.

Lemma shows_pipeline P t p : shows P (pipeline t p).
Proof. unfold pipeline. silent. Qed.

Lemma shows_unpack P env decode archive dir : shows P (unpack env decode archive dir).
Proof. unfold unpack. silent. Qed.

Lemma shows_globalState_get P key : shows P (globalState_get key).
Proof. silent. Qed.

Lemma shows_globalState_update P key value : shows P (globalState_update key value).
Proof. silent. Qed.

Lemma shows_config_update P env key value : shows P (config_update env key value).
Proof. unfold config_update. silent. Qed.

Lemma shows_getLatestRelease P env : shows P (getLatestRelease env).
Proof. unfold getLatestRelease. silent. Qed.

Lemma shows_showErrorMessage (P : UiEvent -> Prop) text :
  P (ErrorMessage text) -> shows P (showErrorMessage text).
Proof. apply shows_event. Qed.

Lemma shows_showInformationMessage (P : UiEvent -> Prop) env text items :
  P (InformationMessage text items) -> shows P (showInformationMessage env text items).
Proof. intros H w. now apply extends_ui_add. Qed.

Lemma shows_progress_report (P : UiEvent -> Prop) title message :
  P (ProgressReport title message) -> shows P (progress_report title message).
Proof. apply shows_event. Qed.

Lemma shows_cleanup_entries P env storagePath currentVersionDir entries :
  shows P (cleanup_entries env storagePath currentVersionDir entries).
Proof.
  induction entries as [|entry rest IH]; cbn [cleanup_entries]; [apply shows_ret|].
  apply shows_bind; [|intros _; exact IH].
  destruct (_ && _); [|apply shows_ret].
  apply shows_bind; [apply shows_console_log|intros _; apply shows_remove].
Qed.

Lemma shows_cleanupOldVersions P env storagePath currentVersionDir :
  shows P (cleanupOldVersions env storagePath currentVersionDir).
Proof.
  apply shows_try_catch; [|intros e; apply shows_console_error].
  apply shows_bind; [apply shows_readdir|intros entries; apply shows_cleanup_entries].
Qed.

Create HintDb shows discriminated.

#[local] Hint Resolve shows_ret shows_throw shows_console_log shows_console_error
  shows_executeCommand shows_spawn shows_pathExists shows_ensureDir shows_chmod
  shows_remove shows_readdir shows_axios_stream shows_pipeline shows_unpack
  shows_globalState_get shows_globalState_update shows_config_update
  shows_getLatestRelease shows_cleanupOldVersions : shows.

(** One step through the structure of a computation. *)
Local Ltac shows_step :=
  match goal with
  | |- shows _ (bind _ _) => apply shows_bind; [|intros ?]
  | |- shows _ (try_catch _ _) => apply shows_try_catch; [|intros ?]
  | |- shows _ (if ?b then _ else _) => destruct b
  | |- shows _ (match ?x with _ => _ end) => destruct x
  | |- shows _ (showErrorMessage _) => apply shows_showErrorMessage
  | |- shows _ (showInformationMessage _ _ _) => apply shows_showInformationMessage
  | |- shows _ (progress_report _ _) => apply shows_progress_report
  | |- shows _ _ => solve [auto with shows]
  end.

Lemma shows_enableAutoUpdates (P : UiEvent -> Prop) env :
  (forall text items, P (InformationMessage text items)) ->
  shows P (enableAutoUpdates env).
Proof. intros HP. unfold enableAutoUpdates. repeat shows_step. apply HP. Qed.

Lemma shows_downloadLanguageServer env isUpdate :
  shows (installer_event env isUpdate) (downloadLanguageServer env isUpdate).
Proof.
  unfold downloadLanguageServer, fetchAndExtract. cbv zeta.
  repeat shows_step; cbn [installer_event]; eauto.
Qed.

Lemma shows_checkForUpdatesInBackground env cachedVersion shouldAutoDownload :
  shows (installer_event env true)
        (checkForUpdatesInBackground env cachedVersion shouldAutoDownload).
Proof.
  unfold checkForUpdatesInBackground. cbv zeta.
  repeat shows_step;
    try apply shows_downloadLanguageServer;
    try (apply shows_enableAutoUpdates; intros; exact I);
    exact I.
Qed.

(** ** Computations that cannot raise *)

Lemma never_throws_modify (f : World -> World) : never_throws (modify f).
Proof. intros w. now exists tt. Qed.

Lemma never_throws_bind {A B} (m : M A) (k : A -> M B) :
  never_throws m -> (forall a, never_throws (k a)) -> never_throws (bind m k).
Proof.
  intros Hm Hk w. unfold bind. destruct (Hm w) as [a Ha].
  destruct (m w) as [[a'|e] w']; cbn [fst] in Ha; [|discriminate].
  apply Hk.
Qed.

Lemma never_throws_try_catch {A} (m : M A) (h : string -> M A) :
  (forall e, never_throws (h e)) -> never_throws (try_catch m h).
Proof.
  intros Hh w. unfold try_catch.
  destruct (m w) as [[a|e] w']; [now exists a|apply Hh].
Qed.

Lemma never_throws_cleanupOldVersions env storagePath currentVersionDir :
  never_throws (cleanupOldVersions env storagePath currentVersionDir).
Proof. apply never_throws_try_catch. intros e. apply never_throws_modify. Qed.

Lemma never_throws_checkForUpdatesInBackground env cachedVersion shouldAutoDownload :
  never_throws (checkForUpdatesInBackground env cachedVersion shouldAutoDownload).
Proof.
  apply never_throws_bind; [apply never_throws_modify|intros _].
  apply never_throws_try_catch. intros e. apply never_throws_modify.
Qed.

(** ** The background update check *)

Lemma shows_any_downloadLanguageServer env isUpdate :
  shows (fun _ => True) (downloadLanguageServer env isUpdate).
Proof.
  apply shows_weaken with (installer_event env isUpdate); [auto|].
  apply shows_downloadLanguageServer.
Qed.

Section Check.

Context (env : Env) (cachedVersion : string) (w : World) (release : Release).
Hypothesis Hrel : releases env (length (requests w)) = inr release.

Lemma check_up_to_date (shouldAutoDownload : bool) :
  tag_name release = cachedVersion ->
  checkForUpdatesInBackground env cachedVersion shouldAutoDownload w =
    (Returned tt,
     add_console (ConsoleLog "Language server is up to date.")
       (add_request releaseUrl
          (add_console (ConsoleLog ("Checking for updates. Current version: "
                                    +:+ cachedVersion)) w))).
Proof.
  intros Heq. unfold checkForUpdatesInBackground.
  unfold bind at 1. unfold console_log at 1, modify at 1.
  unfold try_catch, bind at 1, getLatestRelease. cbn [requests add_console]. rewrite Hrel.
  unfold bind at 1, globalState_get. rewrite Heq, String.eqb_refl. reflexivity.
Qed.

Lemma check_skipped :
  tag_name release <> cachedVersion ->
  tag_name release = default "" (globalState w !! LATEST_SKIPPED_VERSION_KEY) ->
  checkForUpdatesInBackground env cachedVersion false w =
    (Returned tt,
     add_console (ConsoleLog ("Latest version was skipped (" +:+ tag_name release +:+ ")."))
       (found_new cachedVersion (tag_name release) w)).
Proof.
  intros Hc Hs. unfold checkForUpdatesInBackground.
  unfold bind at 1. unfold console_log at 1, modify at 1.
  unfold try_catch, bind at 1, getLatestRelease. cbn [requests add_console]. rewrite Hrel.
  unfold bind at 1, globalState_get. cbn [globalState add_request add_console].
  destruct (String.eqb_spec (tag_name release) cachedVersion); [contradiction|].
  cbn [negb]. unfold bind at 1. unfold console_log at 1, modify at 1.
  rewrite <- Hs, String.eqb_refl. reflexivity.
Qed.

(** The check with a version that is neither cached nor skipped, auto-download
    off: the prompt is shown and the rest runs under the catch-all. *)
Lemma check_prompts :
  tag_name release <> cachedVersion ->
  tag_name release <> default "" (globalState w !! LATEST_SKIPPED_VERSION_KEY) ->
  checkForUpdatesInBackground env cachedVersion false w =
    try_catch
      (if bool_decide (choice env updateAvailableMessage = Some enableUpdatesOption) then
         enableAutoUpdates env ;; _ <- downloadLanguageServer env true ;; ret tt
       else if bool_decide (choice env updateAvailableMessage = Some updateOption) then
         _ <- downloadLanguageServer env true ;; ret tt
       else if bool_decide (choice env updateAvailableMessage = Some skipThisVersionOption) then
         globalState_update LATEST_SKIPPED_VERSION_KEY (tag_name release) ;;
         console_log ("Setting skipped version to " +:+ tag_name release +:+ ".")
       else ret tt)
      (fun error => console_error "Failed to check for updates in the background:" error)
      (add_ui updatePrompt (found_new cachedVersion (tag_name release) w)).
Proof.
  intros Hc Hs. unfold checkForUpdatesInBackground.
  unfold bind at 1. unfold console_log at 1, modify at 1.
  unfold try_catch, bind at 1, getLatestRelease. cbn [requests add_console]. rewrite Hrel.
  unfold bind at 1, globalState_get. cbn [globalState add_request add_console].
  destruct (String.eqb_spec (tag_name release) cachedVersion); [contradiction|].
  cbn [negb]. unfold bind at 1. unfold console_log at 1, modify at 1.
  destruct (String.eqb_spec (tag_name release)
              (default "" (globalState w !! LATEST_SKIPPED_VERSION_KEY))); [contradiction|].
  unfold bind at 1, showInformationMessage. reflexivity.
Qed.

Lemma check_auto_installs :
  tag_name release <> cachedVersion ->
  checkForUpdatesInBackground env cachedVersion true w =
    match downloadLanguageServer env true (found_new cachedVersion (tag_name release) w) with
    | (Returned _, w') => (Returned tt, w')
    | (Thrown e, w') => (Returned tt, add_console (checkFailed e) w')
    end.
Proof.
  intros Hc. unfold checkForUpdatesInBackground.
  unfold bind at 1. unfold console_log at 1, modify at 1.
  unfold try_catch, bind at 1, getLatestRelease. cbn [requests add_console]. rewrite Hrel.
  unfold bind at 1, globalState_get. cbn [globalState add_request add_console].
  destruct (String.eqb_spec (tag_name release) cachedVersion); [contradiction|].
  cbn [negb]. unfold bind at 1. unfold console_log at 1, modify at 1.
  unfold bind at 1. unfold found_new.
  destruct (downloadLanguageServer env true _) as [[a|e] w']; reflexivity.
Qed.

End Check.

Lemma check_index_fails (env : Env) (cachedVersion : string) (shouldAutoDownload : bool)
    (w : World) (err : string) :
  releases env (length (requests w)) = inl err ->
  checkForUpdatesInBackground env cachedVersion shouldAutoDownload w =
    (Returned tt,
     add_console (checkFailed err)
       (add_request releaseUrl
          (add_console (ConsoleLog ("Checking for updates. Current version: "
                                    +:+ cachedVersion)) w))).
Proof.
  intros Hrel. unfold checkForUpdatesInBackground.
  unfold bind at 1. unfold console_log at 1, modify at 1.
  unfold try_catch, bind at 1, getLatestRelease. cbn [requests add_console]. rewrite Hrel.
  reflexivity.
Qed.

#[local] Hint Resolve shows_any_downloadLanguageServer : shows.

Lemma shows_any_enableAutoUpdates env : shows (fun _ => True) (enableAutoUpdates env).
Proof. now apply shows_enableAutoUpdates. Qed.

#[local] Hint Resolve shows_any_enableAutoUpdates : shows.

(** C7.  In the update check with auto-download off, for a release other
    than the cached and the skipped version: picking skip stores that
    release's version as the skipped one.  A check that finds the stored
    skipped version again shows nothing.  A check that finds a version other
    than the cached and the skipped one shows the update prompt; with
    auto-download on, a version other than the cached one goes to the
    installer with no prompt before it. *)
Theorem skipped_version_is_not_offered_again (env : Env) (cachedVersion : string)
    (w : World) (release : Release) :
  releases env (length (requests w)) = inr release ->
  (tag_name release <> cachedVersion ->
   tag_name release <> default "" (globalState w !! LATEST_SKIPPED_VERSION_KEY) ->
   choice env updateAvailableMessage = Some skipThisVersionOption ->
   checkForUpdatesInBackground env cachedVersion false w =
     (Returned tt,
      add_console (ConsoleLog ("Setting skipped version to " +:+ tag_name release +:+ "."))
        (with_globalState (insert LATEST_SKIPPED_VERSION_KEY (tag_name release))
           (add_ui updatePrompt (found_new cachedVersion (tag_name release) w))))
   /\ globalState (checkForUpdatesInBackground env cachedVersion false w).2
        !! LATEST_SKIPPED_VERSION_KEY = Some (tag_name release))
  /\ (globalState w !! LATEST_SKIPPED_VERSION_KEY = Some (tag_name release) ->
      ui (checkForUpdatesInBackground env cachedVersion false w).2 = ui w)
  /\ (tag_name release <> cachedVersion ->
      tag_name release <> default "" (globalState w !! LATEST_SKIPPED_VERSION_KEY) ->
      exists rest,
        ui (checkForUpdatesInBackground env cachedVersion false w).2
          = ui w ++ updatePrompt :: rest)
  /\ (tag_name release <> cachedVersion ->
      checkForUpdatesInBackground env cachedVersion true w =
        match downloadLanguageServer env true
                (found_new cachedVersion (tag_name release) w) with
        | (Returned _, w') => (Returned tt, w')
        | (Thrown e, w') => (Returned tt, add_console (checkFailed e) w')
        end).
Proof.
  intros Hrel. split; [|split; [|split]].
  - intros Hc Hs Hpick.
    rewrite (check_prompts env cachedVersion w release Hrel Hc Hs), Hpick.
    split; [reflexivity|]. cbn. apply lookup_insert_eq.
  - intros Hstored.
    destruct (decide (tag_name release = cachedVersion)) as [Heq|Hne].
    + now rewrite (check_up_to_date env cachedVersion w release Hrel false Heq).
    + rewrite (check_skipped env cachedVersion w release Hrel Hne); [reflexivity|].
      now rewrite Hstored.
  - intros Hc Hs.
    rewrite (check_prompts env cachedVersion w release Hrel Hc Hs).
    match goal with
    | |- context [try_catch ?K ?h ?W] =>
        assert (HK : shows (fun _ => True) (try_catch K h))
          by (repeat shows_step; exact I);
        destruct (HK W) as (rest & Hrest & _)
    end.
    exists rest. rewrite Hrest. cbn [ui add_ui found_new add_console add_request].
    now rewrite <- app_assoc.
  - intros Hc. now apply check_auto_installs.
Qed.

Lemma skipped_version_is_not_offered_again_witness :
  globalState (checkForUpdatesInBackground skip_env "v1.2.0" false cached_v120_world).2
    !! LATEST_SKIPPED_VERSION_KEY = Some "v1.3.0"
  /\ ui (checkForUpdatesInBackground skip_env "v1.2.0" false
           (checkForUpdatesInBackground skip_env "v1.2.0" false cached_v120_world).2).2
     = ui (checkForUpdatesInBackground skip_env "v1.2.0" false cached_v120_world).2
  /\ (exists rest,
        ui (checkForUpdatesInBackground skip_env "v1.2.0" false cached_v120_world).2
          = ui cached_v120_world ++ updatePrompt :: rest)
  /\ checkForUpdatesInBackground skip_env "v1.2.0" true cached_v120_world =
       match downloadLanguageServer skip_env true
               (found_new "v1.2.0" "v1.3.0" cached_v120_world) with
       | (Returned _, w') => (Returned tt, w')
       | (Thrown e, w') => (Returned tt, add_console (checkFailed e) w')
       end.
Proof.
  destruct (skipped_version_is_not_offered_again skip_env "v1.2.0" cached_v120_world
              demo_release) as (Hskip & _ & Hprompt & Hauto); [reflexivity|].
  destruct Hskip as [Hrun Hstored]; [discriminate|discriminate|reflexivity|].
  destruct (skipped_version_is_not_offered_again skip_env "v1.2.0"
              (checkForUpdatesInBackground skip_env "v1.2.0" false cached_v120_world).2
              demo_release) as (_ & Hagain & _); [rewrite Hrun; reflexivity|].
  split; [exact Hstored|].
  split; [exact (Hagain Hstored)|].
  split; [apply Hprompt; discriminate|].
  apply Hauto. discriminate.
Defined.

(** C2, as the code has it.  The update check never raises.  The only
    error messages it can show are the installer's own two (failed update,
    unsupported platform).  An error of the release query, an error of the
    installer raised before its own handler is in place, and an error of
    switching auto-updates on are caught by the check and written to the
    console, with no message shown for them.  An error inside the installer's
    handler, such as its own release query failing, is caught there and
    shown to the user as a failed update. *)
Theorem background_check_contains_errors (env : Env) (cachedVersion : string)
    (shouldAutoDownload : bool) (w : World) :
  (exists w', checkForUpdatesInBackground env cachedVersion shouldAutoDownload w
              = (Returned tt, w'))
  /\ extends_ui (installer_event env true) w
       (checkForUpdatesInBackground env cachedVersion shouldAutoDownload w).2
  /\ (forall err,
        releases env (length (requests w)) = inl err ->
        checkForUpdatesInBackground env cachedVersion shouldAutoDownload w =
          (Returned tt,
           add_console (checkFailed err)
             (add_request releaseUrl
                (add_console (ConsoleLog ("Checking for updates. Current version: "
                                          +:+ cachedVersion)) w))))
  /\ (forall release err w',
        releases env (length (requests w)) = inr release ->
        tag_name release <> cachedVersion ->
        ensureDir env (globalStoragePath env) (found_new cachedVersion (tag_name release) w)
          = (Thrown err, w') ->
        checkForUpdatesInBackground env cachedVersion true w =
          (Returned tt, add_console (checkFailed err) w')
        /\ ui w' = ui w)
  /\ (forall release err,
        releases env (length (requests w)) = inr release ->
        tag_name release <> cachedVersion ->
        tag_name release <> default "" (globalState w !! LATEST_SKIPPED_VERSION_KEY) ->
        choice env updateAvailableMessage = Some enableUpdatesOption ->
        settings_update_error env = Some err ->
        checkForUpdatesInBackground env cachedVersion false w =
          (Returned tt,
           add_console (checkFailed err)
             (add_ui updatePrompt (found_new cachedVersion (tag_name release) w))))
  /\ (forall release err w1,
        releases env (length (requests w)) = inr release ->
        tag_name release <> cachedVersion ->
        ensureDir env (globalStoragePath env) (found_new cachedVersion (tag_name release) w)
          = (Returned tt, w1) ->
        releases env (length (requests w1)) = inl err ->
        checkForUpdatesInBackground env cachedVersion true w =
          (Returned tt,
           add_ui (ErrorMessage (failureMessage true err)) (add_request releaseUrl w1))).
Proof.
  split; [|split; [|split; [|split; [|split]]]].
  - destruct (never_throws_checkForUpdatesInBackground env cachedVersion
                shouldAutoDownload w) as [[] H].
    destruct (checkForUpdatesInBackground _ _ _ w) as [o w'].
    cbn [fst] in H. subst o. now exists w'.
  - apply shows_checkForUpdatesInBackground.
  - intros err Hrel. now apply check_index_fails.
  - intros release err w' Hrel Hc Hdir.
    rewrite (check_auto_installs env cachedVersion w release Hrel Hc).
    rewrite (downloadLanguageServer_mkdir_fails env true _ w' err Hdir).
    split; [reflexivity|].
    destruct (ensureDir_cases env (globalStoragePath env)
                (found_new cachedVersion (tag_name release) w))
      as [[e He]|[[He _]|[He _]]]; rewrite He in Hdir; inversion Hdir; subst.
    reflexivity.
  - intros release err Hrel Hc Hs Hpick Herr.
    rewrite (check_prompts env cachedVersion w release Hrel Hc Hs), Hpick.
    unfold try_catch. cbn [bool_decide decide_rel].
    rewrite bool_decide_eq_true_2 by reflexivity.
    unfold enableAutoUpdates, bind at 1 2, config_update. rewrite Herr. reflexivity.
  - intros release err w1 Hrel Hc Hdir Herr.
    rewrite (check_auto_installs env cachedVersion w release Hrel Hc).
    now rewrite (downloadLanguageServer_index_fails env true _ w1 Hdir err Herr).
Qed.

Lemma background_check_contains_errors_witness :
  checkForUpdatesInBackground offline_env "v1.2.0" false cached_v120_world =
    (Returned tt,
     add_console (checkFailed "timeout of 15000ms exceeded")
       (add_request releaseUrl
          (add_console (ConsoleLog ("Checking for updates. Current version: " +:+ "v1.2.0"))
             cached_v120_world)))
  /\ checkForUpdatesInBackground (read_only (linux_env (fun _ => None))) "v1.2.0" true
       lost_storage_world =
       (Returned tt,
        add_console (checkFailed "EACCES: permission denied, mkdir /storage")
          (found_new "v1.2.0" "v1.3.0" lost_storage_world))
  /\ checkForUpdatesInBackground
       (locked_settings (linux_env (fun _ => Some enableUpdatesOption))) "v1.2.0" false
       cached_v120_world =
       (Returned tt,
        add_console (checkFailed "Unable to write to User Settings")
          (add_ui updatePrompt (found_new "v1.2.0" "v1.3.0" cached_v120_world)))
  /\ checkForUpdatesInBackground flaky_index_env "v1.2.0" true cached_v120_auto_world =
       (Returned tt,
        add_ui (ErrorMessage "Failed to update language server: socket hang up")
          (add_request releaseUrl (found_new "v1.2.0" "v1.3.0" cached_v120_auto_world))).
Proof.
  split; [|split; [|split]].
  - apply (proj1 (proj2 (proj2 (background_check_contains_errors offline_env "v1.2.0" false
                                  cached_v120_world)))).
    reflexivity.
  - apply (proj1 (proj2 (proj2 (proj2 (background_check_contains_errors
             (read_only (linux_env (fun _ => None))) "v1.2.0" true lost_storage_world))))
             demo_release); [reflexivity|discriminate|reflexivity].
  - apply (proj1 (proj2 (proj2 (proj2 (proj2 (background_check_contains_errors
             (locked_settings (linux_env (fun _ => Some enableUpdatesOption))) "v1.2.0" false
             cached_v120_world))))) demo_release);
      [reflexivity|discriminate|discriminate|reflexivity|reflexivity].
  - apply (proj2 (proj2 (proj2 (proj2 (proj2 (background_check_contains_errors
             flaky_index_env "v1.2.0" true cached_v120_auto_world))))) demo_release);
      [reflexivity|discriminate|reflexivity|reflexivity].
Defined.

(** C2, as it is worded, fails: an update that the check installs on its
    own breaks in mid-download, and the user gets an error message. *)
Lemma background_install_failure_is_shown :
  ui cached_v120_auto_world = []
  /\ ui (checkForUpdatesInBackground broken_stream_env "v1.2.0" true
           cached_v120_auto_world).2
     = [ProgressReport "Updating FlatBuffers Language Server" "Fetching vv1.3.0…";
        ErrorMessage "Failed to update language server: socket hang up"].
Proof. split; [reflexivity|]. vm_compute. reflexivity. Qed.

(** ** The temporary archive *)

(** The archive is removed by the statement that follows a successful
    extraction, and nowhere else. *)

Lemma downloadLanguageServer_fetch_fails (env : Env) (isUpdate : bool) (w w1 w2 : World)
    (release : Release) (assetName : string) (asset : Asset) (e : string) :
  ensureDir env (globalStoragePath env) w = (Returned tt, w1) ->
  releases env (length (requests w1)) = inr release ->
  fs w1 !! binaryPathOf env (tag_name release) = None ->
  getAssetName (platform env) (arch env) (tag_name release) = Some assetName ->
  find (fun a => String.eqb (name a) assetName) (assets release) = Some asset ->
  fetchAndExtract env isUpdate (tag_name release) assetName asset
    (add_request releaseUrl w1) = (Thrown e, w2) ->
  downloadLanguageServer env isUpdate w =
    (Returned None, add_ui (ErrorMessage (failureMessage isUpdate e)) w2).
Proof.
  intros Hdir Hrel Hbin Hname Hfind Hfetch.
  unfold downloadLanguageServer.
  unfold bind at 1. rewrite Hdir.
  unfold try_catch, bind at 1, getLatestRelease. rewrite Hrel.
  unfold bind at 1, pathExists. cbn [fs add_request]. rewrite Hbin, Hname, Hfind.
  rewrite bool_decide_eq_false_2 by (intros [x Hx]; discriminate).
  unfold bind at 1. rewrite Hfetch. reflexivity.
Qed.

Lemma pipeline_writes (t : Transfer) (p : string) (w : World) :
  fs w !! p <> Some Dir ->
  pipeline t p w =
    match t with
    | RequestFailed err => (Thrown err, w)
    | Interrupted received err => (Thrown err, with_fs (insert p (File received 420)) w)
    | Completed body => (Returned tt, with_fs (insert p (File body 420)) w)
    end.
Proof.
  intros H. unfold pipeline.
  destruct (fs w !! p) as [[c m|]|]; try reflexivity. contradiction.
Qed.

Lemma fetchAndExtract_interrupted (env : Env) (isUpdate : bool) (version assetName : string)
    (asset : Asset) (w : World) (received err : string) :
  transfer env (browser_download_url asset) = Interrupted received err ->
  fs w !! path_join env (globalStoragePath env) assetName <> Some Dir ->
  exists w',
    fetchAndExtract env isUpdate version assetName asset w = (Thrown err, w')
    /\ fs w' !! path_join env (globalStoragePath env) assetName = Some (File received 420).
Proof.
  intros Ht Hfree. eexists. unfold fetchAndExtract. cbv zeta.
  unfold bind at 1, progress_report at 1, modify at 1.
  unfold bind at 1, axios_stream. rewrite Ht.
  unfold bind at 1. rewrite pipeline_writes by exact Hfree.
  split; [reflexivity|]. cbn. apply lookup_insert_eq.
Qed.

Lemma fetchAndExtract_undecodable (env : Env) (isUpdate : bool) (version assetName : string)
    (asset : Asset) (w : World) (body err : string) :
  transfer env (browser_download_url asset) = Completed body ->
  fs w !! path_join env (globalStoragePath env) assetName <> Some Dir ->
  (if endsWith assetName ".zip" then unzip env else untar env) body = inl err ->
  exists e w',
    fetchAndExtract env isUpdate version assetName asset w = (Thrown e, w')
    /\ fs w' !! path_join env (globalStoragePath env) assetName = Some (File body 420).
Proof.
  intros Ht Hfree Hdecode. unfold fetchAndExtract. cbv zeta.
  unfold bind at 1, progress_report at 1, modify at 1.
  unfold bind at 1, axios_stream. rewrite Ht.
  unfold bind at 1. rewrite pipeline_writes by exact Hfree.
  unfold bind at 1, progress_report at 1, modify at 1.
  unfold bind at 1.
  set (temp := path_join env (globalStoragePath env) assetName) in *.
  set (dir := path_join env (globalStoragePath env) (versionDirName version)).
  set (w2 := add_ui _ (with_fs _ (add_request _ (add_ui _ w)))).
  assert (Htemp : fs w2 !! temp = Some (File body 420)) by apply lookup_insert_eq.
  destruct (ensureDir_cases env dir w2) as [[e He]|[[He Hd]|[He Hd]]]; rewrite He.
  - now exists e, w2.
  - assert (Hunpack : forall decode, decode body = inl err ->
              unpack env decode temp dir w2 = (Thrown err, w2)).
    { intros decode Hd'. unfold unpack. now rewrite Htemp, Hd'. }
    exists err, w2. split; [|exact Htemp].
    unfold bind at 1.
    destruct (endsWith assetName ".zip"); now rewrite Hunpack.
  - assert (Hne : temp <> dir) by congruence.
    assert (Htemp' : fs (with_fs (insert dir Dir) w2) !! temp = Some (File body 420)).
    { cbn [fs with_fs]. rewrite lookup_insert_ne by congruence. exact Htemp. }
    assert (Hunpack : forall decode, decode body = inl err ->
              unpack env decode temp dir (with_fs (insert dir Dir) w2)
              = (Thrown err, with_fs (insert dir Dir) w2)).
    { intros decode Hd'. unfold unpack. now rewrite Htemp', Hd'. }
    exists err, (with_fs (insert dir Dir) w2). split; [|exact Htemp'].
    unfold bind at 1.
    destruct (endsWith assetName ".zip"); now rewrite Hunpack.
Qed.

(** C1 fails on the code.  Once the installer has started to write the
    archive into the storage root, a stream that breaks and an archive that
    does not unpack both make it return nothing with the archive still on
    disk, holding the bytes received: the removal is reached only when
    everything before it went well. *)
Theorem failed_install_keeps_archive (env : Env) (isUpdate : bool) (w w1 : World)
    (release : Release) (assetName : string) (asset : Asset) (bytes : string) :
  ensureDir env (globalStoragePath env) w = (Returned tt, w1) ->
  releases env (length (requests w1)) = inr release ->
  fs w1 !! binaryPathOf env (tag_name release) = None ->
  getAssetName (platform env) (arch env) (tag_name release) = Some assetName ->
  find (fun a => String.eqb (name a) assetName) (assets release) = Some asset ->
  fs w1 !! path_join env (globalStoragePath env) assetName <> Some Dir ->
  (exists err, transfer env (browser_download_url asset) = Interrupted bytes err)
  \/ (transfer env (browser_download_url asset) = Completed bytes
      /\ exists err,
           (if endsWith assetName ".zip" then unzip env else untar env) bytes = inl err) ->
  (downloadLanguageServer env isUpdate w).1 = Returned None
  /\ fs (downloadLanguageServer env isUpdate w).2
       !! path_join env (globalStoragePath env) assetName
     = Some (File bytes 420).
Proof.
  intros Hdir Hrel Hbin Hname Hfind Hfree Hfail.
  assert (exists e w2,
            fetchAndExtract env isUpdate (tag_name release) assetName asset
              (add_request releaseUrl w1) = (Thrown e, w2)
            /\ fs w2 !! path_join env (globalStoragePath env) assetName
               = Some (File bytes 420)) as (e & w2 & Hfetch & Hkept).
  { destruct Hfail as [[err Ht]|[Ht [err Hdecode]]].
    - destruct (fetchAndExtract_interrupted env isUpdate (tag_name release) assetName asset
                  (add_request releaseUrl w1) bytes err Ht Hfree) as (w2 & H1 & H2).
      now exists err, w2.
    - exact (fetchAndExtract_undecodable env isUpdate (tag_name release) assetName asset
               (add_request releaseUrl w1) bytes err Ht Hfree Hdecode). }
  rewrite (downloadLanguageServer_fetch_fails env isUpdate w w1 w2 release assetName asset e
             Hdir Hrel Hbin Hname Hfind Hfetch).
  split; [reflexivity|exact Hkept].
Qed.

Lemma failed_install_keeps_archive_witness :
  ((downloadLanguageServer corrupt_archive_env false (world_of ∅ ∅ ∅)).1 = Returned None
   /\ fs (downloadLanguageServer corrupt_archive_env false (world_of ∅ ∅ ∅)).2
        !! demo_archive_path
      = Some (File "<html>502 Bad Gateway</html>" 420))
  /\ ((downloadLanguageServer broken_stream_env false (world_of ∅ ∅ ∅)).1 = Returned None
      /\ fs (downloadLanguageServer broken_stream_env false (world_of ∅ ∅ ∅)).2
           !! demo_archive_path
         = Some (File "TARB" 420)).
Proof.
  split.
  - apply (failed_install_keeps_archive corrupt_archive_env false (world_of ∅ ∅ ∅)
             (with_fs (insert "/storage" Dir) (world_of ∅ ∅ ∅))
             demo_release (name demo_asset) demo_asset "<html>502 Bad Gateway</html>");
      try reflexivity.
    + vm_compute. discriminate.
    + right. split; [reflexivity|].
      exists "TAR_BAD_ARCHIVE: Unrecognized archive format". reflexivity.
  - apply (failed_install_keeps_archive broken_stream_env false (world_of ∅ ∅ ∅)
             (with_fs (insert "/storage" Dir) (world_of ∅ ∅ ∅))
             demo_release (name demo_asset) demo_asset "TARB");
      try reflexivity.
    + vm_compute. discriminate.
    + left. exists "socket hang up". reflexivity.
Defined.

(** For comparison, the install that goes well: the archive is gone when
    the installer returns, the binary is in place and executable, and the
    old versions are reaped. *)
Lemma install_removes_archive_on_success :
  (downloadLanguageServer (linux_env (fun _ => None)) false
     (world_of files_two_old_versions ∅ ∅)).1
    = Returned (Some v130_binary)
  /\ fs (downloadLanguageServer (linux_env (fun _ => None)) false
           (world_of files_two_old_versions ∅ ∅)).2 !! demo_archive_path
     = None
  /\ fs (downloadLanguageServer (linux_env (fun _ => None)) false
           (world_of files_two_old_versions ∅ ∅)).2 !! v130_binary
     = Some (File "ELF" 493)
  /\ children (linux_env (fun _ => None)) "/storage"
       (fs (downloadLanguageServer (linux_env (fun _ => None)) false
              (world_of files_two_old_versions ∅ ∅)).2)
     = ["flatbuffers-language-server-v1.3.0"].
Proof. repeat split; vm_compute; reflexivity. Qed.

(** ** Paths and directory listings *)

Lemma under_spec (env : Env) (p q : string) :
  under env p q = true <-> q = p \/ exists t, q = p +:+ path_sep env +:+ t.
Proof.
  unfold under. rewrite orb_true_iff. split.
  - intros [H|H]; [left; now apply String.eqb_eq|right].
    apply startsWith_inv in H as [t Ht]. exists t. now rewrite Ht, append_assoc.
  - intros [->|[t ->]]; [left; apply String.eqb_refl|right].
    rewrite <- append_assoc. apply startsWith_app.
Qed.

(** Two names that agree up to what follows them are equal, when neither
    holds a separator and what follows is empty or starts with one. *)
Lemma first_segment (c : ascii) (x n r1 r2 : string) :
  has_char c x = false -> has_char c n = false ->
  (r1 = "" \/ exists t, r1 = String c t) ->
  (r2 = "" \/ exists t, r2 = String c t) ->
  x +:+ r1 = n +:+ r2 -> x = n.
Proof.
  revert n. induction x as [|a x IH]; intros n Hx Hn H1 H2 Heq.
  - destruct n as [|b n]; [reflexivity|]. exfalso.
    rewrite append_nil_l, append_cons in Heq.
    destruct H1 as [->|[t ->]]; [discriminate|].
    inversion Heq; subst. simpl in Hn. now rewrite Ascii.eqb_refl in Hn.
  - destruct n as [|b n].
    + exfalso. rewrite append_nil_l, append_cons in Heq.
      destruct H2 as [->|[t ->]]; [discriminate|].
      inversion Heq; subst. simpl in Hx. now rewrite Ascii.eqb_refl in Hx.
    + rewrite !append_cons in Heq. inversion Heq; subst.
      simpl in Hx, Hn. apply orb_false_iff in Hx as [_ Hx], Hn as [_ Hn].
      f_equal. now apply IH.
Qed.

Lemma under_disjoint (env : Env) (d x n q : string) :
  has_char (sep_char env) x = false -> has_char (sep_char env) n = false ->
  under env (path_join env d x) q = true ->
  under env (path_join env d n) q = true -> x = n.
Proof.
  intros Hx Hn Hux Hun.
  apply under_spec in Hux, Hun.
  assert (exists r1, q = d +:+ path_sep env +:+ x +:+ r1
                     /\ (r1 = "" \/ exists t, r1 = String (sep_char env) t)) as (r1 & E1 & R1).
  { destruct Hux as [->|[t ->]].
    - exists "". unfold path_join. rewrite append_nil_r. auto.
    - exists (path_sep env +:+ t). unfold path_join. rewrite !append_assoc.
      split; [reflexivity|]. right. now exists t. }
  assert (exists r2, q = d +:+ path_sep env +:+ n +:+ r2
                     /\ (r2 = "" \/ exists t, r2 = String (sep_char env) t)) as (r2 & E2 & R2).
  { destruct Hun as [->|[t ->]].
    - exists "". unfold path_join. rewrite append_nil_r. auto.
    - exists (path_sep env +:+ t). unfold path_join. rewrite !append_assoc.
      split; [reflexivity|]. right. now exists t. }
  rewrite E1 in E2. do 2 apply String.app_inj in E2.
  exact (first_segment (sep_char env) x n r1 r2 Hx Hn R1 R2 E2).
Qed.

Lemma under_refl env p : under env p p = true.
Proof. apply under_spec. now left. Qed.

Lemma lookup_removed (env : Env) (p q : string) (m : gmap string Node) :
  filter (fun kv : string * Node => under env p kv.1 = false) m !! q
  = if under env p q then None else m !! q.
Proof.
  destruct (under env p q) eqn:E.
  - apply map_lookup_filter_None. right. intros x _. cbn. congruence.
  - destruct (m !! q) as [x|] eqn:Hq.
    + apply map_lookup_filter_Some. split; [exact Hq|exact E].
    + apply map_lookup_filter_None. now left.
Qed.

Lemma elem_of_children (env : Env) (d n : string) (m : gmap string Node) :
  n ∈ children env d m <->
  is_Some (m !! path_join env d n) /\ n <> "" /\ has_char (sep_char env) n = false.
Proof.
  unfold children. rewrite list_elem_of_omap. split.
  - intros ([k x] & Hin & Hn). apply elem_of_map_to_list in Hin. cbn in Hn.
    destruct (strip_prefix _ k) as [n'|] eqn:Hs; [|discriminate].
    apply strip_prefix_Some in Hs.
    destruct (String.eqb_spec n' ""); [discriminate|].
    destruct (has_char (sep_char env) n') eqn:Hc; [discriminate|].
    cbn in Hn. inversion Hn; subst n'.
    split; [|auto]. exists x. unfold path_join. now rewrite <- append_assoc, <- Hs.
  - intros ([x Hx] & Hne & Hc). exists (path_join env d n, x).
    split; [now apply elem_of_map_to_list|]. cbn.
    unfold path_join. rewrite <- append_assoc, strip_prefix_app.
    destruct (String.eqb_spec n ""); [contradiction|]. now rewrite Hc.
Qed.

Lemma NoDup_omap_inj {A B K : Type} (f : A -> option B) (g : A -> K) (l : list A) :
  (forall x y b, f x = Some b -> f y = Some b -> g x = g y) ->
  NoDup (g <$> l) -> NoDup (omap f l).
Proof.
  intros Hinj. induction l as [|x l IH]; intros Hnd; [constructor|].
  rewrite fmap_cons in Hnd. apply NoDup_cons in Hnd as [Hx Hnd].
  cbn [omap list_omap]. destruct (f x) as [b|] eqn:Hfx; [|now apply IH].
  apply NoDup_cons. split; [|now apply IH].
  intros Hb. apply list_elem_of_omap in Hb as (y & Hy & Hfy).
  apply Hx. rewrite (Hinj x y b Hfx Hfy). now apply list_elem_of_fmap_2.
Qed.

Lemma NoDup_children (env : Env) (d : string) (m : gmap string Node) :
  NoDup (children env d m).
Proof.
  unfold children.
  apply NoDup_omap_inj with (g := fst); [|apply NoDup_fst_map_to_list].
  intros [k1 x1] [k2 x2] n H1 H2. cbn in *.
  destruct (strip_prefix _ k1) as [n1|] eqn:E1; [|discriminate].
  destruct (strip_prefix _ k2) as [n2|] eqn:E2; [|discriminate].
  apply strip_prefix_Some in E1, E2.
  destruct (_ || _) in H1; [discriminate|].
  destruct (_ || _) in H2; [discriminate|].
  congruence.
Qed.

(** ** The reaper *)

Section Reaper.

Context (env : Env) (storagePath currentVersionDir : string).

Local Abbreviation reaped := (reaped env storagePath currentVersionDir).

(** With no removal refused, the loop runs to its end and removes exactly
    what lies in the stale entries. *)
Lemma cleanup_entries_completes (l : list string) (w : World) :
  (forall e, e ∈ l -> stale currentVersionDir e = true ->
             remove_denied env (path_join env storagePath e) = false) ->
  exists w',
    cleanup_entries env storagePath currentVersionDir l w = (Returned tt, w')
    /\ forall q, fs w' !! q = if reaped l q then None else fs w !! q.
Proof.
  revert w. induction l as [|e l IH]; intros w Hfree.
  - exists w. split; [reflexivity|]. intros q. reflexivity.
  - cbn [cleanup_entries]. fold (stale currentVersionDir e).
    assert (Hl : forall x, x ∈ l -> stale currentVersionDir x = true ->
                   remove_denied env (path_join env storagePath x) = false).
    { intros x Hx. apply Hfree. now apply list_elem_of_further. }
    destruct (stale currentVersionDir e) eqn:Hst.
    + unfold bind at 1 2, console_log, modify, remove.
      rewrite (Hfree e (list_elem_of_here _ _) Hst).
      match goal with |- context [cleanup_entries _ _ _ l ?W] =>
        destruct (IH W Hl) as (w' & Hrun & Hfs) end.
      exists w'. split; [exact Hrun|]. intros q. rewrite Hfs.
      unfold reaped. cbn [existsb fs with_fs add_console]. fold (reaped l q).
      rewrite Hst, lookup_removed.
      destruct (under env (path_join env storagePath e) q), (reaped l q); reflexivity.
    + unfold bind at 1, ret.
      destruct (IH w Hl) as (w' & Hrun & Hfs).
      exists w'. split; [exact Hrun|]. intros q. rewrite Hfs.
      unfold reaped. cbn [existsb]. now rewrite Hst.
Qed.

(** A refused removal ends the loop: the entries after it are not looked
    at. *)
Lemma cleanup_entries_stops (pre post : list string) (e : string) (w : World) :
  (forall x, x ∈ pre -> stale currentVersionDir x = true ->
             remove_denied env (path_join env storagePath x) = false) ->
  stale currentVersionDir e = true ->
  remove_denied env (path_join env storagePath e) = true ->
  exists w1,
    cleanup_entries env storagePath currentVersionDir pre w = (Returned tt, w1)
    /\ cleanup_entries env storagePath currentVersionDir (pre ++ e :: post) w
       = (Thrown (busy (path_join env storagePath e)),
          add_console (ConsoleLog ("Removing old version: " +:+ e)) w1).
Proof.
  revert w. induction pre as [|x pre IH]; intros w Hfree Hst Hdenied.
  - exists w. split; [reflexivity|].
    cbn [app cleanup_entries]. fold (stale currentVersionDir e). rewrite Hst.
    unfold bind at 1 2, console_log, modify, remove. now rewrite Hdenied.
  - assert (Hpre : forall y, y ∈ pre -> stale currentVersionDir y = true ->
                     remove_denied env (path_join env storagePath y) = false).
    { intros y Hy. apply Hfree. now apply list_elem_of_further. }
    rewrite <- app_comm_cons. cbn [cleanup_entries]. fold (stale currentVersionDir x).
    destruct (stale currentVersionDir x) eqn:Hx.
    + unfold bind, console_log, modify, remove.
      rewrite (Hfree x (list_elem_of_here _ _) Hx).
      match goal with |- context [cleanup_entries _ _ _ pre ?W] =>
        destruct (IH W Hpre Hst Hdenied) as (w1 & H1 & H2) end.
      exists w1. now rewrite H1, H2.
    + unfold bind, ret.
      destruct (IH w Hpre Hst Hdenied) as (w1 & H1 & H2).
      exists w1. now rewrite H1, H2.
Qed.

End Reaper.

Lemma readdir_root (env : Env) (d : string) (w : World) :
  fs w !! d = Some Dir -> readdir env d w = (Returned (children env d (fs w)), w).
Proof. intros H. unfold readdir. now rewrite H. Qed.

Lemma cleanupOldVersions_completes (env : Env) (d cur : string) (w : World) :
  fs w !! d = Some Dir ->
  (forall e, e ∈ children env d (fs w) -> stale cur e = true ->
             remove_denied env (path_join env d e) = false) ->
  exists w',
    cleanupOldVersions env d cur w = (Returned tt, w')
    /\ forall q, fs w' !! q
                 = if reaped env d cur (children env d (fs w)) q then None else fs w !! q.
Proof.
  intros Hroot Hfree.
  destruct (cleanup_entries_completes env d cur _ w Hfree) as (w' & Hrun & Hfs).
  exists w'. split; [|exact Hfs].
  unfold cleanupOldVersions, try_catch, bind. now rewrite (readdir_root env d w Hroot), Hrun.
Qed.

Lemma reaped_true (env : Env) (d cur : string) (l : list string) (q : string) :
  reaped env d cur l q = true <->
  exists e, e ∈ l /\ stale cur e = true /\ under env (path_join env d e) q = true.
Proof.
  unfold reaped. rewrite existsb_exists. split.
  - intros (e & Hin & H). apply andb_true_iff in H. apply list_elem_of_In in Hin. eauto.
  - intros (e & Hin & H1 & H2). exists e. rewrite H1, H2.
    split; [now apply list_elem_of_In|reflexivity].
Qed.

(** Nothing reaps the entry of a name that is not stale, nor the entry of a
    name outside the list. *)
Lemma reaped_other (env : Env) (d cur : string) (l : list string) (n : string) :
  has_char (sep_char env) n = false ->
  (forall e, e ∈ l -> has_char (sep_char env) e = false) ->
  stale cur n = false \/ n ∉ l ->
  reaped env d cur l (path_join env d n) = false.
Proof.
  intros Hn Hl Hcase. apply not_true_iff_false. intros H.
  apply reaped_true in H as (e & Hin & Hst & Hun).
  assert (e = n) as ->.
  { eapply under_disjoint; [apply (Hl e Hin)|exact Hn|exact Hun|apply under_refl]. }
  destruct Hcase as [Hc|Hc]; [congruence|contradiction].
Qed.

Lemma versionDirName_segment (env : Env) (version : string) :
  has_char (sep_char env) version = false ->
  has_char (sep_char env) (versionDirName version) = false
  /\ startsWith (versionDirName version) VERSION_PREFIX = true.
Proof.
  intros H. unfold versionDirName. split; [|apply startsWith_app].
  rewrite has_char_app, H. unfold sep_char. now destruct (win32 env).
Qed.

Lemma stale_self (cur : string) : stale cur cur = false.
Proof. unfold stale. rewrite String.eqb_refl. apply andb_false_r. Qed.

Lemma stale_other (cur n : string) :
  startsWith n VERSION_PREFIX = true -> n <> cur -> stale cur n = true.
Proof.
  intros H Hne. unfold stale. rewrite H.
  now destruct (String.eqb_spec n cur).
Qed.





(** Whatever the reaper does, and however far it gets, it touches nothing
    outside the stale entries. *)
Lemma cleanup_entries_frame (env : Env) (d cur : string) (l : list string) (w : World)
    (q : string) :
  (forall e, e ∈ l -> stale cur e = true -> under env (path_join env d e) q = false) ->
  fs (cleanup_entries env d cur l w).2 !! q = fs w !! q.
Proof.
  revert w. induction l as [|e l IH]; intros w Hout; [reflexivity|].
  assert (Hl : forall x, x ∈ l -> stale cur x = true ->
                 under env (path_join env d x) q = false).
  { intros x Hx. apply Hout. now apply list_elem_of_further. }
  cbn [cleanup_entries]. fold (stale cur e).
  destruct (stale cur e) eqn:Hst.
  - unfold bind, console_log, modify, remove.
    destruct (remove_denied env (path_join env d e)); [reflexivity|].
    rewrite IH by exact Hl. cbn [fs with_fs add_console].
    now rewrite lookup_removed, (Hout e (list_elem_of_here _ _) Hst).
  - unfold bind, ret. now apply IH.
Qed.

Lemma cleanupOldVersions_frame (env : Env) (d cur : string) (w : World) (q : string) :
  (forall e, e ∈ children env d (fs w) -> stale cur e = true ->
             under env (path_join env d e) q = false) ->
  fs (cleanupOldVersions env d cur w).2 !! q = fs w !! q.
Proof.
  intros Hout. unfold cleanupOldVersions, try_catch, bind, readdir.
  destruct (fs w !! d) as [[c m|]|] eqn:Hd; try reflexivity.
  pose proof (cleanup_entries_frame env d cur _ w q Hout) as H.
  destruct (cleanup_entries env d cur (children env d (fs w)) w) as [[[]|e] w'];
    exact H.
Qed.

(** The reaper leaves the directory it is told to keep, and all that is in
    it, alone. *)
Lemma cleanupOldVersions_keeps_current (env : Env) (d version : string) (w : World)
    (q : string) :
  has_char (sep_char env) version = false ->
  under env (path_join env d (versionDirName version)) q = true ->
  fs (cleanupOldVersions env d (versionDirName version) w).2 !! q = fs w !! q.
Proof.
  intros Hsep Hq. apply cleanupOldVersions_frame. intros e He Hst.
  apply not_true_iff_false. intros Hun.
  apply elem_of_children in He as (_ & _ & He).
  destruct (versionDirName_segment env version Hsep) as [Hcur _].
  rewrite (under_disjoint env d e (versionDirName version) q He Hcur Hun Hq) in Hst.
  now rewrite stale_self in Hst.
Qed.

Lemma under_binaryPathOf (env : Env) (version : string) :
  under env (path_join env (globalStoragePath env) (versionDirName version))
        (binaryPathOf env version) = true.
Proof. apply under_spec. right. now exists (binaryName env). Qed.

(** ** The installer with the binary already in place *)




(** * Further properties *)

(** ** File events: segments, directories, and what is left alone *)

Lemma split_nonempty (c : ascii) (s : string) : split c s <> [].
Proof.
  induction s as [|a s IH]; cbn [split]; [discriminate|].
  destruct (Ascii.eqb a c); [discriminate|].
  destruct (split c s); discriminate.
Qed.

Lemma split_no_separator (c : ascii) (s : string) :
  has_char c s = false -> split c s = [s].
Proof.
  induction s as [|a s IH]; [reflexivity|]. cbn [has_char split].
  intros H. apply orb_false_iff in H as [Ha Hs].
  rewrite Ha, (IH Hs). reflexivity.
Qed.

Lemma split_app_separator (c : ascii) (a b : string) :
  split c (a +:+ String c b) = split c a ++ split c b.
Proof.
  induction a as [|x a IH].
  - rewrite append_nil_l. cbn [split]. now rewrite Ascii.eqb_refl.
  - rewrite append_cons. cbn [split]. rewrite IH.
    destruct (Ascii.eqb x c); [reflexivity|].
    pose proof (split_nonempty c a) as Hne.
    destruct (split c a) as [|y ys]; [contradiction|]. reflexivity.
Qed.

(** The shape of [split]: a first segment without the separator, and, if a
    separator follows it, the segments of the rest. *)
Lemma split_cases (c : ascii) (s : string) :
  exists x, has_char c x = false
    /\ ((s = x /\ split c s = [x])
        \/ exists r, s = x +:+ String c r /\ split c s = x :: split c r).
Proof.
  induction s as [|a s (x & Hx & IH)].
  - exists "". split; [reflexivity|]. now left.
  - cbn [split]. destruct (Ascii.eqb_spec a c) as [->|Hne].
    + exists "". split; [reflexivity|]. right. now exists s.
    + exists (String a x). split.
      { cbn [has_char]. rewrite Hx. now destruct (Ascii.eqb_spec a c). }
      destruct IH as [[-> Hs]|(r & -> & Hs)]; rewrite Hs.
      * now left.
      * right. exists r. now rewrite append_cons.
Qed.

Lemma length_append_sep (c : ascii) (x r : string) :
  String.length (x +:+ String c r) = S (String.length x + String.length r).
Proof.
  induction x as [|a x IH]; [reflexivity|].
  rewrite append_cons. cbn [String.length]. now rewrite IH.
Qed.

Lemma whole_segment_split (c : ascii) (part s : string) :
  whole_segment c part s -> part ∈ split c s.
Proof.
  intros (pre & rest & -> & Hpart & Hpre & Hrest).
  assert (Htail : part ∈ split c (part +:+ rest)).
  { destruct Hrest as [->|[r ->]].
    - rewrite append_nil_r, split_no_separator by exact Hpart. apply list_elem_of_here.
    - rewrite split_app_separator, split_no_separator by exact Hpart.
      apply list_elem_of_here. }
  destruct Hpre as [->|[p ->]]; [exact Htail|].
  rewrite append_assoc. rewrite append_cons, append_nil_l.
  rewrite split_app_separator. apply elem_of_app. now right.
Qed.

Lemma split_whole_segment (c : ascii) (part s : string) :
  part ∈ split c s -> whole_segment c part s.
Proof.
  remember (String.length s) as n eqn:Hn.
  revert s Hn. induction n as [n IH] using lt_wf_ind. intros s Hn Hin.
  destruct (split_cases c s) as (x & Hx & [[-> Hs]|(r & -> & Hs)]); rewrite Hs in Hin.
  - apply list_elem_of_singleton in Hin as ->.
    exists "", "". rewrite append_nil_l, append_nil_r.
    split; [reflexivity|]. split; [exact Hx|]. split; now left.
  - apply elem_of_cons in Hin as [->|Hin].
    + exists "", (String c r). rewrite append_nil_l.
      split; [reflexivity|]. split; [exact Hx|]. split; [now left|right; now exists r].
    + destruct (IH (String.length r)) with (s := r) as (pre & rest & -> & Hp & Hpre & Hrest);
        [rewrite Hn, length_append_sep; lia|reflexivity|exact Hin|].
      exists (x +:+ String c pre), rest. split; [|split; [exact Hp|split; [|exact Hrest]]].
      * now rewrite append_assoc, append_cons.
      * right. destruct Hpre as [->|[p ->]].
        -- now exists x.
        -- exists (x +:+ String c p). now rewrite append_assoc, append_cons.
Qed.

(** X1.  A file event is dropped exactly when one of the ignored names is
    a whole segment of its path: the name stands between separators (or at
    an end of the path), at any depth.  Every event for such a path, of any
    type, leaves the world as it is. *)
Theorem onFileEvent_ignores_whole_segments (env : Env) (w : World) (u : Uri) :
  (has_ignored_segment env u <->
     exists seg, seg ∈ IGNORED_PATH_SEGMENTS /\ whole_segment (sep_char env) seg (fsPath u))
  /\ ((exists seg, seg ∈ IGNORED_PATH_SEGMENTS
                   /\ whole_segment (sep_char env) seg (fsPath u)) ->
      forall t, onFileEvent env u t w = (Returned tt, w)).
Proof.
  assert (Hiff : has_ignored_segment env u <->
            exists seg, seg ∈ IGNORED_PATH_SEGMENTS
                        /\ whole_segment (sep_char env) seg (fsPath u)).
  { unfold has_ignored_segment. split; intros (seg & H1 & H2); exists seg.
    - split; [exact H2|]. now apply split_whole_segment.
    - split; [|exact H1]. now apply whole_segment_split. }
  split; [exact Hiff|]. intros H t. apply onFileEvent_ignored. now apply Hiff.
Qed.

(** X2.  A create or change event for a path that is not ignored: if the
    path is not a directory nothing is sent; if it is a directory, the
    schema files found below it are sent in one notification, each with the
    type of the event, and nothing is sent when none is found. *)
Theorem onFileEvent_expands_directory (env : Env) (w : World) (u : Uri)
    (t : FileChangeType) :
  t <> Deleted -> ~ has_ignored_segment env u ->
  (fs w !! fsPath u <> Some Dir -> onFileEvent env u t w = (Returned tt, w))
  /\ (fs w !! fsPath u = Some Dir -> findFiles env (fsPath u) = [] ->
      onFileEvent env u t w = (Returned tt, w))
  /\ (fs w !! fsPath u = Some Dir -> findFiles env (fsPath u) <> [] ->
      sent (onFileEvent env u t w).2
        = sent w ++ [map (fun f => {| uri := toString f; type := t |})
                         (findFiles env (fsPath u))]).
Proof.
  intros Ht Hign. apply onFileEvent_not_ignored in Hign.
  unfold onFileEvent. rewrite Hign.
  split; [|split].
  - intros Hfile. destruct t; try contradiction;
      unfold bind, isDirectory;
      destruct (fs w !! fsPath u) as [[c m|]|]; try reflexivity; contradiction.
  - intros Hdir Hnone. destruct t; try contradiction;
      unfold bind, isDirectory, getAllUrisInDir, ret; rewrite Hdir, Hnone; reflexivity.
  - intros Hdir Hsome. destruct t; try contradiction;
      unfold bind, isDirectory, getAllUrisInDir, ret; rewrite Hdir; cbn [negb];
      destruct (findFiles env (fsPath u)) as [|f fs'] eqn:Hf; try contradiction;
      unfold sendNotification, bind, modify; cbn;
      destruct (send_error env); reflexivity.
Qed.

Lemma only_notified_quiet (t : FileChangeType) (w : World) :
  only_notified t w (Returned tt, w).
Proof.
  exists []. cbn. rewrite app_nil_r. repeat split; auto.
Qed.

Lemma only_notified_send (env : Env) (t : FileChangeType) (w : World)
    (changes : list FileEvent) (text : string) :
  changes <> [] -> Forall (fun c => type c = t) changes ->
  only_notified t w (sendNotification env changes text w).
Proof.
  intros Hne Hty. exists [changes].
  unfold sendNotification, bind, modify.
  destruct (send_error env); cbn; repeat split; auto.
Qed.

(** X3.  Whatever the event, the handler returns normally, sends at most
    one notification, never an empty one, with every change carrying the
    type of the event, and touches neither the file system, nor the
    persisted state, the settings, the network, the messages, the pending
    tasks or the commands. *)
Theorem onFileEvent_only_notifies (env : Env) (w : World) (u : Uri) (t : FileChangeType) :
  only_notified t w (onFileEvent env u t w).
Proof.
  unfold onFileEvent.
  destruct (existsb _ _); [apply only_notified_quiet|].
  assert (Hexpand : only_notified t w
            ((isDir <- isDirectory (fsPath u) ;;
              if negb isDir then ret tt
              else
                files <- getAllUrisInDir env u ;;
                match files with
                | [] => ret tt
                | _ => sendNotification env
                         (map (fun f => {| uri := toString f; type := t |}) files)
                         "Error sending didChangeWatchedFiles for dir"
                end) w)).
  { unfold bind, isDirectory, getAllUrisInDir, ret.
    destruct (fs w !! fsPath u) as [[c m|]|]; try apply only_notified_quiet.
    cbn [negb]. destruct (findFiles env (fsPath u)) as [|f files] eqn:Hf;
      [apply only_notified_quiet|].
    apply only_notified_send; [discriminate|].
    apply Forall_forall. intros c Hc. apply list_elem_of_fmap in Hc as (g & -> & _).
    reflexivity. }
  destruct t; try exact Hexpand.
  destruct (String.eqb _ _); [|apply only_notified_quiet].
  apply only_notified_send; [discriminate|]. now repeat constructor.
Qed.

Lemma onFileEvent_ignores_whole_segments_witness :
  onFileEvent (linux_env (fun _ => None)) vendored_dir Changed (world_of ∅ ∅ ∅)
    = (Returned tt, world_of ∅ ∅ ∅).
Proof.
  apply (proj2 (onFileEvent_ignores_whole_segments (linux_env (fun _ => None))
                  (world_of ∅ ∅ ∅) vendored_dir)).
  exists "node_modules". split; [unfold IGNORED_PATH_SEGMENTS; set_solver|].
  exists "/ws/", "/pkg". split; [reflexivity|]. split; [reflexivity|].
  split; right; [now exists "/ws"|now exists "pkg"].
Defined.

Lemma onFileEvent_expands_directory_witness :
  onFileEvent schemas_env monster_file Changed schemas_world = (Returned tt, schemas_world)
  /\ sent (onFileEvent schemas_env schemas_dir Created schemas_world).2
     = [[{| uri := "file:///ws/schemas/monster.fbs"; type := Created |}]]
  /\ onFileEvent (linux_env (fun _ => None)) schemas_dir Created schemas_world
     = (Returned tt, schemas_world).
Proof.
  assert (Hfile : ~ has_ignored_segment schemas_env monster_file).
  { intros H. apply isIgnored_true in H. vm_compute in H. discriminate. }
  assert (Hdir : ~ has_ignored_segment schemas_env schemas_dir).
  { intros H. apply isIgnored_true in H. vm_compute in H. discriminate. }
  assert (Hdir' : ~ has_ignored_segment (linux_env (fun _ => None)) schemas_dir).
  { intros H. apply isIgnored_true in H. vm_compute in H. discriminate. }
  split; [|split].
  - apply (proj1 (onFileEvent_expands_directory schemas_env schemas_world monster_file
                    Changed ltac:(discriminate) Hfile)).
    vm_compute. discriminate.
  - apply (proj2 (proj2 (onFileEvent_expands_directory schemas_env schemas_world schemas_dir
                           Created ltac:(discriminate) Hdir)));
      [reflexivity|vm_compute; discriminate].
  - apply (proj1 (proj2 (onFileEvent_expands_directory (linux_env (fun _ => None))
                           schemas_world schemas_dir Created ltac:(discriminate) Hdir')));
      reflexivity.
Defined.

(** ** Asset names, and more on the reaper *)

Lemma rev_app_append (s t : string) : String.rev_app s t = String.rev s +:+ t.
Proof.
  unfold String.rev. revert t. induction s as [|a s IH]; intros t; [reflexivity|].
  cbn [String.rev_app]. rewrite IH, (IH (String a "")).
  now rewrite append_assoc, append_cons, append_nil_l.
Qed.

Lemma rev_append (a b : string) : String.rev (a +:+ b) = String.rev b +:+ String.rev a.
Proof.
  induction a as [|x a IH].
  - now rewrite append_nil_l, append_nil_r.
  - rewrite append_cons. unfold String.rev at 1 3. cbn [String.rev_app].
    rewrite !rev_app_append, IH. now rewrite append_assoc.
Qed.

Lemma rev_involutive (s : string) : String.rev (String.rev s) = s.
Proof.
  induction s as [|a s IH]; [reflexivity|].
  unfold String.rev at 2. cbn [String.rev_app].
  rewrite rev_app_append, rev_append, IH. reflexivity.
Qed.

(** The name of an asset, taken apart. *)
Lemma getAssetName_Some (platform arch version n : string) :
  getAssetName platform arch version = Some n ->
  exists suffix,
    n = VERSION_PREFIX +:+ version +:+ suffix
    /\ (platform, arch, suffix) ∈
         [("darwin", "x64", "-x86_64-apple-darwin.tar.gz");
          ("darwin", "arm64", "-aarch64-apple-darwin.tar.gz");
          ("linux", "x64", "-x86_64-unknown-linux-gnu.tar.gz");
          ("linux", "arm64", "-aarch64-unknown-linux-gnu.tar.gz");
          ("win32", "x64", "-x86_64-pc-windows-msvc.zip");
          ("win32", "arm64", "-aarch64-pc-windows-msvc.zip")].
Proof.
  unfold getAssetName. intros H.
  destruct (String.eqb_spec platform "darwin") as [->|];
    [|destruct (String.eqb_spec platform "linux") as [->|];
      [|destruct (String.eqb_spec platform "win32") as [->|]; [|discriminate]]];
    (destruct (String.eqb_spec arch "x64") as [->|];
      [|destruct (String.eqb_spec arch "arm64") as [->|]; [|discriminate]]);
    cbn in H; inversion H; subst n; clear H;
    eexists; (split; [reflexivity|]); rewrite !elem_of_cons; auto 10.
Qed.

(** X4.  An asset name is built from the platform, the architecture and the
    version without loss: if two calls of [getAssetName] return the same
    name, they were made for the same platform, the same architecture and
    the same version.  So the exact-name match against the assets of a
    release cannot pick the asset of another platform or version. *)
Theorem asset_name_determines_platform_and_version
    (platform arch version platform' arch' version' n : string) :
  getAssetName platform arch version = Some n ->
  getAssetName platform' arch' version' = Some n ->
  platform = platform' /\ arch = arch' /\ version = version'.
Proof.
  intros H H'.
  apply getAssetName_Some in H as (suffix & -> & Hin).
  apply getAssetName_Some in H' as (suffix' & Heq & Hin').
  apply String.app_inj in Heq.
  assert (Hv : String.rev version = String.rev version' -> version = version').
  { intros E. rewrite <- (rev_involutive version), <- (rev_involutive version').
    now rewrite E. }
  rewrite !elem_of_cons, elem_of_nil in Hin, Hin'.
  destruct Hin as [Hin|[Hin|[Hin|[Hin|[Hin|[Hin|[]]]]]]]; inversion Hin; subst; clear Hin;
    destruct Hin' as [Hin'|[Hin'|[Hin'|[Hin'|[Hin'|[Hin'|[]]]]]]];
    inversion Hin'; subst; clear Hin';
    apply (f_equal String.rev) in Heq; rewrite !rev_append in Heq;
    revert Hv Heq;
    generalize (String.rev version) as rv; generalize (String.rev version') as rv';
    intros rv' rv Hv Heq;
    cbv [String.rev String.rev_app] in Heq;
    rewrite ?append_cons, ?append_nil_l in Heq;
    try discriminate;
    (split; [reflexivity|split; [reflexivity|]]); apply Hv; congruence.
Qed.

(** X5.  The name the selector gives ends in [.zip] exactly on Windows, so
    the installer, which picks the unpacker by that ending, unzips on
    Windows and untars everywhere else. *)
Theorem archive_format_follows_platform (env : Env) (version n : string) :
  getAssetName (platform env) (arch env) version = Some n ->
  endsWith n ".zip" = win32 env
  /\ (if endsWith n ".zip" then unzip env else untar env)
     = (if win32 env then unzip env else untar env).
Proof.
  intros H. assert (E : endsWith n ".zip" = win32 env); [|now rewrite E].
  unfold win32. apply getAssetName_Some in H as (suffix & -> & Hin).
  unfold endsWith. rewrite !rev_append.
  generalize (String.rev version) as rv. intros rv.
  rewrite !elem_of_cons, elem_of_nil in Hin.
  destruct Hin as [Hin|[Hin|[Hin|[Hin|[Hin|[Hin|[]]]]]]]; inversion Hin as [[Hp Ha Hs]];
    rewrite Hp; cbv [String.rev String.rev_app];
    rewrite ?append_assoc, ?append_cons, ?append_nil_l; reflexivity.
Qed.

Lemma getAssetName_segment (env : Env) (platform arch version n : string) :
  getAssetName platform arch version = Some n ->
  startsWith n VERSION_PREFIX = true
  /\ n <> versionDirName version
  /\ (has_char (sep_char env) version = false -> has_char (sep_char env) n = false).
Proof.
  intros H. apply getAssetName_Some in H as (suffix & -> & Hin).
  split; [apply startsWith_app|]. split.
  - unfold versionDirName. intros E. apply String.app_inj in E.
    rewrite <- (append_nil_r version) in E at 2. apply String.app_inj in E. subst suffix.
    rewrite !elem_of_cons, elem_of_nil in Hin.
    repeat (destruct Hin as [Hin|Hin]; [discriminate|]). exact Hin.
  - intros Hv. rewrite !has_char_app, Hv.
    rewrite !elem_of_cons, elem_of_nil in Hin. unfold sep_char.
    destruct Hin as [Hin|[Hin|[Hin|[Hin|[Hin|[Hin|[]]]]]]]; inversion Hin; subst;
      destruct (win32 env); reflexivity.
Qed.

Lemma under_parent (env : Env) (d e : string) : under env (path_join env d e) d = false.
Proof.
  apply not_true_iff_false. intros H. apply under_spec in H. unfold path_join in H.
  destruct H as [H|[t H]]; rewrite ?append_assoc in H;
    rewrite <- (append_nil_r d) in H at 1; apply String.app_inj in H; discriminate.
Qed.

Lemma cleanup_entries_nothing (env : Env) (d cur : string) (l : list string) (w : World) :
  (forall e, e ∈ l -> stale cur e = false) ->
  cleanup_entries env d cur l w = (Returned tt, w).
Proof.
  induction l as [|e l IH]; intros H; [reflexivity|].
  cbn [cleanup_entries]. fold (stale cur e).
  rewrite (H e (list_elem_of_here _ _)). unfold bind, ret.
  apply IH. intros x Hx. apply H. now apply list_elem_of_further.
Qed.


Lemma archive_format_follows_platform_witness :
  endsWith "flatbuffers-language-server-v1.3.0-x86_64-unknown-linux-gnu.tar.gz" ".zip" = false
  /\ endsWith "flatbuffers-language-server-v1.3.0-x86_64-pc-windows-msvc.zip" ".zip" = true.
Proof.
  split.
  - apply (proj1 (archive_format_follows_platform (linux_env (fun _ => None)) "v1.3.0" _
                    eq_refl)).
  - apply (proj1 (archive_format_follows_platform
                    (demo_env "win32" None (fun _ => inr demo_release)
                              (fun _ => Completed "ZIP") (fun _ => false) (fun _ => None))
                    "v1.3.0" _ eq_refl)).
Defined.

Lemma asset_name_determines_platform_and_version_witness :
  "linux" = "linux" /\ "x64" = "x64" /\ "v1.3.0" = "v1.3.0".
Proof.
  exact (asset_name_determines_platform_and_version "linux" "x64" "v1.3.0"
           "linux" "x64" "v1.3.0" _ eq_refl eq_refl).
Defined.


(** ** What a computation leaves alone, compositionally *)

Section Keeps.

Context (R : World -> World -> Prop).
Hypothesis R_refl : forall w, R w w.
Hypothesis R_trans : forall a b c, R a b -> R b c -> R a c.

Lemma keeps_ret {A} (a : A) : keeps R (ret a).
Proof. intros w. apply R_refl. Qed.

Lemma keeps_throw {A} (e : string) : keeps R (@throw A e).
Proof. intros w. apply R_refl. Qed.

Lemma keeps_bind {A B} (m : M A) (k : A -> M B) :
  keeps R m -> (forall a, keeps R (k a)) -> keeps R (bind m k).
Proof.
  intros Hm Hk w. unfold bind. specialize (Hm w).
  destruct (m w) as [[a|e] w']; cbn [snd] in *; [|exact Hm].
  eapply R_trans; [exact Hm|apply Hk].
Qed.

Lemma keeps_try_catch {A} (m : M A) (h : string -> M A) :
  keeps R m -> (forall e, keeps R (h e)) -> keeps R (try_catch m h).
Proof.
  intros Hm Hh w. unfold try_catch. specialize (Hm w).
  destruct (m w) as [[a|e] w']; cbn [snd] in *; [exact Hm|].
  eapply R_trans; [exact Hm|apply Hh].
Qed.

End Keeps.

Lemma same_refl {X} (proj : World -> X) (w : World) : same proj w w.
Proof. reflexivity. Qed.

Lemma same_trans {X} (proj : World -> X) (a b c : World) :
  same proj a b -> same proj b c -> same proj a c.
Proof. unfold same. congruence. Qed.

(** A primitive leaves a component alone when unfolding it shows so. *)
Local Ltac same_primitive :=
  let w := fresh "w" in
  intros w; unfold same;
  cbv [console_log console_error showErrorMessage showInformationMessage progress_report
       executeCommand spawn pathExists ensureDir chmod remove readdir isDirectory
       axios_stream pipeline unpack globalState_get globalState_update
       config_get_string config_get_bool config_update getLatestRelease
       modify ret throw];
  repeat match goal with
         | |- context [match ?x with _ => _ end] => destruct x
         end;
  reflexivity.

(** One step through the structure of a computation. *)
Local Ltac same_step :=
  match goal with
  | |- keeps (same _) (bind _ _) =>
      apply keeps_bind; [apply same_trans| |intros ?]
  | |- keeps (same _) (try_catch _ _) =>
      apply keeps_try_catch; [apply same_trans| |intros ?]
  | |- keeps (same _) (if ?b then _ else _) => destruct b
  | |- keeps (same _) (match ?x with _ => _ end) => destruct x
  | |- keeps (same _) _ => solve [auto with keeps]
  | |- keeps (same _) _ => solve [same_primitive]
  end.

Create HintDb keeps discriminated.

Section KeepsReaper.

Context {X : Type} (proj : World -> X).
Hypothesis proj_fs : forall f w, proj (with_fs f w) = proj w.
Hypothesis proj_console : forall l w, proj (add_console l w) = proj w.

Lemma keeps_cleanup_entries env storagePath currentVersionDir entries :
  keeps (same proj) (cleanup_entries env storagePath currentVersionDir entries).
Proof.
  induction entries as [|entry rest IH]; cbn [cleanup_entries];
    [apply keeps_ret; apply same_refl|].
  apply keeps_bind; [apply same_trans| |intros _; exact IH].
  destruct (_ && _); [|apply keeps_ret; apply same_refl].
  apply keeps_bind; [apply same_trans| |intros _].
  - intros w. unfold same, console_log, modify. cbn. apply proj_console.
  - intros w. unfold same, remove. destruct (remove_denied _ _); cbn; [reflexivity|].
    apply proj_fs.
Qed.

Lemma keeps_cleanupOldVersions env storagePath currentVersionDir :
  keeps (same proj) (cleanupOldVersions env storagePath currentVersionDir).
Proof.
  apply keeps_try_catch; [apply same_trans| |intros e].
  - apply keeps_bind; [apply same_trans| |intros entries].
    + intros w. unfold same, readdir. now destruct (fs w !! storagePath) as [[c m|]|].
    + apply keeps_cleanup_entries.
  - intros w. unfold same, console_error, modify. cbn. apply proj_console.
Qed.

End KeepsReaper.

(** The reaper only ever removes. *)
Lemma cleanup_entries_shrinks (env : Env) (d cur : string) (l : list string) (w : World)
    (q : string) (x : Node) :
  fs (cleanup_entries env d cur l w).2 !! q = Some x -> fs w !! q = Some x.
Proof.
  revert w. induction l as [|e l IH]; intros w; [auto|].
  cbn [cleanup_entries]. destruct (_ && _).
  - unfold bind, console_log, modify, remove.
    destruct (remove_denied env (path_join env d e)); [auto|].
    intros H. apply IH in H. cbn [fs with_fs add_console] in H.
    rewrite lookup_removed in H. now destruct (under env (path_join env d e) q).
  - unfold bind, ret. apply IH.
Qed.

Lemma cleanupOldVersions_shrinks (env : Env) (d cur : string) (w : World)
    (q : string) (x : Node) :
  fs (cleanupOldVersions env d cur w).2 !! q = Some x -> fs w !! q = Some x.
Proof.
  unfold cleanupOldVersions, try_catch, bind, readdir.
  destruct (fs w !! d) as [[c m|]|] eqn:Hd; auto.
  pose proof (cleanup_entries_shrinks env d cur (children env d (fs w)) w q x) as H.
  destruct (cleanup_entries env d cur (children env d (fs w)) w) as [[[]|e] w']; exact H.
Qed.

(** X6.  The reaper deletes nothing but version-prefixed entries of the
    storage root: a path that lies in no such entry is exactly as before,
    nothing is created or changed anywhere, and, whether or not a removal is
    refused, the messages, the persisted state, the settings, the network,
    the pending tasks, the commands and the notifications are untouched. *)
Theorem reaper_touches_only_version_entries (env : Env) (d cur : string) (w : World) :
  (forall q,
     (forall e, startsWith e VERSION_PREFIX = true ->
                under env (path_join env d e) q = false) ->
     fs (cleanupOldVersions env d cur w).2 !! q = fs w !! q)
  /\ (forall q x, fs (cleanupOldVersions env d cur w).2 !! q = Some x -> fs w !! q = Some x)
  /\ ui (cleanupOldVersions env d cur w).2 = ui w
  /\ globalState (cleanupOldVersions env d cur w).2 = globalState w
  /\ settings (cleanupOldVersions env d cur w).2 = settings w
  /\ requests (cleanupOldVersions env d cur w).2 = requests w
  /\ pending (cleanupOldVersions env d cur w).2 = pending w
  /\ commandsRun (cleanupOldVersions env d cur w).2 = commandsRun w
  /\ sent (cleanupOldVersions env d cur w).2 = sent w.
Proof.
  split.
  { intros q Hout. apply cleanupOldVersions_frame. intros e _ Hst.
    apply Hout. unfold stale in Hst. now apply andb_true_iff in Hst as [Hst _]. }
  split; [apply cleanupOldVersions_shrinks|].
  repeat split; now apply keeps_cleanupOldVersions.
Qed.

Lemma reaper_touches_only_version_entries_witness :
  fs (cleanupOldVersions v110_locked_env "/storage" (versionDirName "v1.3.0")
        (world_of files_three_versions ∅ ∅)).2 !! "/storage"
  = Some Dir.
Proof.
  rewrite (proj1 (reaper_touches_only_version_entries v110_locked_env "/storage"
                    (versionDirName "v1.3.0") (world_of files_three_versions ∅ ∅))).
  - reflexivity.
  - intros e _. apply under_parent.
Defined.



(** ** The runs of the installer *)

Lemma downloadLanguageServer_after_fetch (env : Env) (isUpdate : bool) (w w1 w2 : World)
    (release : Release) (assetName : string) (asset : Asset) (p : string) :
  ensureDir env (globalStoragePath env) w = (Returned tt, w1) ->
  releases env (length (requests w1)) = inr release ->
  fs w1 !! binaryPathOf env (tag_name release) = None ->
  getAssetName (platform env) (arch env) (tag_name release) = Some assetName ->
  find (fun a => String.eqb (name a) assetName) (assets release) = Some asset ->
  fetchAndExtract env isUpdate (tag_name release) assetName asset
    (add_request releaseUrl w1) = (Returned p, w2) ->
  downloadLanguageServer env isUpdate w =
    match (if negb (win32 env) then chmod env p 493 else ret tt) w2 with
    | (Returned _, w3) => (Returned (Some p), installed env isUpdate (tag_name release) w3)
    | (Thrown e, w3) =>
        (Returned None, add_ui (ErrorMessage (failureMessage isUpdate e)) w3)
    end.
Proof.
  intros Hdir Hrel Hbin Hname Hfind Hfetch.
  unfold downloadLanguageServer.
  unfold bind at 1. rewrite Hdir.
  unfold try_catch, bind at 1, getLatestRelease. rewrite Hrel.
  unfold bind at 1, pathExists. cbn [fs add_request]. rewrite Hbin, Hname, Hfind.
  rewrite bool_decide_eq_false_2 by (intros [x Hx]; discriminate).
  unfold bind at 1. rewrite Hfetch.
  unfold bind at 1.
  destruct ((if negb (win32 env) then chmod env p 493 else ret tt) w2) as [[[]|e] w3];
    [|reflexivity].
  unfold bind at 1, globalState_update, modify.
  unfold installed, announced.
  set (w4 := with_globalState _ w3).
  destruct isUpdate.
  - unfold bind at 1 2, showInformationMessage. fold (updatedMessage (tag_name release)).
    case_bool_decide.
    + unfold executeCommand, modify, bind at 1.
      destruct (never_throws_cleanupOldVersions env (globalStoragePath env)
                  (versionDirName (tag_name release))
                  (add_command "workbench.action.reloadWindow"
                     (add_ui (InformationMessage (updatedMessage (tag_name release))
                                ["Reload Now"]) w4))) as [[] Hc].
      destruct (cleanupOldVersions _ _ _ _) as [o w5]. cbn [fst] in Hc. subst o.
      reflexivity.
    + unfold ret at 1, bind at 1.
      destruct (never_throws_cleanupOldVersions env (globalStoragePath env)
                  (versionDirName (tag_name release))
                  (add_ui (InformationMessage (updatedMessage (tag_name release))
                             ["Reload Now"]) w4)) as [[] Hc].
      destruct (cleanupOldVersions _ _ _ _) as [o w5]. cbn [fst] in Hc. subst o.
      reflexivity.
  - unfold bind at 1 2, showInformationMessage, ret at 1.
    fold (downloadedMessage env (tag_name release)).
    unfold bind at 1.
    destruct (never_throws_cleanupOldVersions env (globalStoragePath env)
                (versionDirName (tag_name release))
                (add_ui (InformationMessage (downloadedMessage env (tag_name release)) [])
                   w4)) as [[] Hc].
    destruct (cleanupOldVersions _ _ _ _) as [o w5]. cbn [fst] in Hc. subst o.
    reflexivity.
Qed.

Lemma downloadLanguageServer_asset_missing (env : Env) (isUpdate : bool) (w w1 : World)
    (release : Release) (assetName : string) :
  ensureDir env (globalStoragePath env) w = (Returned tt, w1) ->
  releases env (length (requests w1)) = inr release ->
  fs w1 !! binaryPathOf env (tag_name release) = None ->
  getAssetName (platform env) (arch env) (tag_name release) = Some assetName ->
  find (fun a => String.eqb (name a) assetName) (assets release) = None ->
  downloadLanguageServer env isUpdate w =
    (Returned None,
     add_ui (ErrorMessage (failureMessage isUpdate (missingAssetMessage assetName)))
       (add_request releaseUrl w1)).
Proof.
  intros Hdir Hrel Hbin Hname Hfind.
  unfold downloadLanguageServer.
  unfold bind at 1. rewrite Hdir.
  unfold try_catch, bind at 1, getLatestRelease. rewrite Hrel.
  unfold bind at 1, pathExists. cbn [fs add_request]. rewrite Hbin, Hname, Hfind.
  rewrite bool_decide_eq_false_2 by (intros [x Hx]; discriminate).
  reflexivity.
Qed.

(** Every run of the installer is one of the listed ones. *)
Lemma downloadLanguageServer_run (env : Env) (isUpdate : bool) (w : World) :
  InstallerRun env isUpdate w (downloadLanguageServer env isUpdate w).
Proof.
  destruct (ensureDir env (globalStoragePath env) w) as [[[]|e] w1] eqn:Hdir.
  2:{ rewrite (downloadLanguageServer_mkdir_fails env isUpdate w w1 e Hdir).
      destruct (ensureDir_cases env (globalStoragePath env) w) as [[e' He]|[[He _]|[He _]]];
        rewrite He in Hdir; inversion Hdir; subst.
      now apply root_refused. }
  destruct (releases env (length (requests w1))) as [err|release] eqn:Hrel.
  { rewrite (downloadLanguageServer_index_fails env isUpdate w w1 Hdir err Hrel).
    eapply index_failed; eassumption. }
  destruct (fs w1 !! binaryPathOf env (tag_name release)) as [node|] eqn:Hbin.
  { assert (Hsome : is_Some (fs w1 !! binaryPathOf env (tag_name release)))
      by (rewrite Hbin; eauto).
    destruct (mode_settable_or_not env release) as [Hset|[Hwin Hdenied]].
    - rewrite (downloadLanguageServer_present env isUpdate w w1 Hdir release Hrel
                 Hsome Hset).
      now apply already_present.
    - rewrite (downloadLanguageServer_present_refused env isUpdate w w1 Hdir release Hrel
                 Hsome Hwin Hdenied).
      now apply present_refused. }
  destruct (getAssetName (platform env) (arch env) (tag_name release)) as [assetName|]
    eqn:Hname.
  2:{ rewrite (downloadLanguageServer_unsupported env isUpdate w w1 Hdir release Hrel Hbin
                 Hname).
      eapply platform_unsupported; eassumption. }
  destruct (find (fun a => String.eqb (name a) assetName) (assets release)) as [asset|]
    eqn:Hfind.
  2:{ rewrite (downloadLanguageServer_asset_missing env isUpdate w w1 release assetName
                 Hdir Hrel Hbin Hname Hfind).
      eapply asset_missing; eassumption. }
  destruct (fetchAndExtract env isUpdate (tag_name release) assetName asset
              (add_request releaseUrl w1)) as [[p|e] w2] eqn:Hfetch.
  2:{ rewrite (downloadLanguageServer_fetch_fails env isUpdate w w1 w2 release assetName
                 asset e Hdir Hrel Hbin Hname Hfind Hfetch).
      eapply fetch_failed; eassumption. }
  rewrite (downloadLanguageServer_after_fetch env isUpdate w w1 w2 release assetName asset p
             Hdir Hrel Hbin Hname Hfind Hfetch).
  destruct ((if negb (win32 env) then chmod env p 493 else ret tt) w2) as [[[]|e] w3] eqn:Hmode.
  - eapply install_done; eassumption.
  - destruct (win32 env) eqn:Hwin; cbn [negb] in Hmode; [discriminate|].
    eapply binary_missing; eassumption.
Qed.

(** What fetching and unpacking does when it returns: the path is the
    binary's, one request went out, to the asset's URL, and the archive is
    gone. *)
Lemma fetchAndExtract_Returned (env : Env) (isUpdate : bool) (version assetName : string)
    (asset : Asset) (w w2 : World) (p : string) :
  fetchAndExtract env isUpdate version assetName asset w = (Returned p, w2) ->
  p = binaryPathOf env version
  /\ fs w2 !! path_join env (globalStoragePath env) assetName = None.
Proof.
  unfold fetchAndExtract. cbv zeta.
  unfold bind at 1, progress_report at 1, modify at 1.
  unfold bind at 1.
  destruct (axios_stream env (browser_download_url asset) _) as [[t|e] wa]; [|discriminate].
  unfold bind at 1.
  destruct (pipeline t _ wa) as [[[]|e] wb]; [|discriminate].
  unfold bind at 1, progress_report at 1, modify at 1.
  unfold bind at 1.
  destruct (ensureDir env _ _) as [[[]|e] wc]; [|discriminate].
  unfold bind at 1.
  match goal with
  | |- context [(if ?b then ?m1 else ?m2) wc] =>
      destruct ((if b then m1 else m2) wc) as [[[]|e] wd]; [|discriminate]
  end.
  unfold bind at 1, remove.
  destruct (remove_denied env _); [discriminate|].
  unfold ret. intros H. inversion H; subst. split; [reflexivity|].
  cbn [fs with_fs]. rewrite lookup_removed. now rewrite under_refl.
Qed.

(** The installer's steps, component by component. *)

Local Ltac same_auto := cbv zeta; repeat same_step.

Lemma keeps_globalState_fetchAndExtract env isUpdate version assetName asset :
  keeps (same globalState) (fetchAndExtract env isUpdate version assetName asset).
Proof. unfold fetchAndExtract. same_auto. Qed.

Lemma keeps_settings_fetchAndExtract env isUpdate version assetName asset :
  keeps (same settings) (fetchAndExtract env isUpdate version assetName asset).
Proof. unfold fetchAndExtract. same_auto. Qed.

Lemma keeps_commandsRun_fetchAndExtract env isUpdate version assetName asset :
  keeps (same commandsRun) (fetchAndExtract env isUpdate version assetName asset).
Proof. unfold fetchAndExtract. same_auto. Qed.

Lemma fetchAndExtract_requests (env : Env) (isUpdate : bool) (version assetName : string)
    (asset : Asset) (w : World) :
  requests (fetchAndExtract env isUpdate version assetName asset w).2
    = requests w ++ [browser_download_url asset].
Proof.
  unfold fetchAndExtract. cbv zeta.
  unfold bind at 1, progress_report at 1, modify at 1.
  unfold bind at 1, axios_stream.
  destruct (transfer env (browser_download_url asset)) as [e|received e|body];
    [reflexivity| |].
  all: match goal with
       | |- requests (?m ?W).2 = _ =>
           assert (Hk : keeps (same requests) m) by same_auto;
           rewrite (Hk W); reflexivity
       end.
Qed.

Lemma chmod_same {X} (proj : World -> X) (env : Env) (p : string) (mode : Z) (w : World) :
  (forall f w, proj (with_fs f w) = proj w) ->
  proj (chmod env p mode w).2 = proj w.
Proof.
  intros H. unfold chmod.
  destruct (fs w !! p) as [[c m|]|]; [destruct (chmod_denied env p)..|]; cbn; auto.
Qed.

Lemma make_executable_same {X} (proj : World -> X) (env : Env) (p : string) (w : World) :
  (forall f w, proj (with_fs f w) = proj w) ->
  proj ((if negb (win32 env) then chmod env p 493 else ret tt) w).2 = proj w.
Proof.
  intros H. destruct (negb (win32 env)); [now apply chmod_same|reflexivity].
Qed.

Lemma ensureDir_same {X} (proj : World -> X) (env : Env) (p : string) (w : World) :
  (forall f w, proj (with_fs f w) = proj w) ->
  proj (ensureDir env p w).2 = proj w.
Proof.
  intros H. destruct (ensureDir_cases env p w) as [[e He]|[[He _]|[He _]]];
    rewrite He; cbn; auto.
Qed.

Lemma globalState_installed (env : Env) (isUpdate : bool) (version : string) (w : World) :
  globalState (installed env isUpdate version w)
    = <[LATEST_VERSION_KEY := version]> (globalState w).
Proof.
  unfold installed. rewrite (keeps_cleanupOldVersions globalState) by reflexivity.
  unfold announced. destruct isUpdate; [case_bool_decide|]; reflexivity.
Qed.

Lemma settings_installed (env : Env) (isUpdate : bool) (version : string) (w : World) :
  settings (installed env isUpdate version w) = settings w.
Proof.
  unfold installed. rewrite (keeps_cleanupOldVersions settings) by reflexivity.
  unfold announced. destruct isUpdate; [case_bool_decide|]; reflexivity.
Qed.

Lemma requests_installed (env : Env) (isUpdate : bool) (version : string) (w : World) :
  requests (installed env isUpdate version w) = requests w.
Proof.
  unfold installed. rewrite (keeps_cleanupOldVersions requests) by reflexivity.
  unfold announced. destruct isUpdate; [case_bool_decide|]; reflexivity.
Qed.

Lemma commandsRun_installed (env : Env) (isUpdate : bool) (version : string) (w : World) :
  commandsRun (installed env isUpdate version w)
    = commandsRun w
      ++ (if isUpdate && bool_decide (choice env (updatedMessage version) = Some "Reload Now")
          then ["workbench.action.reloadWindow"] else []).
Proof.
  unfold installed. rewrite (keeps_cleanupOldVersions commandsRun) by reflexivity.
  unfold announced. destruct isUpdate; cbn [andb]; [case_bool_decide|];
    cbn; now rewrite ?app_nil_r.
Qed.

Lemma fs_installed_shrinks (env : Env) (isUpdate : bool) (version : string) (w : World)
    (q : string) (x : Node) :
  fs (installed env isUpdate version w) !! q = Some x -> fs w !! q = Some x.
Proof.
  unfold installed. intros H. apply cleanupOldVersions_shrinks in H.
  unfold announced in H. destruct isUpdate; [case_bool_decide|]; exact H.
Qed.

Lemma fs_installed_current (env : Env) (isUpdate : bool) (version : string) (w : World) :
  has_char (sep_char env) version = false ->
  fs (installed env isUpdate version w) !! binaryPathOf env version
    = fs w !! binaryPathOf env version.
Proof.
  intros Hsep. unfold installed.
  rewrite cleanupOldVersions_keeps_current by (try exact Hsep; apply under_binaryPathOf).
  unfold announced. destruct isUpdate; [case_bool_decide|]; reflexivity.
Qed.

(** X9.  A release that has no asset with the platform's name: the
    installer makes no download request, writes nothing below the storage
    root, shows the failure with the name it looked for, and returns
    nothing. *)
Theorem missing_asset_is_reported (env : Env) (isUpdate : bool) (w : World)
    (release : Release) (assetName : string) :
  fs w !! globalStoragePath env = Some Dir ->
  releases env (length (requests w)) = inr release ->
  fs w !! binaryPathOf env (tag_name release) = None ->
  getAssetName (platform env) (arch env) (tag_name release) = Some assetName ->
  (forall a, a ∈ assets release -> name a <> assetName) ->
  downloadLanguageServer env isUpdate w =
    (Returned None,
     add_ui (ErrorMessage ("Failed to " +:+ (if isUpdate then "update" else "download")
                           +:+ " language server: "
                           +:+ "Could not find a release asset for your platform: "
                           +:+ assetName))
       (add_request releaseUrl w)).
Proof.
  intros Hroot Hrel Hbin Hname Hnone.
  apply (downloadLanguageServer_asset_missing env isUpdate w w release assetName
           (ensureDir_is_dir env _ w Hroot) Hrel Hbin Hname).
  destruct (find _ _) as [a|] eqn:Hfind; [exfalso|reflexivity].
  apply find_some in Hfind as [Hin Heq].
  apply (Hnone a); [now apply list_elem_of_In|now apply String.eqb_eq].
Qed.

Lemma missing_asset_is_reported_witness :
  downloadLanguageServer windows_only_env false empty_storage_world =
    (Returned None,
     add_ui (ErrorMessage "Failed to download language server: Could not find a release asset for your platform: flatbuffers-language-server-v1.3.0-x86_64-unknown-linux-gnu.tar.gz")
       (add_request releaseUrl empty_storage_world)).
Proof.
  apply (missing_asset_is_reported windows_only_env false empty_storage_world
           windows_only_release
           "flatbuffers-language-server-v1.3.0-x86_64-unknown-linux-gnu.tar.gz");
    try reflexivity.
  intros a Ha. apply list_elem_of_singleton in Ha. subst a. discriminate.
Defined.

(** X10.  The recorded version changes only with a completed install: a run
    of the installer that does not return a path leaves the persisted state
    as it was; and a run either leaves it as it was or returns the path of
    the latest release's binary with exactly that release's tag recorded as
    the latest known version. *)
Theorem recorded_version_changes_only_on_install (env : Env) (isUpdate : bool) (w : World) :
  ((forall p, (downloadLanguageServer env isUpdate w).1 <> Returned (Some p)) ->
   globalState (downloadLanguageServer env isUpdate w).2 = globalState w)
  /\ (globalState (downloadLanguageServer env isUpdate w).2 = globalState w
      \/ exists release,
           releases env (length (requests w)) = inr release
           /\ (downloadLanguageServer env isUpdate w).1
              = Returned (Some (binaryPathOf env (tag_name release)))
           /\ globalState (downloadLanguageServer env isUpdate w).2
              = <[LATEST_VERSION_KEY := tag_name release]> (globalState w)).
Proof.
  assert (Hroot : forall w1, ensureDir env (globalStoragePath env) w = (Returned tt, w1) ->
            globalState w1 = globalState w /\ requests w1 = requests w).
  { intros w1 H. split.
    - now rewrite <- (ensureDir_same globalState env (globalStoragePath env) w), H.
    - now rewrite <- (ensureDir_same requests env (globalStoragePath env) w), H. }
  pose proof (downloadLanguageServer_run env isUpdate w) as Hrun.
  destruct Hrun
    as [e He | w1 err Hd Hr | w1 release Hd Hr Hb Hset
        | w1 release Hd Hr Hb Hwin0 Hdenied | w1 release Hd Hr Hb Hn
        | w1 release assetName Hd Hr Hb Hn Hf
        | w1 w2 release assetName asset e Hd Hr Hb Hn Hf Hx
        | w1 w2 w3 release assetName asset p e Hd Hr Hb Hn Hf Hx Hwin Hm
        | w1 w2 w3 release assetName asset p Hd Hr Hb Hn Hf Hx Hm];
    cbn [fst snd]; try destruct (Hroot w1 Hd) as [Hg Hq].
  - split; auto.
  - split; [intros _|left]; exact Hg.
  - assert (E : globalState (after_present env (tag_name release) w1) = globalState w).
    { unfold after_present. destruct (win32 env); exact Hg. }
    split; [intros _|left]; exact E.
  - split; [intros _|left]; exact Hg.
  - split; [intros _|left]; exact Hg.
  - split; [intros _|left]; exact Hg.
  - assert (E : globalState w2 = globalState w).
    { pose proof (keeps_globalState_fetchAndExtract env isUpdate (tag_name release)
                    assetName asset (add_request releaseUrl w1)) as Hk.
      rewrite Hx in Hk. unfold same in Hk. cbn in Hk. congruence. }
    split; [intros _|left]; exact E.
  - assert (E : globalState w3 = globalState w).
    { pose proof (keeps_globalState_fetchAndExtract env isUpdate (tag_name release)
                    assetName asset (add_request releaseUrl w1)) as Hk.
      rewrite Hx in Hk. unfold same in Hk. cbn in Hk.
      pose proof (chmod_same globalState env p 493 w2 ltac:(reflexivity)) as Hc.
      rewrite Hm in Hc. cbn in Hc. congruence. }
    split; [intros _|left]; exact E.
  - assert (E : globalState w3 = globalState w).
    { pose proof (keeps_globalState_fetchAndExtract env isUpdate (tag_name release)
                    assetName asset (add_request releaseUrl w1)) as Hk.
      rewrite Hx in Hk. unfold same in Hk. cbn in Hk.
      pose proof (make_executable_same globalState env p w2 ltac:(reflexivity)) as Hc.
      rewrite Hm in Hc. cbn in Hc. congruence. }
    destruct (fetchAndExtract_Returned env isUpdate _ _ _ _ _ _ Hx) as [-> _].
    split; [intros H; now destruct (H (binaryPathOf env (tag_name release)))|].
    right. exists release. rewrite <- Hq. split; [exact Hr|]. split; [reflexivity|].
    now rewrite globalState_installed, E.
Qed.

Lemma recorded_version_changes_only_on_install_witness :
  globalState (downloadLanguageServer corrupt_archive_env false lost_storage_world).2
    = globalState lost_storage_world.
Proof.
  apply (proj1 (recorded_version_changes_only_on_install corrupt_archive_env false
                  lost_storage_world)).
  intros p. vm_compute. discriminate.
Defined.

Lemma fetchAndExtract_world (env : Env) (isUpdate : bool) (version assetName : string)
    (asset : Asset) (w w2 : World) (o : Outcome string) :
  fetchAndExtract env isUpdate version assetName asset w = (o, w2) ->
  requests w2 = requests w ++ [browser_download_url asset]
  /\ globalState w2 = globalState w
  /\ settings w2 = settings w
  /\ commandsRun w2 = commandsRun w.
Proof.
  intros H.
  pose proof (fetchAndExtract_requests env isUpdate version assetName asset w) as H1.
  pose proof (keeps_globalState_fetchAndExtract env isUpdate version assetName asset w) as H2.
  pose proof (keeps_settings_fetchAndExtract env isUpdate version assetName asset w) as H3.
  pose proof (keeps_commandsRun_fetchAndExtract env isUpdate version assetName asset w) as H4.
  unfold same in *. rewrite H in *. auto.
Qed.

(** X11.  The installer talks to the network at most twice, and only to
    these two places: the release index, and then the download URL of an
    asset of the release it got whose name is the platform's asset name;
    the download is asked for only when the binary of that release is not
    on disk. *)
Theorem installer_requests (env : Env) (isUpdate : bool) (w : World) :
  requests (downloadLanguageServer env isUpdate w).2 = requests w
  \/ requests (downloadLanguageServer env isUpdate w).2 = requests w ++ [releaseUrl]
  \/ exists release assetName asset,
       releases env (length (requests w)) = inr release
       /\ fs w !! binaryPathOf env (tag_name release) = None
       /\ getAssetName (platform env) (arch env) (tag_name release) = Some assetName
       /\ asset ∈ assets release
       /\ name asset = assetName
       /\ requests (downloadLanguageServer env isUpdate w).2
          = requests w ++ [releaseUrl; browser_download_url asset].
Proof.
  assert (Hroot : forall w1, ensureDir env (globalStoragePath env) w = (Returned tt, w1) ->
            requests w1 = requests w
            /\ forall v, fs w1 !! binaryPathOf env v = None ->
                         fs w !! binaryPathOf env v = None).
  { intros w1 H. destruct (ensureDir_Returned env _ w w1 H) as (Hq & _ & _ & Hfs).
    split; [exact Hq|]. intros v Hv. rewrite <- Hfs; [exact Hv|].
    apply binaryPathOf_ne_storage. }
  assert (Hdownload : forall w1 w2 release assetName asset (o : Outcome string),
            ensureDir env (globalStoragePath env) w = (Returned tt, w1) ->
            releases env (length (requests w1)) = inr release ->
            fs w1 !! binaryPathOf env (tag_name release) = None ->
            getAssetName (platform env) (arch env) (tag_name release) = Some assetName ->
            find (fun a => String.eqb (name a) assetName) (assets release) = Some asset ->
            fetchAndExtract env isUpdate (tag_name release) assetName asset
              (add_request releaseUrl w1) = (o, w2) ->
            exists release assetName asset,
              releases env (length (requests w)) = inr release
              /\ fs w !! binaryPathOf env (tag_name release) = None
              /\ getAssetName (platform env) (arch env) (tag_name release) = Some assetName
              /\ asset ∈ assets release
              /\ name asset = assetName
              /\ requests w2 = requests w ++ [releaseUrl; browser_download_url asset]).
  { intros w1 w2 release assetName asset o Hd Hr Hb Hn Hf Hx.
    destruct (Hroot w1 Hd) as [Hq Hfs].
    apply find_some in Hf as [Hin Heq].
    destruct (fetchAndExtract_world env isUpdate _ _ _ _ _ _ Hx) as (Hreq & _).
    exists release, assetName, asset. rewrite <- Hq.
    split; [exact Hr|]. split; [now apply Hfs|]. split; [exact Hn|].
    split; [now apply list_elem_of_In|]. split; [now apply String.eqb_eq|].
    rewrite Hreq. cbn [requests add_request]. now rewrite <- app_assoc. }
  pose proof (downloadLanguageServer_run env isUpdate w) as Hrun.
  destruct Hrun
    as [e He | w1 err Hd Hr | w1 release Hd Hr Hb Hset
        | w1 release Hd Hr Hb Hwin0 Hdenied | w1 release Hd Hr Hb Hn
        | w1 release assetName Hd Hr Hb Hn Hf
        | w1 w2 release assetName asset e Hd Hr Hb Hn Hf Hx
        | w1 w2 w3 release assetName asset p e Hd Hr Hb Hn Hf Hx Hwin Hm
        | w1 w2 w3 release assetName asset p Hd Hr Hb Hn Hf Hx Hm];
    cbn [fst snd]; try destruct (Hroot w1 Hd) as [Hq _].
  - now left.
  - right; left. cbn. now rewrite Hq.
  - right; left. unfold after_present. destruct (win32 env); cbn; now rewrite Hq.
  - right; left. cbn. now rewrite Hq.
  - right; left. cbn. now rewrite Hq.
  - right; left. cbn. now rewrite Hq.
  - right; right. cbn [requests add_ui]. eapply Hdownload; eassumption.
  - right; right. cbn [requests add_ui].
    pose proof (chmod_same requests env p 493 w2 ltac:(reflexivity)) as Hc.
    rewrite Hm in Hc. cbn [snd] in Hc. rewrite Hc. eapply Hdownload; eassumption.
  - right; right. rewrite requests_installed.
    pose proof (make_executable_same requests env p w2 ltac:(reflexivity)) as Hc.
    rewrite Hm in Hc. cbn [snd] in Hc. rewrite Hc. eapply Hdownload; eassumption.
Qed.

Lemma chmod_Returned (env : Env) (p : string) (mode : Z) (w w3 : World) :
  chmod env p mode w = (Returned tt, w3) ->
  is_Some (fs w !! p) /\ fs w3 = set_mode p mode (fs w).
Proof.
  intros H. destruct (fs w !! p) as [node|] eqn:Hp.
  - destruct (chmod_denied env p) eqn:Hdenied.
    + rewrite chmod_refused in H by (try exact Hdenied; rewrite Hp; eauto). discriminate.
    + rewrite chmod_present in H by (try exact Hdenied; rewrite Hp; eauto).
      inversion H; subst. split; [eauto|reflexivity].
  - unfold chmod in H. rewrite Hp in H. discriminate.
Qed.

Lemma set_mode_lookup (p : string) (mode : Z) (m : gmap string Node) (node : Node) :
  m !! p = Some node ->
  exists node', set_mode p mode m !! p = Some node'
                /\ forall c m0, node' = File c m0 -> m0 = mode.
Proof.
  intros H. unfold set_mode. rewrite H. destruct node as [c m0|].
  - exists (File c mode). rewrite lookup_insert_eq. split; [reflexivity|]. congruence.
  - exists Dir. split; [exact H|]. discriminate.
Qed.

(** X12.  When the installer returns a path for a release whose binary was
    not on disk, it has installed that release: the path is the binary's
    path for the release's tag, the tag is recorded as the latest known
    version, the archive it downloaded is no longer in the storage root, and,
    off Windows and for a tag that is a single path segment, the binary is
    there when the installer returns, with mode [0o755] if it is a file. *)
Theorem completed_install (env : Env) (isUpdate : bool) (w : World) (release : Release)
    (p : string) :
  (downloadLanguageServer env isUpdate w).1 = Returned (Some p) ->
  releases env (length (requests w)) = inr release ->
  fs w !! binaryPathOf env (tag_name release) = None ->
  p = binaryPathOf env (tag_name release)
  /\ globalState (downloadLanguageServer env isUpdate w).2 !! LATEST_VERSION_KEY
     = Some (tag_name release)
  /\ (exists assetName,
        getAssetName (platform env) (arch env) (tag_name release) = Some assetName
        /\ fs (downloadLanguageServer env isUpdate w).2
             !! path_join env (globalStoragePath env) assetName = None)
  /\ (win32 env = false -> has_char (sep_char env) (tag_name release) = false ->
      exists node,
        fs (downloadLanguageServer env isUpdate w).2 !! p = Some node
        /\ forall c m, node = File c m -> m = 493%Z).
Proof.
  intros Hp Hrel Habsent.
  pose proof (downloadLanguageServer_run env isUpdate w) as Hrun.
  destruct Hrun
    as [e He | w1 err Hd Hr | w1 release' Hd Hr Hb Hset
        | w1 release' Hd Hr Hb Hwin0 Hdenied | w1 release' Hd Hr Hb Hn
        | w1 release' assetName Hd Hr Hb Hn Hf
        | w1 w2 release' assetName asset e Hd Hr Hb Hn Hf Hx
        | w1 w2 w3 release' assetName asset p' e Hd Hr Hb Hn Hf Hx Hwin Hm
        | w1 w2 w3 release' assetName asset p' Hd Hr Hb Hn Hf Hx Hm];
    cbn [fst snd] in *; try discriminate;
    destruct (ensureDir_Returned env _ w w1 Hd) as (Hq & _ & _ & Hfs);
    rewrite Hq in Hr; rewrite Hrel in Hr; inversion Hr; subst release'; clear Hr.
  - exfalso. rewrite Hfs in Hb by apply binaryPathOf_ne_storage.
    rewrite Habsent in Hb. destruct Hb as [x Hx]. discriminate.
  - inversion Hp; subst p'. clear Hp.
    destruct (fetchAndExtract_Returned env isUpdate _ _ _ _ _ _ Hx) as [-> Hgone].
    split; [reflexivity|]. split.
    { rewrite globalState_installed. apply lookup_insert_eq. }
    assert (Hgone3 : fs w3 !! path_join env (globalStoragePath env) assetName = None).
    { destruct (win32 env); cbn [negb] in Hm.
      - unfold ret in Hm. inversion Hm; subst. exact Hgone.
      - apply chmod_Returned in Hm as [[node Hnode] ->].
        rewrite set_mode_lookup_ne; [exact Hgone|]. congruence. }
    split.
    { exists assetName. split; [exact Hn|].
      destruct (fs (installed env isUpdate (tag_name release) w3) !! _) as [x|] eqn:E;
        [|reflexivity].
      apply fs_installed_shrinks in E. congruence. }
    intros Hwin Hsep. rewrite Hwin in Hm. cbn [negb] in Hm.
    apply chmod_Returned in Hm as [[node Hnode] Hset].
    rewrite fs_installed_current by exact Hsep. rewrite Hset.
    now apply set_mode_lookup with node.
Qed.

Lemma completed_install_witness :
  globalState (downloadLanguageServer (linux_env (fun _ => None)) false
                 empty_storage_world).2 !! LATEST_VERSION_KEY = Some "v1.3.0"
  /\ exists node,
       fs (downloadLanguageServer (linux_env (fun _ => None)) false empty_storage_world).2
         !! v130_binary = Some node
       /\ forall c m, node = File c m -> m = 493%Z.
Proof.
  destruct (completed_install (linux_env (fun _ => None)) false empty_storage_world
              demo_release v130_binary) as (_ & Hrec & _ & Hbin);
    [vm_compute; reflexivity|reflexivity|reflexivity|].
  split; [exact Hrec|]. apply Hbin; reflexivity.
Defined.

(** X13.  The installer reloads the window only when it is asked to: the
    reload command is run at most once, only by an update (never by a first
    download), only after the install has completed, and only when the user
    picked [Reload Now] in the message that announced it. *)
Theorem reload_only_on_request (env : Env) (isUpdate : bool) (w : World) :
  commandsRun (downloadLanguageServer env isUpdate w).2 = commandsRun w
  \/ (isUpdate = true
      /\ exists release,
           (downloadLanguageServer env isUpdate w).1
             = Returned (Some (binaryPathOf env (tag_name release)))
           /\ choice env (updatedMessage (tag_name release)) = Some "Reload Now"
           /\ ui (downloadLanguageServer env isUpdate w).2
                ≠ ui w
           /\ commandsRun (downloadLanguageServer env isUpdate w).2
              = commandsRun w ++ ["workbench.action.reloadWindow"]).
Proof.
  assert (Hroot : forall w1, ensureDir env (globalStoragePath env) w = (Returned tt, w1) ->
            commandsRun w1 = commandsRun w).
  { intros w1 H.
    now rewrite <- (ensureDir_same commandsRun env (globalStoragePath env) w), H. }
  pose proof (shows_any_downloadLanguageServer env isUpdate w) as Hui.
  pose proof (downloadLanguageServer_run env isUpdate w) as Hrun.
  destruct Hrun
    as [e He | w1 err Hd Hr | w1 release Hd Hr Hb Hset
        | w1 release Hd Hr Hb Hwin0 Hdenied | w1 release Hd Hr Hb Hn
        | w1 release assetName Hd Hr Hb Hn Hf
        | w1 w2 release assetName asset e Hd Hr Hb Hn Hf Hx
        | w1 w2 w3 release assetName asset p e Hd Hr Hb Hn Hf Hx Hwin Hm
        | w1 w2 w3 release assetName asset p Hd Hr Hb Hn Hf Hx Hm];
    cbn [fst snd] in *; try specialize (Hroot w1 Hd).
  - now left.
  - now left.
  - left. unfold after_present. now destruct (win32 env).
  - now left.
  - now left.
  - now left.
  - left. destruct (fetchAndExtract_world env isUpdate _ _ _ _ _ _ Hx) as (_ & _ & _ & Hc).
    cbn [commandsRun add_ui]. now rewrite Hc.
  - left. destruct (fetchAndExtract_world env isUpdate _ _ _ _ _ _ Hx) as (_ & _ & _ & Hc).
    pose proof (chmod_same commandsRun env p 493 w2 ltac:(reflexivity)) as Hc'.
    rewrite Hm in Hc'. cbn in Hc, Hc' |- *. congruence.
  - destruct (fetchAndExtract_world env isUpdate _ _ _ _ _ _ Hx) as (_ & _ & _ & Hc).
    pose proof (make_executable_same commandsRun env p w2 ltac:(reflexivity)) as Hc'.
    rewrite Hm in Hc'. cbn [snd] in Hc'.
    assert (E : commandsRun w3 = commandsRun w) by (cbn in Hc; congruence).
    destruct (fetchAndExtract_Returned env isUpdate _ _ _ _ _ _ Hx) as [-> _].
    rewrite commandsRun_installed, E.
    destruct isUpdate; cbn [andb]; [|left; apply app_nil_r].
    case_bool_decide as Hpick; [right|left; apply app_nil_r].
    split; [reflexivity|]. exists release.
    split; [reflexivity|]. split; [exact Hpick|]. split; [|reflexivity].
    intros Heq. destruct Hui as (shown & Hshown & _).
    unfold installed in Heq, Hshown.
    rewrite (keeps_cleanupOldVersions ui) in Heq, Hshown by reflexivity.
    unfold announced in Heq. rewrite bool_decide_eq_true_2 in Heq by exact Hpick.
    cbn [ui add_command add_ui with_globalState] in Heq.
    assert (Hlen : length (ui w) <= length (ui w3)).
    { pose proof (shows_ensureDir (fun _ => True) env (globalStoragePath env) w) as H1.
      rewrite Hd in H1. destruct H1 as (s1 & E1 & _). cbn [snd] in E1.
      assert (H2 : shows (fun _ => True)
                     (fetchAndExtract env true (tag_name release) assetName asset)).
      { unfold fetchAndExtract. cbv zeta. repeat shows_step; exact I. }
      specialize (H2 (add_request releaseUrl w1)). rewrite Hx in H2.
      destruct H2 as (s2 & E2 & _). cbn [snd ui add_request] in E2.
      assert (E3 : ui w3 = ui w2).
      { pose proof (make_executable_same ui env (binaryPathOf env (tag_name release)) w2
                      ltac:(reflexivity)) as H3.
        now rewrite Hm in H3. }
      rewrite E3, E2, E1, !length_app. lia. }
    apply (f_equal (@length UiEvent)) in Heq. rewrite length_app in Heq. cbn in Heq. lia.
Qed.

(** ** Consent: the update check and the two prompts *)

Lemma settings_downloadLanguageServer (env : Env) (isUpdate : bool) (w : World) :
  settings (downloadLanguageServer env isUpdate w).2 = settings w.
Proof.
  assert (Hroot : forall w1, ensureDir env (globalStoragePath env) w = (Returned tt, w1) ->
            settings w1 = settings w).
  { intros w1 H.
    now rewrite <- (ensureDir_same settings env (globalStoragePath env) w), H. }
  pose proof (downloadLanguageServer_run env isUpdate w) as Hrun.
  destruct Hrun
    as [e He | w1 err Hd Hr | w1 release Hd Hr Hb Hset
        | w1 release Hd Hr Hb Hwin0 Hdenied | w1 release Hd Hr Hb Hn
        | w1 release assetName Hd Hr Hb Hn Hf
        | w1 w2 release assetName asset e Hd Hr Hb Hn Hf Hx
        | w1 w2 w3 release assetName asset p e Hd Hr Hb Hn Hf Hx Hwin Hm
        | w1 w2 w3 release assetName asset p Hd Hr Hb Hn Hf Hx Hm];
    cbn [fst snd] in *; try specialize (Hroot w1 Hd).
  - pose proof (ensureDir_same settings env (globalStoragePath env) w ltac:(reflexivity)) as H.
    now rewrite He in H.
  - exact Hroot.
  - unfold after_present. now destruct (win32 env).
  - exact Hroot.
  - exact Hroot.
  - exact Hroot.
  - destruct (fetchAndExtract_world env isUpdate _ _ _ _ _ _ Hx) as (_ & _ & Hc & _).
    cbn in Hc |- *. congruence.
  - destruct (fetchAndExtract_world env isUpdate _ _ _ _ _ _ Hx) as (_ & _ & Hc & _).
    pose proof (chmod_same settings env p 493 w2 ltac:(reflexivity)) as Hc'.
    rewrite Hm in Hc'. cbn in Hc, Hc' |- *. congruence.
  - destruct (fetchAndExtract_world env isUpdate _ _ _ _ _ _ Hx) as (_ & _ & Hc & _).
    pose proof (make_executable_same settings env p w2 ltac:(reflexivity)) as Hc'.
    rewrite Hm in Hc'. cbn [snd] in Hc'. rewrite settings_installed.
    cbn in Hc. congruence.
Qed.

(** X14.  The update check installs nothing without consent.  When the
    latest release is the cached version, or when auto-download is off and
    the user picks neither download option, the check leaves the file
    system, the settings, the commands and the pending tasks as they were
    and makes one request, to the release index; the only thing it may
    persist is the version the user asked to skip. *)
Theorem update_needs_consent (env : Env) (cachedVersion : string)
    (shouldAutoDownload : bool) (w : World) :
  (shouldAutoDownload = false
   /\ choice env updateAvailableMessage <> Some updateOption
   /\ choice env updateAvailableMessage <> Some enableUpdatesOption)
  \/ (forall release, releases env (length (requests w)) = inr release ->
                      tag_name release = cachedVersion) ->
  fs (checkForUpdatesInBackground env cachedVersion shouldAutoDownload w).2 = fs w
  /\ settings (checkForUpdatesInBackground env cachedVersion shouldAutoDownload w).2
     = settings w
  /\ commandsRun (checkForUpdatesInBackground env cachedVersion shouldAutoDownload w).2
     = commandsRun w
  /\ pending (checkForUpdatesInBackground env cachedVersion shouldAutoDownload w).2
     = pending w
  /\ requests (checkForUpdatesInBackground env cachedVersion shouldAutoDownload w).2
     = requests w ++ [releaseUrl]
  /\ (globalState (checkForUpdatesInBackground env cachedVersion shouldAutoDownload w).2
      = globalState w
      \/ exists release,
           releases env (length (requests w)) = inr release
           /\ choice env updateAvailableMessage = Some skipThisVersionOption
           /\ globalState (checkForUpdatesInBackground env cachedVersion
                             shouldAutoDownload w).2
              = <[LATEST_SKIPPED_VERSION_KEY := tag_name release]> (globalState w)).
Proof.
  intros H.
  destruct (releases env (length (requests w))) as [err|release] eqn:Hrel.
  { rewrite (check_index_fails env cachedVersion shouldAutoDownload w err Hrel).
    cbn. auto 10. }
  destruct (String.eqb_spec (tag_name release) cachedVersion) as [Heq|Hne].
  { rewrite (check_up_to_date env cachedVersion w release Hrel shouldAutoDownload Heq).
    cbn. auto 10. }
  destruct H as [(-> & Hu & He)|H]; [|exfalso; apply Hne, H; reflexivity].
  destruct (String.eqb_spec (tag_name release)
              (default "" (globalState w !! LATEST_SKIPPED_VERSION_KEY))) as [Hs|Hs].
  { rewrite (check_skipped env cachedVersion w release Hrel Hne Hs).
    unfold found_new. cbn. auto 10. }
  rewrite (check_prompts env cachedVersion w release Hrel Hne Hs).
  rewrite (bool_decide_eq_false_2 _ He), (bool_decide_eq_false_2 _ Hu).
  case_bool_decide as Hk;
    unfold try_catch, bind, globalState_update, console_log, modify, ret, found_new; cbn.
  - do 5 (split; [reflexivity|]). right. exists release. auto.
  - auto 10.
Qed.

Lemma update_needs_consent_witness :
  fs (checkForUpdatesInBackground skip_env "v1.2.0" false cached_v120_world).2
    = fs cached_v120_world
  /\ requests (checkForUpdatesInBackground (linux_env (fun _ => None)) "v1.3.0" true
                 installed_v130_world).2 = [releaseUrl].
Proof.
  split.
  - apply (update_needs_consent skip_env "v1.2.0" false cached_v120_world).
    left. split; [reflexivity|]. split; vm_compute; discriminate.
  - apply (update_needs_consent (linux_env (fun _ => None)) "v1.3.0" true
             installed_v130_world).
    right. intros release Hrel. vm_compute in Hrel. now inversion Hrel.
Defined.

Lemma enableAutoUpdates_then {A} (env : Env) (k : M A) (w : World) :
  (enableAutoUpdates env ;; k) w =
    match settings_update_error env with
    | Some err => (Thrown err, w)
    | None =>
        k (add_ui (InformationMessage "FlatBuffers auto-update enabled." [])
             (with_settings (insert AUTO_DOWNLOAD_CONFIG (SBool true)) w))
    end.
Proof.
  unfold enableAutoUpdates, config_update, bind, showInformationMessage, ret.
  destruct (settings_update_error env); reflexivity.
Qed.

(** X15.  On a cache miss with auto-download off, picking
    [Download & Auto-Update] switches the setting on before anything is
    downloaded.  When the setting can be written it is on when the function
    returns, whatever becomes of the download.  When it cannot be written
    the function raises that error: no request is made, the file system
    and the settings are as before, and the prompt is all that was shown. *)
Theorem first_download_enables_auto_updates_first (env : Env) (w : World) :
  truthy (setting_string PATH_CONFIG w) = false ->
  which env BINARY_NAME = None ->
  cache_miss env w ->
  setting_bool AUTO_DOWNLOAD_CONFIG false w = false ->
  choice env downloadPromptMessage = Some downloadAndEnableOption ->
  match settings_update_error env with
  | None =>
      settings (getLanguageServerPath env w).2
        = <[AUTO_DOWNLOAD_CONFIG := SBool true]> (settings w)
      /\ setting_bool AUTO_DOWNLOAD_CONFIG false (getLanguageServerPath env w).2 = true
  | Some err =>
      (getLanguageServerPath env w).1 = Thrown err
      /\ requests (getLanguageServerPath env w).2 = requests w
      /\ fs (getLanguageServerPath env w).2 = fs w
      /\ settings (getLanguageServerPath env w).2 = settings w
      /\ ui (getLanguageServerPath env w).2 = ui w ++ [downloadPrompt]
  end.
Proof.
  intros Hconf Hwhich Hmiss Hauto Hpick.
  rewrite (getLanguageServerPath_miss env w Hconf Hwhich Hmiss), Hauto.
  rewrite (bool_decide_eq_true_2 _ Hpick), enableAutoUpdates_then.
  destruct (settings_update_error env) as [err|]; cbn [fst snd].
  - cbn. auto.
  - unfold setting_bool. rewrite settings_downloadLanguageServer.
    cbn [settings add_ui with_settings]. rewrite lookup_insert_eq. auto.
Qed.

Lemma first_download_enables_auto_updates_first_witness :
  setting_bool AUTO_DOWNLOAD_CONFIG false
    (getLanguageServerPath (linux_env (fun _ => Some downloadAndEnableOption))
       (world_of ∅ ∅ ∅)).2 = true
  /\ (getLanguageServerPath
        (locked_settings (linux_env (fun _ => Some downloadAndEnableOption)))
        (world_of ∅ ∅ ∅)).1 = Thrown "Unable to write to User Settings".
Proof.
  split.
  - apply (first_download_enables_auto_updates_first
             (linux_env (fun _ => Some downloadAndEnableOption)) (world_of ∅ ∅ ∅));
      try reflexivity.
    apply cache_miss_no_record. reflexivity.
  - apply (first_download_enables_auto_updates_first
             (locked_settings (linux_env (fun _ => Some downloadAndEnableOption)))
             (world_of ∅ ∅ ∅)); try reflexivity.
    apply cache_miss_no_record. reflexivity.
Defined.

(** X16.  In the update check, picking [Download & Auto-Update] at the
    prompt switches the setting on before the installer runs.  When the
    setting can be written it is on when the check ends, whatever becomes of
    the install.  When it cannot be written the installer is not run: the
    check returns normally, the error goes to the console and not to the
    user, the release index was the only request, and the file system, the
    settings and the recorded versions are as before. *)
Theorem update_enables_auto_updates_first (env : Env) (cachedVersion : string) (w : World)
    (release : Release) :
  releases env (length (requests w)) = inr release ->
  tag_name release <> cachedVersion ->
  tag_name release <> default "" (globalState w !! LATEST_SKIPPED_VERSION_KEY) ->
  choice env updateAvailableMessage = Some enableUpdatesOption ->
  match settings_update_error env with
  | None =>
      settings (checkForUpdatesInBackground env cachedVersion false w).2
        = <[AUTO_DOWNLOAD_CONFIG := SBool true]> (settings w)
  | Some err =>
      checkForUpdatesInBackground env cachedVersion false w
        = (Returned tt,
           add_console (checkFailed err)
             (add_ui updatePrompt (found_new cachedVersion (tag_name release) w)))
      /\ ui (checkForUpdatesInBackground env cachedVersion false w).2
         = ui w ++ [updatePrompt]
      /\ requests (checkForUpdatesInBackground env cachedVersion false w).2
         = requests w ++ [releaseUrl]
      /\ fs (checkForUpdatesInBackground env cachedVersion false w).2 = fs w
      /\ settings (checkForUpdatesInBackground env cachedVersion false w).2 = settings w
      /\ globalState (checkForUpdatesInBackground env cachedVersion false w).2
         = globalState w
  end.
Proof.
  intros Hrel Hne Hs Hpick.
  rewrite (check_prompts env cachedVersion w release Hrel Hne Hs).
  rewrite (bool_decide_eq_true_2 _ Hpick).
  unfold try_catch. rewrite enableAutoUpdates_then.
  destruct (settings_update_error env) as [err|]; cbn [fst snd].
  - unfold found_new. cbn. auto 10.
  - unfold bind at 1, ret.
    pose proof (settings_downloadLanguageServer env true
                  (add_ui (InformationMessage "FlatBuffers auto-update enabled." [])
                     (with_settings (insert AUTO_DOWNLOAD_CONFIG (SBool true))
                        (add_ui updatePrompt
                           (found_new cachedVersion (tag_name release) w))))) as E.
    destruct (downloadLanguageServer env true _) as [[a|e] w']; cbn in E |- *; exact E.
Qed.

Lemma update_enables_auto_updates_first_witness :
  settings (checkForUpdatesInBackground (linux_env (fun _ => Some enableUpdatesOption))
              "v1.2.0" false cached_v120_world).2
    = <[AUTO_DOWNLOAD_CONFIG := SBool true]> ∅
  /\ fs (checkForUpdatesInBackground
           (locked_settings (linux_env (fun _ => Some enableUpdatesOption)))
           "v1.2.0" false cached_v120_world).2 = files_v120.
Proof.
  split.
  - apply (update_enables_auto_updates_first (linux_env (fun _ => Some enableUpdatesOption))
             "v1.2.0" cached_v120_world demo_release); [reflexivity|discriminate..|reflexivity].
  - apply (update_enables_auto_updates_first
             (locked_settings (linux_env (fun _ => Some enableUpdatesOption)))
             "v1.2.0" cached_v120_world demo_release);
      [reflexivity|discriminate..|reflexivity].
Defined.

(** ** Where the server binary comes from *)

Lemma downloadLanguageServer_Returned_Some (env : Env) (isUpdate : bool) (w : World)
    (p : string) :
  (downloadLanguageServer env isUpdate w).1 = Returned (Some p) ->
  exists release,
    releases env (length (requests w)) = inr release
    /\ p = binaryPathOf env (tag_name release).
Proof.
  intros Hp.
  pose proof (downloadLanguageServer_run env isUpdate w) as Hrun.
  destruct Hrun
    as [e He | w1 err Hd Hr | w1 release Hd Hr Hb Hset
        | w1 release Hd Hr Hb Hwin0 Hdenied | w1 release Hd Hr Hb Hn
        | w1 release assetName Hd Hr Hb Hn Hf
        | w1 w2 release assetName asset e Hd Hr Hb Hn Hf Hx
        | w1 w2 w3 release assetName asset p' e Hd Hr Hb Hn Hf Hx Hwin Hm
        | w1 w2 w3 release assetName asset p' Hd Hr Hb Hn Hf Hx Hm];
    cbn [fst snd] in Hp; try discriminate;
    destruct (ensureDir_Returned env _ w w1 Hd) as (Hq & _);
    rewrite Hq in Hr; exists release; (split; [exact Hr|]).
  - congruence.
  - destruct (fetchAndExtract_Returned env isUpdate _ _ _ _ _ _ Hx) as [-> _]. congruence.
Qed.

Lemma cached_or_miss (env : Env) (w : World) :
  (exists v, globalState w !! LATEST_VERSION_KEY = Some v /\ v <> ""
             /\ is_Some (fs w !! binaryPathOf env v))
  \/ cache_miss env w.
Proof.
  destruct (globalState w !! LATEST_VERSION_KEY) as [v|] eqn:Hv;
    [|right; now apply cache_miss_no_record].
  destruct (decide (v = "")) as [->|Hne].
  { right. intros v' Hv'. rewrite Hv in Hv'. congruence. }
  destruct (fs w !! binaryPathOf env v) as [node|] eqn:Hbin.
  - left. exists v. rewrite Hbin. eauto.
  - right. intros v' Hv' _. rewrite Hv in Hv'. congruence.
Qed.

(** X17.  Every path the orchestrator returns has one of four origins: it
    is the configured path; or nothing is configured and it is the binary on
    the search path; or neither is there and it is the binary of the recorded
    version, which is on disk; or none of these is there, the download was
    agreed to by the setting or at the prompt, and it is the binary of the
    release the index named. *)
Theorem server_path_provenance (env : Env) (w : World) (p : string) :
  (getLanguageServerPath env w).1 = Returned (Some p) ->
  setting_string PATH_CONFIG w = Some p
  \/ (truthy (setting_string PATH_CONFIG w) = false
      /\ (which env BINARY_NAME = Some p
          \/ (which env BINARY_NAME = None
              /\ ((exists v, globalState w !! LATEST_VERSION_KEY = Some v
                             /\ p = binaryPathOf env v
                             /\ is_Some (fs w !! p))
                  \/ (cache_miss env w
                      /\ (setting_bool AUTO_DOWNLOAD_CONFIG false w = true
                          \/ choice env downloadPromptMessage = Some downloadAndEnableOption
                          \/ choice env downloadPromptMessage = Some downloadOnceOption)
                      /\ exists release,
                           releases env (length (requests w)) = inr release
                           /\ p = binaryPathOf env (tag_name release)))))).
Proof.
  intros H. destruct (truthy (setting_string PATH_CONFIG w)) eqn:Hc.
  { rewrite getLanguageServerPath_configured in H by exact Hc. left. cbn in H. congruence. }
  right. split; [reflexivity|].
  destruct (which env BINARY_NAME) as [q|] eqn:Hq.
  { rewrite (getLanguageServerPath_which env w q Hc Hq) in H. left. cbn in H. congruence. }
  right. split; [reflexivity|].
  destruct (cached_or_miss env w) as [(v & Hv & Hne & Hbin)|Hmiss].
  { rewrite (getLanguageServerPath_cached env w v Hc Hq Hv Hne Hbin) in H.
    cbn in H. left. exists v. split; [exact Hv|]. split; congruence. }
  right. split; [exact Hmiss|].
  rewrite (getLanguageServerPath_miss env w Hc Hq Hmiss) in H.
  destruct (setting_bool AUTO_DOWNLOAD_CONFIG false w).
  { split; [now left|]. now apply downloadLanguageServer_Returned_Some in H. }
  case_bool_decide as Hboth.
  { split; [now right; left|]. rewrite enableAutoUpdates_then in H.
    destruct (settings_update_error env); [discriminate|].
    now apply downloadLanguageServer_Returned_Some in H. }
  case_bool_decide as Honce; [|discriminate].
  split; [now right; right|]. now apply downloadLanguageServer_Returned_Some in H.
Qed.

Lemma server_path_provenance_witness :
  setting_string PATH_CONFIG auto_world = Some v130_binary
  \/ (truthy (setting_string PATH_CONFIG auto_world) = false
      /\ (which (linux_env (fun _ => None)) BINARY_NAME = Some v130_binary
          \/ (which (linux_env (fun _ => None)) BINARY_NAME = None
              /\ ((exists v, globalState auto_world !! LATEST_VERSION_KEY = Some v
                             /\ v130_binary = binaryPathOf (linux_env (fun _ => None)) v
                             /\ is_Some (fs auto_world !! v130_binary))
                  \/ (cache_miss (linux_env (fun _ => None)) auto_world
                      /\ (setting_bool AUTO_DOWNLOAD_CONFIG false auto_world = true
                          \/ choice (linux_env (fun _ => None)) downloadPromptMessage
                             = Some downloadAndEnableOption
                          \/ choice (linux_env (fun _ => None)) downloadPromptMessage
                             = Some downloadOnceOption)
                      /\ exists release,
                           releases (linux_env (fun _ => None))
                             (length (requests auto_world)) = inr release
                           /\ v130_binary
                              = binaryPathOf (linux_env (fun _ => None))
                                  (tag_name release)))))).
Proof.
  apply (server_path_provenance (linux_env (fun _ => None)) auto_world v130_binary).
  vm_compute. reflexivity.
Defined.

(** X18.  The orchestrator downloads nothing without consent.  When a path
    is configured, or a binary is on the search path, or auto-download is
    off and the user picks neither download option, it leaves the file
    system, the settings, the recorded versions and the commands as they
    were, and it makes no request, with one exception: when it returns the
    binary of the recorded version, it has asked the release index once,
    for the update check it starts. *)
Theorem first_download_needs_consent (env : Env) (w : World) :
  truthy (setting_string PATH_CONFIG w) = true
  \/ is_Some (which env BINARY_NAME)
  \/ (setting_bool AUTO_DOWNLOAD_CONFIG false w = false
      /\ choice env downloadPromptMessage <> Some downloadAndEnableOption
      /\ choice env downloadPromptMessage <> Some downloadOnceOption) ->
  fs (getLanguageServerPath env w).2 = fs w
  /\ settings (getLanguageServerPath env w).2 = settings w
  /\ globalState (getLanguageServerPath env w).2 = globalState w
  /\ commandsRun (getLanguageServerPath env w).2 = commandsRun w
  /\ (requests (getLanguageServerPath env w).2 = requests w
      \/ (truthy (setting_string PATH_CONFIG w) = false
          /\ which env BINARY_NAME = None
          /\ (exists v, globalState w !! LATEST_VERSION_KEY = Some v /\ v <> ""
                        /\ is_Some (fs w !! binaryPathOf env v)
                        /\ (getLanguageServerPath env w).1
                           = Returned (Some (binaryPathOf env v)))
          /\ requests (getLanguageServerPath env w).2 = requests w ++ [releaseUrl])).
Proof.
  intros H. destruct (truthy (setting_string PATH_CONFIG w)) eqn:Hc.
  { rewrite getLanguageServerPath_configured by exact Hc. cbn. auto 10. }
  destruct (which env BINARY_NAME) as [q|] eqn:Hq.
  { rewrite (getLanguageServerPath_which env w q Hc Hq). cbn. auto 10. }
  destruct H as [H|[[q H]|(Hauto & Hboth & Honce)]]; [discriminate..|].
  destruct (cached_or_miss env w) as [(v & Hv & Hne & Hbin)|Hmiss].
  { rewrite (getLanguageServerPath_cached env w v Hc Hq Hv Hne Hbin). cbn [fst snd].
    do 4 (split; [reflexivity|]). right.
    split; [reflexivity|]. split; [reflexivity|]. split; [|reflexivity].
    exists v. auto. }
  rewrite (getLanguageServerPath_miss env w Hc Hq Hmiss), Hauto.
  rewrite (bool_decide_eq_false_2 _ Hboth), (bool_decide_eq_false_2 _ Honce).
  cbn. auto 10.
Qed.

Lemma first_download_needs_consent_witness :
  fs (getLanguageServerPath (linux_env (fun _ => None)) cached_v120_world).2 = files_v120
  /\ fs (getLanguageServerPath on_path_env auto_world).2 = ∅.
Proof.
  split.
  - apply (first_download_needs_consent (linux_env (fun _ => None)) cached_v120_world).
    right; right. split; [reflexivity|]. split; discriminate.
  - apply (first_download_needs_consent on_path_env auto_world).
    right; left. vm_compute. eauto.
Defined.

(** ** Activation and deactivation *)

Lemma activate_run (env : Env) (w : World) :
  activate env (fresh w) =
    match getLanguageServerPath env w with
    | (Thrown e, w1) => (Thrown e, fresh w1)
    | (Returned path, w1) =>
        if truthy path then (Returned tt, activated w1 (default "" path))
        else if bool_decide (choice env couldNotFindMessage = Some "Configure") then
          (Returned tt,
           unserved (add_command "workbench.action.openSettings"
                       (add_ui (ErrorMessage couldNotFindMessage) w1))
                    [("workbench.action.openSettings", [CONFIG_NAME])])
        else (Returned tt, unserved (add_ui (ErrorMessage couldNotFindMessage) w1) [])
    end.
Proof.
  unfold activate. unfold sbind at 1. unfold lift at 1. cbn [world fresh].
  destruct (getLanguageServerPath env w) as [[path|e] w1]; cbn [fst snd]; [|reflexivity].
  destruct (truthy path).
  - reflexivity.
  - cbn [negb]. unfold sbind, registerSettingsWatcher, sbind, lift, showErrorMessageItems.
    cbn. case_bool_decide; reflexivity.
Qed.

(** X19.  An activation in a fresh session ends in one of three ways.  The
    orchestrator raised: [activate] raises the same error and has registered
    and shown nothing.  The orchestrator returned a path: one client is
    constructed for that path, with no arguments, and started; the watcher
    for all files and the settings watcher are registered; [activate] itself
    shows nothing.  The orchestrator returned no path: no client and no file
    watcher exist, the settings watcher is registered, the error message is
    the last thing shown, and the settings are opened, filtered by
    [flatbuffers], exactly when the user picks [Configure]. *)
Theorem activation_outcomes (env : Env) (w : World) :
  (exists e,
     (getLanguageServerPath env w).1 = Thrown e
     /\ activate env (fresh w) = (Thrown e, fresh (getLanguageServerPath env w).2))
  \/ (exists p,
        (getLanguageServerPath env w).1 = Returned (Some p) /\ p <> ""
        /\ activate env (fresh w)
           = (Returned tt, activated (getLanguageServerPath env w).2 p))
  \/ (((getLanguageServerPath env w).1 = Returned None
       \/ (getLanguageServerPath env w).1 = Returned (Some ""))
      /\ exists shown opened,
           activate env (fresh w) = (Returned tt, unserved shown opened)
           /\ ui shown = ui (getLanguageServerPath env w).2 ++ [ErrorMessage couldNotFindMessage]
           /\ fs shown = fs (getLanguageServerPath env w).2
           /\ settings shown = settings (getLanguageServerPath env w).2
           /\ globalState shown = globalState (getLanguageServerPath env w).2
           /\ requests shown = requests (getLanguageServerPath env w).2
           /\ pending shown = pending (getLanguageServerPath env w).2
           /\ ((choice env couldNotFindMessage = Some "Configure"
                /\ commandsRun shown
                   = commandsRun (getLanguageServerPath env w).2
                     ++ ["workbench.action.openSettings"]
                /\ opened = [("workbench.action.openSettings", ["flatbuffers"])])
               \/ (choice env couldNotFindMessage <> Some "Configure"
                   /\ commandsRun shown = commandsRun (getLanguageServerPath env w).2
                   /\ opened = []))).
Proof.
  rewrite activate_run.
  destruct (getLanguageServerPath env w) as [[[p|]|e] w1]; cbn [fst snd].
  - destruct (String.eqb_spec p "") as [->|Hne].
    + right; right. split; [now right|]. cbn [truthy String.eqb negb].
      case_bool_decide as Hpick; eexists _, _; (split; [reflexivity|]); cbn; auto 15.
    + right; left. exists p. unfold truthy.
      rewrite (proj2 (String.eqb_neq p "") Hne). auto.
  - right; right. split; [now left|]. cbn [truthy].
    case_bool_decide as Hpick; eexists _, _; (split; [reflexivity|]); cbn; auto 15.
  - left. eauto.
Qed.

Lemma deactivate_activated (w : World) (p : string) :
  deactivate (activated w p) =
    (Returned (Some tt),
     {| world := w; clients := [serverClient p [Start; Stop]];
        fileWatchers := [workspaceWatcher true];
        configListeners := [{| listenerDisposed := true |}];
        client := Some 0; fileSystemWatcher := Some 0; settingsWatcher := Some 0;
        subscriptions := [0]; commandArguments := [] |}).
Proof. reflexivity. Qed.

Lemma deactivate_unserved (w : World) (opened : list (string * list string)) :
  deactivate (unserved w opened) =
    (Returned None,
     {| world := w; clients := []; fileWatchers := [];
        configListeners := [{| listenerDisposed := true |}];
        client := None; fileSystemWatcher := None; settingsWatcher := Some 0;
        subscriptions := [0]; commandArguments := opened |}).
Proof. reflexivity. Qed.

(** X20.  [deactivate] releases what [activate] made.  After an activation
    in a fresh session, however it ended, [deactivate] returns the promise of
    [client.stop()] when a client exists and [undefined] when none does; it
    leaves the world alone; afterwards every client was started and then
    stopped, every watcher and every settings registration is disposed, no
    object was made or lost, and no file event or configuration change
    reaches a handler any more. *)
Theorem deactivate_releases_what_activate_made (env : Env) (w : World) :
  (deactivate (activate env (fresh w)).2).1
    = Returned (match clients (activate env (fresh w)).2 with
                | [] => None
                | _ => Some tt
                end)
  /\ world (deactivate (activate env (fresh w)).2).2 = world (activate env (fresh w)).2
  /\ Forall (fun c => calls c = [Start; Stop])
            (clients (deactivate (activate env (fresh w)).2).2)
  /\ Forall (fun wt => watcherDisposed wt = true)
            (fileWatchers (deactivate (activate env (fresh w)).2).2)
  /\ Forall (fun l => listenerDisposed l = true)
            (configListeners (deactivate (activate env (fresh w)).2).2)
  /\ length (clients (deactivate (activate env (fresh w)).2).2)
     = length (clients (activate env (fresh w)).2)
  /\ length (fileWatchers (deactivate (activate env (fresh w)).2).2)
     = length (fileWatchers (activate env (fresh w)).2)
  /\ length (configListeners (deactivate (activate env (fresh w)).2).2)
     = length (configListeners (activate env (fresh w)).2)
  /\ (forall kind u,
        fire_file_event env kind u (deactivate (activate env (fresh w)).2).2
          = (Returned tt, (deactivate (activate env (fresh w)).2).2))
  /\ (forall affects,
        fire_configuration_change env affects (deactivate (activate env (fresh w)).2).2
          = (Returned tt, (deactivate (activate env (fresh w)).2).2)).
Proof.
  rewrite activate_run.
  destruct (getLanguageServerPath env w) as [[path|e] w1].
  - destruct (truthy path); [|case_bool_decide]; cbn [snd];
      rewrite ?deactivate_activated, ?deactivate_unserved; cbn [fst snd];
      (split; [reflexivity|]); (split; [reflexivity|]);
      (split; [repeat constructor|]); (split; [repeat constructor|]);
      (split; [repeat constructor|]); do 3 (split; [reflexivity|]);
      (split; [intros [] u; reflexivity|intros affects; reflexivity]).
  - cbn [snd]. repeat split; constructor.
Qed.

(** X21.  After an activation in a fresh session, a file event of the
    editor runs [onFileEvent] once, with the kind of the event, when the
    activation started a client, and is dropped when it did not. *)
Theorem file_events_reach_the_handler (env : Env) (w : World) (kind : FileChangeType)
    (u : Uri) :
  fire_file_event env kind u (activate env (fresh w)).2
  = match clients (activate env (fresh w)).2 with
    | [] => (Returned tt, (activate env (fresh w)).2)
    | _ => ((onFileEvent env u kind (world (activate env (fresh w)).2)).1,
            with_world (onFileEvent env u kind (world (activate env (fresh w)).2)).2
              (activate env (fresh w)).2)
    end.
Proof.
  rewrite activate_run.
  destruct (getLanguageServerPath env w) as [[path|e] w1]; [|reflexivity].
  destruct (truthy path); [|case_bool_decide; reflexivity].
  cbn [snd fst clients activated world].
  unfold fire_file_event.
  assert (E : flat_map (listenersFor kind) (fileWatchers (activated w1 (default "" path)))
              = [kind]) by now destruct kind.
  rewrite E. cbn [map run_handlers]. unfold sbind, lift, sret. cbn [world activated].
  now destruct (onFileEvent env u kind w1) as [[[]|err] w2].
Qed.

(** X22.  After an activation that did not raise, a configuration change
    shows the reload prompt exactly when it affects
    [flatbuffers.languageServer.path] or
    [flatbuffers.languageServer.autoDownload], and reloads the window only
    when, on top of that, the user picks [Reload Window]; it makes no
    request and leaves the file system, the settings and the recorded
    versions alone. *)
Theorem configuration_change_asks_before_reloading (env : Env) (w : World)
    (affects : string -> bool) :
  (activate env (fresh w)).1 = Returned tt ->
  exists after,
    fire_configuration_change env affects (activate env (fresh w)).2
      = (Returned tt, with_world after (activate env (fresh w)).2)
    /\ fs after = fs (world (activate env (fresh w)).2)
    /\ settings after = settings (world (activate env (fresh w)).2)
    /\ globalState after = globalState (world (activate env (fresh w)).2)
    /\ requests after = requests (world (activate env (fresh w)).2)
    /\ ui after
       = ui (world (activate env (fresh w)).2)
         ++ (if affects "flatbuffers.languageServer.path"
                || affects "flatbuffers.languageServer.autoDownload"
             then [InformationMessage configurationChangedMessage ["Reload Window"]]
             else [])
    /\ commandsRun after
       = commandsRun (world (activate env (fresh w)).2)
         ++ (if (affects "flatbuffers.languageServer.path"
                 || affects "flatbuffers.languageServer.autoDownload")
                && bool_decide (choice env configurationChangedMessage = Some "Reload Window")
             then ["workbench.action.reloadWindow"]
             else []).
Proof.
  rewrite activate_run.
  destruct (getLanguageServerPath env w) as [[path|e] w1]; [|discriminate].
  intros _.
  assert (Hrun : forall s : Session,
            configListeners s = [{| listenerDisposed := false |}] ->
            exists after,
              fire_configuration_change env affects s = (Returned tt, with_world after s)
              /\ fs after = fs (world s)
              /\ settings after = settings (world s)
              /\ globalState after = globalState (world s)
              /\ requests after = requests (world s)
              /\ ui after
                 = ui (world s)
                   ++ (if affects "flatbuffers.languageServer.path"
                          || affects "flatbuffers.languageServer.autoDownload"
                       then [InformationMessage configurationChangedMessage ["Reload Window"]]
                       else [])
              /\ commandsRun after
                 = commandsRun (world s)
                   ++ (if (affects "flatbuffers.languageServer.path"
                           || affects "flatbuffers.languageServer.autoDownload")
                          && bool_decide (choice env configurationChangedMessage
                                          = Some "Reload Window")
                       then ["workbench.action.reloadWindow"]
                       else [])).
  { intros s Hs. unfold fire_configuration_change. rewrite Hs.
    cbn [filter map run_handlers]. unfold sbind, lift, sret, onConfigurationChanged.
    change (CONFIG_NAME +:+ "." +:+ PATH_CONFIG) with "flatbuffers.languageServer.path".
    change (CONFIG_NAME +:+ "." +:+ AUTO_DOWNLOAD_CONFIG)
      with "flatbuffers.languageServer.autoDownload".
    destruct (affects "flatbuffers.languageServer.path"
              || affects "flatbuffers.languageServer.autoDownload"); cbn [andb].
    - unfold bind, showInformationMessage, executeCommand, modify, ret.
      case_bool_decide; cbn [fst snd]; eexists; (split; [reflexivity|]); cbn;
        rewrite ?app_nil_r; auto 10.
    - unfold ret. cbn [fst snd]. exists (world s). rewrite !app_nil_r. auto 10. }
  destruct (truthy path);
    [|destruct (bool_decide (choice env couldNotFindMessage = Some "Configure"))];
    cbn [snd]; apply Hrun; reflexivity.
Qed.

Lemma configuration_change_asks_before_reloading_witness :
  exists after,
    fire_configuration_change (linux_env (fun _ => Some "Reload Window"))
      (String.eqb "flatbuffers.languageServer.autoDownload")
      (activate (linux_env (fun _ => Some "Reload Window")) (fresh configured_world)).2
    = (Returned tt,
       with_world after
         (activate (linux_env (fun _ => Some "Reload Window")) (fresh configured_world)).2)
    /\ commandsRun after = ["workbench.action.reloadWindow"].
Proof.
  destruct (configuration_change_asks_before_reloading
              (linux_env (fun _ => Some "Reload Window")) configured_world
              (String.eqb "flatbuffers.languageServer.autoDownload"))
    as (after & Hrun & _ & _ & _ & _ & _ & Hcommands); [reflexivity|].
  exists after. split; [exact Hrun|exact Hcommands].
Defined.

Lemma shows_any_fetchAndExtract env isUpdate version assetName asset :
  shows (fun _ => True) (fetchAndExtract env isUpdate version assetName asset).
Proof. unfold fetchAndExtract. cbv zeta. repeat shows_step; exact I. Qed.

(** An install that returns no path has ended on an error message of the
    installer. *)
Lemma downloadLanguageServer_Returned_None (env : Env) (isUpdate : bool) (w : World) :
  (downloadLanguageServer env isUpdate w).1 = Returned None ->
  exists shown m,
    ui (downloadLanguageServer env isUpdate w).2 = ui w ++ shown ++ [ErrorMessage m]
    /\ (m = unsupportedMessage env \/ exists msg, m = failureMessage isUpdate msg).
Proof.
  intros Hnone.
  assert (Hroot : forall w1, ensureDir env (globalStoragePath env) w = (Returned tt, w1) ->
            ui w1 = ui w).
  { intros w1 H. now rewrite <- (ensureDir_same ui env (globalStoragePath env) w), H. }
  assert (Hfetch : forall w1 w2 version assetName asset (o : Outcome string),
            fetchAndExtract env isUpdate version assetName asset
              (add_request releaseUrl w1) = (o, w2) ->
            exists shown, ui w2 = ui w1 ++ shown).
  { intros w1 w2 version assetName asset o Hx.
    destruct (shows_any_fetchAndExtract env isUpdate version assetName asset
                (add_request releaseUrl w1)) as (shown & Hs & _).
    rewrite Hx in Hs. exists shown. exact Hs. }
  pose proof (downloadLanguageServer_run env isUpdate w) as Hrun.
  destruct Hrun
    as [e He | w1 err Hd Hr | w1 release Hd Hr Hb Hset
        | w1 release Hd Hr Hb Hwin0 Hdenied | w1 release Hd Hr Hb Hn
        | w1 release assetName Hd Hr Hb Hn Hf
        | w1 w2 release assetName asset e Hd Hr Hb Hn Hf Hx
        | w1 w2 w3 release assetName asset p e Hd Hr Hb Hn Hf Hx Hwin Hm
        | w1 w2 w3 release assetName asset p Hd Hr Hb Hn Hf Hx Hm];
    cbn [fst snd] in *; try discriminate; specialize (Hroot w1 Hd);
    cbn [ui add_ui add_request].
  - exists [], (failureMessage isUpdate err). rewrite Hroot. eauto.
  - exists [], (failureMessage isUpdate (refused (binaryPathOf env (tag_name release)))).
    unfold refused_present. cbn [ui add_ui add_console add_request].
    rewrite Hroot. eauto.
  - exists [], (unsupportedMessage env). rewrite Hroot. eauto.
  - exists [], (failureMessage isUpdate (missingAssetMessage assetName)).
    rewrite Hroot. eauto.
  - destruct (Hfetch _ _ _ _ _ _ Hx) as (shown & Hs).
    exists shown, (failureMessage isUpdate e). rewrite Hs, Hroot, <- app_assoc. eauto.
  - destruct (Hfetch _ _ _ _ _ _ Hx) as (shown & Hs).
    pose proof (chmod_same ui env p 493 w2 ltac:(reflexivity)) as Hc.
    rewrite Hm in Hc. cbn [snd] in Hc.
    exists shown, (failureMessage isUpdate e). rewrite Hc, Hs, Hroot, <- app_assoc. eauto.
Qed.

(** X23.  A first download that fails is reported twice.  When nothing is
    configured, found or cached, the download was agreed to, and the
    orchestrator returns no path, then the activation ends with two error
    messages in a row, the installer's own and then the general one, and
    with no client. *)
Theorem failed_first_download_is_reported_twice (env : Env) (w : World) :
  truthy (setting_string PATH_CONFIG w) = false ->
  which env BINARY_NAME = None ->
  cache_miss env w ->
  setting_bool AUTO_DOWNLOAD_CONFIG false w = true
  \/ choice env downloadPromptMessage = Some downloadAndEnableOption
  \/ choice env downloadPromptMessage = Some downloadOnceOption ->
  (getLanguageServerPath env w).1 = Returned None ->
  (activate env (fresh w)).1 = Returned tt
  /\ clients (activate env (fresh w)).2 = []
  /\ exists shown m,
       ui (world (activate env (fresh w)).2)
         = ui w ++ shown ++ [ErrorMessage m; ErrorMessage couldNotFindMessage]
       /\ (m = unsupportedMessage env \/ exists msg, m = failureMessage false msg).
Proof.
  intros Hconf Hwhich Hmiss Hconsent Hnone.
  assert (Hui : exists shown m,
            ui (getLanguageServerPath env w).2 = ui w ++ shown ++ [ErrorMessage m]
            /\ (m = unsupportedMessage env \/ exists msg, m = failureMessage false msg)).
  { revert Hnone. rewrite (getLanguageServerPath_miss env w Hconf Hwhich Hmiss).
    destruct (setting_bool AUTO_DOWNLOAD_CONFIG false w).
    { intros Hnone. apply downloadLanguageServer_Returned_None in Hnone.
      exact Hnone. }
    destruct Hconsent as [Hauto|Hpick]; [discriminate|].
    case_bool_decide as Hboth.
    { rewrite enableAutoUpdates_then.
      destruct (settings_update_error env); [discriminate|].
      intros Hnone. apply downloadLanguageServer_Returned_None in Hnone.
      destruct Hnone as (shown & m & Hs & Hm).
      exists ([downloadPrompt; InformationMessage "FlatBuffers auto-update enabled." []]
                ++ shown), m.
      split; [|exact Hm]. rewrite Hs. cbn [ui add_ui with_settings].
      now rewrite <- !app_assoc. }
    destruct Hpick as [Hpick|Hpick]; [contradiction|].
    rewrite (bool_decide_eq_true_2 _ Hpick).
    intros Hnone. apply downloadLanguageServer_Returned_None in Hnone.
    destruct Hnone as (shown & m & Hs & Hm).
    exists ([downloadPrompt] ++ shown), m.
    split; [|exact Hm]. rewrite Hs. cbn [ui add_ui]. now rewrite <- !app_assoc. }
  destruct Hui as (shown & m & Hs & Hm).
  rewrite activate_run.
  destruct (getLanguageServerPath env w) as [[path|e] w1]; cbn [fst snd] in *;
    [|discriminate].
  injection Hnone as ->. cbn [truthy].
  assert (E : (ui w1 ++ [ErrorMessage couldNotFindMessage])
              = ui w ++ shown ++ [ErrorMessage m; ErrorMessage couldNotFindMessage]).
  { rewrite Hs, <- !app_assoc. reflexivity. }
  case_bool_decide; cbn [fst snd clients unserved world ui add_command add_ui];
    (split; [reflexivity|]); (split; [reflexivity|]); exists shown, m; auto.
Qed.

Lemma failed_first_download_is_reported_twice_witness :
  exists shown m,
    ui (world (activate offline_env (fresh auto_world)).2)
      = ui auto_world ++ shown ++ [ErrorMessage m; ErrorMessage couldNotFindMessage]
    /\ (m = unsupportedMessage offline_env \/ exists msg, m = failureMessage false msg).
Proof.
  apply (failed_first_download_is_reported_twice offline_env auto_world).
  - reflexivity.
  - reflexivity.
  - apply cache_miss_no_record. reflexivity.
  - left. reflexivity.
  - vm_compute. reflexivity.
Defined.

(** ** The installer's failures and its messages *)

Lemma shows_no_error_fetchAndExtract env isUpdate version assetName asset :
  shows no_error (fetchAndExtract env isUpdate version assetName asset).
Proof.
  unfold fetchAndExtract. cbv zeta. repeat shows_step; intros text; discriminate.
Qed.

(** X24.  The installer shows an error message exactly when it returns no
    path.  A run that raises does so because the storage root could not be
    made, and has changed and shown nothing.  A run that returns no path has
    shown one error message, its own, as the last thing.  A run that returns
    a path has shown no error message at all. *)
Theorem installer_reports_exactly_its_failures (env : Env) (isUpdate : bool) (w : World) :
  exists shown,
    ui (downloadLanguageServer env isUpdate w).2 = ui w ++ shown
    /\ match (downloadLanguageServer env isUpdate w).1 with
       | Thrown e =>
           ensureDir env (globalStoragePath env) w = (Thrown e, w)
           /\ (downloadLanguageServer env isUpdate w).2 = w
       | Returned None =>
           exists before m,
             shown = before ++ [ErrorMessage m]
             /\ Forall no_error before
             /\ (m = unsupportedMessage env \/ exists msg, m = failureMessage isUpdate msg)
       | Returned (Some _) => Forall no_error shown
       end.
Proof.
  assert (Hroot : forall w1, ensureDir env (globalStoragePath env) w = (Returned tt, w1) ->
            ui w1 = ui w).
  { intros w1 H. now rewrite <- (ensureDir_same ui env (globalStoragePath env) w), H. }
  assert (Hfetch : forall w1 w2 version assetName asset (o : Outcome string),
            fetchAndExtract env isUpdate version assetName asset
              (add_request releaseUrl w1) = (o, w2) ->
            exists shown, ui w2 = ui w1 ++ shown /\ Forall no_error shown).
  { intros w1 w2 version assetName asset o Hx.
    destruct (shows_no_error_fetchAndExtract env isUpdate version assetName asset
                (add_request releaseUrl w1)) as (shown & Hs & F).
    rewrite Hx in Hs. exists shown. split; [exact Hs|exact F]. }
  pose proof (downloadLanguageServer_run env isUpdate w) as Hrun.
  destruct Hrun
    as [e He | w1 err Hd Hr | w1 release Hd Hr Hb Hset
        | w1 release Hd Hr Hb Hwin0 Hdenied | w1 release Hd Hr Hb Hn
        | w1 release assetName Hd Hr Hb Hn Hf
        | w1 w2 release assetName asset e Hd Hr Hb Hn Hf Hx
        | w1 w2 w3 release assetName asset p e Hd Hr Hb Hn Hf Hx Hwin Hm
        | w1 w2 w3 release assetName asset p Hd Hr Hb Hn Hf Hx Hm];
    cbn [fst snd] in *; try specialize (Hroot w1 Hd).
  - exists []. rewrite app_nil_r. auto.
  - exists [ErrorMessage (failureMessage isUpdate err)]. cbn [ui add_ui add_request].
    rewrite Hroot. split; [reflexivity|]. exists [], (failureMessage isUpdate err). eauto.
  - exists []. rewrite app_nil_r, ui_after_present. auto.
  - exists [ErrorMessage
              (failureMessage isUpdate (refused (binaryPathOf env (tag_name release))))].
    unfold refused_present. cbn [ui add_ui add_console add_request].
    rewrite Hroot. split; [reflexivity|].
    exists [], (failureMessage isUpdate (refused (binaryPathOf env (tag_name release)))).
    eauto.
  - exists [ErrorMessage (unsupportedMessage env)]. cbn [ui add_ui add_request].
    rewrite Hroot. split; [reflexivity|]. exists [], (unsupportedMessage env). eauto.
  - exists [ErrorMessage (failureMessage isUpdate (missingAssetMessage assetName))].
    cbn [ui add_ui add_request]. rewrite Hroot. split; [reflexivity|].
    exists [], (failureMessage isUpdate (missingAssetMessage assetName)). eauto.
  - destruct (Hfetch _ _ _ _ _ _ Hx) as (shown & Hs & F).
    exists (shown ++ [ErrorMessage (failureMessage isUpdate e)]). cbn [ui add_ui].
    rewrite Hs, Hroot, <- app_assoc. split; [reflexivity|].
    exists shown, (failureMessage isUpdate e). eauto.
  - destruct (Hfetch _ _ _ _ _ _ Hx) as (shown & Hs & F).
    pose proof (chmod_same ui env p 493 w2 ltac:(reflexivity)) as Hc.
    rewrite Hm in Hc. cbn [snd] in Hc.
    exists (shown ++ [ErrorMessage (failureMessage isUpdate e)]). cbn [ui add_ui].
    rewrite Hc, Hs, Hroot, <- app_assoc. split; [reflexivity|].
    exists shown, (failureMessage isUpdate e). eauto.
  - destruct (Hfetch _ _ _ _ _ _ Hx) as (shown & Hs & F).
    pose proof (make_executable_same ui env p w2 ltac:(reflexivity)) as Hc.
    rewrite Hm in Hc. cbn [snd] in Hc.
    unfold installed. rewrite (keeps_cleanupOldVersions ui) by reflexivity.
    unfold announced.
    destruct isUpdate; [case_bool_decide|];
      cbn [ui add_ui add_command with_globalState]; rewrite Hc, Hs, Hroot, <- app_assoc;
      eexists; (split; [reflexivity|]);
      (apply Forall_app; split; [exact F|]);
      repeat constructor; intros text; discriminate.
Qed.
